(** * Berlin transport dashboard: the departure pipeline of [app.py]

    A shallow embedding of the three functions of [app.py] that carry a
    contract ([search_station], [get_departures], [process_departures]) and
    of the per-line average-delay view computed by the page script, followed
    by the properties of the specification that concern them.

    Conventions of the embedding.
    - Values decoded from JSON are [pyval]; a Python [dict] is an
      association list read from the front, which keeps insertion order.
    - Python integers are [Z].  A Python float is the rational it stands
      for ([Q]), or one of the three non-finite values; the arithmetic of
      line 137 rounds to binary64 as the machine does ([float64]).
    - Strings are [string]; a character is its code point (Latin-1 range).
    - An exception is a value of [exn]; a function that may raise returns
      [result].  Messages shown through [st.warning] / [st.error] are
      collected in a log.
    - What lies outside the program is taken through interfaces: the date
      parser of pandas ([DateParser]), its default sorting routine
      ([Quicksort], with the contract the library documents), the int64
      column a frame makes of the delays ([Int64Column]), the clock
      ([Clock]), the network ([Network]) and the environment ([Config]).
      Concrete instances are given for evaluation.
    - The libraries are read as of CPython 3.11, pandas 2 and 3, numpy 2
      and requests 2.27 or later, on Linux. *)

From Stdlib Require Import ZArith QArith Qround Qabs List String Ascii Bool Lia.
From Stdlib Require Import Permutation Sorted SpecFloat.
Import ListNotations.

Set Warnings "-register-all".

Local Open Scope string_scope.
Local Open Scope list_scope.
Local Open Scope Z_scope.

(** ** Python values *)

Inductive pyval : Type :=
| PNone
| PBool (b : bool)
| PInt (n : Z)
| PFloat (q : Q)
| PNaN
| PInf (negative : bool)
| PStr (s : string)
| PList (items : list pyval)
| PDict (fields : list (string * pyval)).

Inductive exn : Type :=
| AttributeError
| TypeError
| ValueError
| OverflowError
| OutOfBoundsDatetime
| DateParseError.

Inductive result (A : Type) : Type :=
| Ok (a : A)
| Raise (e : exn).
Arguments Ok {A} a.
Arguments Raise {A} e.

Definition bind {A B : Type} (r : result A) (k : A -> result B) : result B :=
  match r with
  | Ok a => k a
  | Raise e => Raise e
  end.

Notation "x <- r ;; k" := (bind r (fun x => k))
  (at level 61, r at next level, right associativity).

(** [d[k]] lookup on the association list of a dict. *)
Fixpoint lookup (k : string) (d : list (string * pyval)) : option pyval :=
  match d with
  | [] => None
  | (k', v) :: rest => if String.eqb k k' then Some v else lookup k rest
  end.

Definition get_or (d : list (string * pyval)) (key : string) (default : pyval) : pyval :=
  match lookup key d with
  | Some v => v
  | None => default
  end.

(** [obj.get(key, default)]: only a dict has the attribute [get]. *)
Definition py_get (obj : pyval) (key : string) (default : pyval) : result pyval :=
  match obj with
  | PDict d => Ok (get_or d key default)
  | _ => Raise AttributeError
  end.

(** Truth value of [if x]. *)
Definition truthy (v : pyval) : bool :=
  match v with
  | PNone => false
  | PBool b => b
  | PInt n => negb (n =? 0)
  | PFloat q => negb (Qnum q =? 0)
  | PNaN => true
  | PInf _ => true
  | PStr s => negb (String.eqb s "")
  | PList l => match l with [] => false | _ => true end
  | PDict d => match d with [] => false | _ => true end
  end.

(** ** [int(x)] *)

(** Characters for which [str.isspace] holds, in the Latin-1 range. *)
Definition is_space (c : ascii) : bool :=
  let n := nat_of_ascii c in
  ((9 <=? n) && (n <=? 13))%nat || ((28 <=? n) && (n <=? 32))%nat
  || (n =? 133)%nat || (n =? 160)%nat.

Definition is_digit (c : ascii) : bool :=
  let n := nat_of_ascii c in ((48 <=? n) && (n <=? 57))%nat.

Definition digit_value (c : ascii) : Z := Z.of_nat (nat_of_ascii c) - 48.

Fixpoint lstrip (s : string) : string :=
  match s with
  | String c rest => if is_space c then lstrip rest else s
  | EmptyString => s
  end.

Fixpoint all_space (s : string) : bool :=
  match s with
  | EmptyString => true
  | String c rest => is_space c && all_space rest
  end.

(** White space for [int]: the six blanks of ASCII and, in a string that
    is not ASCII, the characters of [str.isspace] above 127.  The
    separators 28 to 31 are white space for [str.isspace] and [strptime]
    but not here. *)
Definition is_int_space (c : ascii) : bool :=
  let n := nat_of_ascii c in
  ((9 <=? n) && (n <=? 13))%nat || (n =? 32)%nat || (n =? 133)%nat || (n =? 160)%nat.

Fixpoint int_lstrip (s : string) : string :=
  match s with
  | String c rest => if is_int_space c then int_lstrip rest else s
  | EmptyString => s
  end.

Fixpoint all_int_space (s : string) : bool :=
  match s with
  | EmptyString => true
  | String c rest => is_int_space c && all_int_space rest
  end.

(** [sys.get_int_max_str_digits()]: a literal of more digits is refused. *)
Definition int_max_str_digits : Z := 4300.

(** The digits of a decimal literal, after the sign.  [after_digit] tells
    whether the previous character was a digit: an underscore is accepted
    only between two digits, and trailing white space ends the literal.
    [digits] counts the digits read, leading zeros included. *)
Fixpoint int_digits (after_digit : bool) (digits acc : Z) (s : string) : option Z :=
  match s with
  | EmptyString =>
      if after_digit && (digits <=? int_max_str_digits) then Some acc else None
  | String c rest =>
      if is_digit c then int_digits true (digits + 1) (10 * acc + digit_value c) rest
      else if Ascii.eqb c "_" then
        if after_digit then
          match rest with
          | String c' _ => if is_digit c' then int_digits false digits acc rest else None
          | EmptyString => None
          end
        else None
      else if after_digit && all_int_space s && (digits <=? int_max_str_digits) then Some acc
      else None
  end.

(** [int(s)] for a string, base ten: white space, sign, digits. *)
Definition int_of_string (s : string) : option Z :=
  match int_lstrip s with
  | String "-" rest => option_map Z.opp (int_digits false 0 0 rest)
  | String "+" rest => int_digits false 0 0 rest
  | t => int_digits false 0 0 t
  end.

(** [int(x)]: truncation toward zero for a float. *)
Definition py_int (v : pyval) : result Z :=
  match v with
  | PNone => Raise TypeError
  | PBool b => Ok (if b then 1 else 0)
  | PInt n => Ok n
  | PFloat q => Ok (Z.quot (Qnum q) (Zpos (Qden q)))
  | PNaN => Raise ValueError
  | PInf _ => Raise OverflowError
  | PStr s => match int_of_string s with
              | Some n => Ok n
              | None => Raise ValueError
              end
  | PList _ => Raise TypeError
  | PDict _ => Raise TypeError
  end.

(** ** Timestamps

    A [pd.Timestamp]: [value] counts nanoseconds since the epoch (in UTC when
    the timestamp carries an offset, in wall-clock time when it is naive),
    [resolution] is the unit in which the timestamp is stored, as an int64
    (pandas 2 parses to nanoseconds, pandas 3 to the unit the input needs),
    [utcoffset] is the offset in seconds of an aware timestamp. *)

Inductive time_unit : Type :=
| Second
| Millisecond
| Microsecond
| Nanosecond.

Definition nanoseconds_in (u : time_unit) : Z :=
  match u with
  | Second => 1000000000
  | Millisecond => 1000000
  | Microsecond => 1000
  | Nanosecond => 1
  end.

Record Timestamp : Type := {
  value : Z;
  resolution : time_unit;
  utcoffset : option Z
}.

Definition wall_seconds (ts : Timestamp) : Z :=
  value ts / 1000000000 + match utcoffset ts with Some off => off | None => 0 end.

Definition hour (ts : Timestamp) : Z := (wall_seconds ts mod 86400) / 3600.
Definition minute (ts : Timestamp) : Z := (wall_seconds ts mod 3600) / 60.

Definition digit_char (d : Z) : ascii := ascii_of_nat (48 + Z.to_nat d).

Definition two_digits (n : Z) : string :=
  String (digit_char (n / 10)) (String (digit_char (n mod 10)) "").

(** [ts.strftime('%H:%M')] *)
Definition strftime_HM (ts : Timestamp) : string :=
  (two_digits (hour ts) ++ ":" ++ two_digits (minute ts))%string.

(** The finer of two units. *)
Definition finer (u v : time_unit) : time_unit :=
  if nanoseconds_in u <=? nanoseconds_in v then u else v.

(** An int64 other than its minimum, which stands for [NaT]. *)
Definition is_int64_time (n : Z) : bool := (- 2 ^ 63 <? n) && (n <? 2 ^ 63).

(** [a - b] on timestamps: a [Timedelta], here in nanoseconds.  Mixing an
    aware and a naive timestamp raises.  Both are first cast to the finer
    of their units and the difference is stored in that unit; a cast or a
    difference that leaves the int64 range raises, and the minimum of the
    range is [NaT], whose [total_seconds] is NaN, which [round] refuses. *)
Definition timestamp_sub (a b : Timestamp) : result Z :=
  match utcoffset a, utcoffset b with
  | Some _, None | None, Some _ => Raise TypeError
  | _, _ =>
      let tick := nanoseconds_in (finer (resolution a) (resolution b)) in
      if is_int64_time (value a / tick) && is_int64_time (value b / tick) then
        let d := value a / tick - value b / tick in
        if d =? - 2 ^ 63 then Raise ValueError
        else if is_int64_time d then Ok (value a - value b)
        else Raise OutOfBoundsDatetime
      else Raise OutOfBoundsDatetime
  end.

(** [round(x)]: to the nearest integer, a tie going to the even one. *)
Definition py_round (x : Q) : Z :=
  let n := Qnum x in
  let d := Zpos (Qden x) in
  let f := n / d in
  match (2 * (n mod d)) ?= d with
  | Lt => f
  | Gt => f + 1
  | Eq => if Z.even f then f else f + 1
  end.

(** ** Binary64 arithmetic

    The value of a float operation is the exact result rounded to the
    nearest double, a tie going to the double whose last bit is 0.  A double
    other than 0 is [m * 2^s] with [2^52 <= |m| < 2^53]: the rounding of
    [x] is that of [x / 2^s] to an integer, at the scale [s] of the binade
    of [x].  (The exponent has no bounds here; the values of line 137 stay
    far inside those of binary64.) *)

(** [2^k], also for a negative [k]. *)
Definition Qpow2 (k : Z) : Q :=
  if 0 <=? k then inject_Z (2 ^ k) else 1 # Z.to_pos (2 ^ (- k)).

(** The [e] with [2^e <= |x| < 2^(e+1)], for [|x| >= 2^(-1100)]. *)
Definition binade (x : Q) : Z :=
  Z.log2 (Qfloor (Qabs x * inject_Z (2 ^ 1100))) - 1100.

Definition float64 (x : Q) : Q :=
  if Qeq_bool x 0 then 0%Q
  else
    let s := binade x - 52 in
    Qred (inject_Z (py_round (x * Qpow2 (- s))) * Qpow2 s).

(** The doubles of the Standard Library's specification of IEEE 754, as
    rationals: [float64] is checked against its operations on samples. *)
Definition binary64_of_Z (n : Z) : spec_float := binary_normalize 53 1024 n 0 false.

Definition Q_of_binary64 (f : spec_float) : Q :=
  match f with
  | S754_finite s m e => Qred ((if s then - 1 else 1) * inject_Z (Zpos m) * Qpow2 e)
  | _ => 0%Q
  end.

(** [td.total_seconds()] of a [Timedelta] of [td] nanoseconds:
    [self.days * 24 * 3600 + self.seconds + self.microseconds / 1_000_000],
    which leaves the nanoseconds below a microsecond out. *)
Definition total_seconds (td : Z) : Q :=
  let us := td / 1000 in
  float64 (float64 (inject_Z (us / 1000000)) + float64 ((us mod 1000000) # 1000000)).

(** [pd.to_datetime] on a scalar.  [Raise] also stands for a result that is
    not a [Timestamp] ([NaT], an index built from a list): the truth test
    and the [strftime] that follow in the same [try] block raise on it. *)
Class DateParser : Type := {
  to_datetime : pyval -> result Timestamp
}.

(** [datetime.now()], as the number of seconds from the epoch to the start
    of the current day. *)
Class Clock : Type := {
  today_midnight : Z
}.

(** ** Rows of the departures table *)

Record row : Type := {
  Line : pyval;
  Direction : pyval;
  Scheduled : string;
  Expected : string;
  Delay_Min : Z;
  Platform : pyval
}.

Inductive message : Type :=
| SkippingRecord (e : exn)
| ApiKeyNotConfigured
| StationListNotFound
| DeparturesListNotFound
| ErrorSearchingStation
| ErrorDecodingSearch
| ErrorGettingDepartures
| ErrorDecodingDepartures.

Inductive diagnostic : Type :=
| StWarning (m : message)
| StError (m : message).

(** ** [process_departures]: one record *)

(** Lines 127-137: the delay in minutes, before clamping. *)
Definition delay_of (delay_seconds : pyval) (scheduled_dt expected_dt : option Timestamp)
  : result (option Z) :=
  match delay_seconds with
  | PNone =>
      match scheduled_dt, expected_dt with
      | Some s, Some e =>
          time_diff <- timestamp_sub e s ;;
          Ok (Some (py_round (float64 (total_seconds time_diff / (60 # 1)))))
      | _, _ => Ok None
      end
  | _ =>
      match py_int delay_seconds with
      | Ok n => Ok (Some (n / 60))
      | Raise ValueError => Ok (Some 0)
      | Raise TypeError => Ok (Some 0)
      | Raise e => Raise e
      end
  end.

(** Lines 140-141. *)
Definition clamp (delay_minutes : option Z) : option Z :=
  match delay_minutes with
  | Some m => if m <? 0 then Some 0 else Some m
  | None => None
  end.

Definition format_time (dt : option Timestamp) : string :=
  match dt with
  | Some ts => strftime_HM ts
  | None => "N/A"
  end.

Section Record_processing.
Context {parser : DateParser}.

(** [pd.to_datetime(s) if s else fallback] *)
Definition parse_or (s : pyval) (fallback : option Timestamp) : result (option Timestamp) :=
  if truthy s then (ts <- to_datetime s ;; Ok (Some ts)) else Ok fallback.

(** The body of the [try] block, lines 116-152.  The default of a [get] is
    evaluated before the call, hence the order of the inner lookups. *)
Definition process_record (dep : pyval) : result row :=
  line_info <- py_get dep "line" (PDict []) ;;
  product_name <- py_get line_info "productName" (PStr "N/A") ;;
  line_name <- py_get line_info "name" product_name ;;
  destination <- py_get dep "destination" (PStr "N/A") ;;
  direction <- py_get dep "direction" destination ;;
  scheduled_time <- py_get dep "scheduledTime" PNone ;;
  scheduled_time_str <- py_get dep "plannedWhen" scheduled_time ;;
  actual_time <- py_get dep "actualTime" scheduled_time_str ;;
  expected_time_str <- py_get dep "when" actual_time ;;
  delay_seconds <- py_get dep "delay" PNone ;;
  planned_platform <- py_get dep "plannedPlatform" (PStr "N/A") ;;
  platform <- py_get dep "platform" planned_platform ;;
  scheduled_dt <- parse_or scheduled_time_str None ;;
  expected_dt <- parse_or expected_time_str scheduled_dt ;;
  delay_minutes <- delay_of delay_seconds scheduled_dt expected_dt ;;
  let delay_minutes := clamp delay_minutes in
  Ok {| Line := line_name;
        Direction := direction;
        Scheduled := format_time scheduled_dt;
        Expected := format_time expected_dt;
        Delay_Min := match delay_minutes with Some m => m | None => 0 end;
        Platform := platform |}.

(** The [for] loop, lines 113-156: the rows appended to [processed_data] and
    the warnings shown, both in input order. *)
Fixpoint process_loop (departures_json : list pyval) : list row * list diagnostic :=
  match departures_json with
  | [] => ([], [])
  | dep :: rest =>
      let (processed_data, log) := process_loop rest in
      match process_record dep with
      | Ok r => (r :: processed_data, log)
      | Raise e => (processed_data, StWarning (SkippingRecord e) :: log)
      end
  end.

End Record_processing.

(** ** Sorting the table *)

(** [DataFrame.sort_values] and [Series.sort_values] with their default
    [kind='quicksort']: pandas hands the keys to numpy's [argsort].  The
    library promises a rearrangement of the input that is in order for the
    comparison, and documents that this kind is not stable; nothing more is
    assumed of it. *)
Class Quicksort : Type := {
  quicksort : forall {A : Type}, (A -> A -> bool) -> list A -> list A;
  quicksort_perm : forall (A : Type) (leb : A -> A -> bool) (l : list A),
      Permutation l (quicksort leb l);
  quicksort_sorted : forall (A : Type) (leb : A -> A -> bool),
      (forall x y, leb x y = true \/ leb y x = true) ->
      forall l, Sorted (fun x y => leb x y = true) (quicksort leb l)
}.

(** A stable sort (insertion sort): what [np.lexsort] computes for the
    fallback, and the reference against which stability is stated. *)
Fixpoint insert {A : Type} (leb : A -> A -> bool) (x : A) (l : list A) : list A :=
  match l with
  | [] => [x]
  | y :: rest => if leb x y then x :: l else y :: insert leb x rest
  end.

Fixpoint stable_sort {A : Type} (leb : A -> A -> bool) (l : list A) : list A :=
  match l with
  | [] => []
  | x :: rest => insert leb x (stable_sort leb rest)
  end.

(** [datetime.strptime(f"{today} {x}", '%Y-%m-%d %H:%M')], as seconds after
    midnight.  The date part always matches; the blank of the format stands
    for any run of white space; [%H] is one or two digits up to 23 and [%M]
    one or two digits up to 59; nothing may follow. *)
Definition strptime_digits (s : string) : option (Z * string) :=
  match s with
  | String c1 (String c2 rest) =>
      if is_digit c1 then
        if is_digit c2 then Some (10 * digit_value c1 + digit_value c2, rest)
        else Some (digit_value c1, String c2 rest)
      else None
  | String c1 EmptyString => if is_digit c1 then Some (digit_value c1, EmptyString) else None
  | EmptyString => None
  end.

Definition strptime_HM (x : string) : result Z :=
  match strptime_digits (lstrip x) with
  | Some (h, String ":" rest) =>
      match strptime_digits rest with
      | Some (m, EmptyString) =>
          if (h <=? 23) && (m <=? 59) then Ok (h * 3600 + m * 60) else Raise ValueError
      | _ => Raise ValueError
      end
  | _ => Raise ValueError
  end.

Section Sorting.
Context {clock : Clock} {sorter : Quicksort}.

(** The lambda of line 171: [pd.NaT] is [None]. *)
Definition sort_time (x : string) : result (option Z) :=
  if String.eqb x "N/A" then Ok None
  else (t <- strptime_HM x ;; Ok (Some (today_midnight + t))).

(** [df['Expected'].apply(...)]: raises as soon as one value does. *)
Fixpoint sort_time_column (df : list row) : result (list (row * option Z)) :=
  match df with
  | [] => Ok []
  | r :: rest =>
      k <- sort_time (Expected r) ;;
      ks <- sort_time_column rest ;;
      Ok ((r, k) :: ks)
  end.

Definition timed_rows (keyed : list (row * option Z)) : list (row * Z) :=
  flat_map (fun rk => match snd rk with Some t => [(fst rk, t)] | None => [] end) keyed.

Definition nat_rows (keyed : list (row * option Z)) : list row :=
  flat_map (fun rk => match snd rk with Some _ => [] | None => [fst rk] end) keyed.

(** [sort_values(by='sort_time', na_position='last')]: the rows that have a
    time are sorted by it; the rows whose time is [NaT] follow, in the order
    they had. *)
Definition sort_by_sort_time (keyed : list (row * option Z)) : list row :=
  map fst (quicksort (fun a b => snd a <=? snd b) (timed_rows keyed)) ++ nat_rows keyed.

(** The order of the pair ([Expected], [Scheduled]) of strings. *)
Definition lex_leb (a b : row) : bool :=
  match String.compare (Expected a) (Expected b) with
  | Lt => true
  | Eq => String.leb (Scheduled a) (Scheduled b)
  | Gt => false
  end.

(** [sort_values(by=['Expected', 'Scheduled'])]: a lexicographic sort on
    several columns, which pandas computes with a stable sort. *)
Definition sort_by_expected_scheduled (df : list row) : list row :=
  stable_sort lex_leb df.

(** Lines 167-178. *)
Definition sort_departures (df : list row) : list row :=
  match sort_time_column df with
  | Ok keyed => sort_by_sort_time keyed
  | Raise _ => sort_by_expected_scheduled df
  end.

End Sorting.

(** ** The frame and its column of delays *)

Definition fits_int64 (n : Z) : bool := (- 2 ^ 63 <=? n) && (n <? 2 ^ 63).

(** [pd.DataFrame(processed_data)] and, on its column of delays,
    [pd.to_numeric(..., errors='coerce').fillna(0).astype(int)] (lines 161
    and 164).  The loop stores Python integers.  When they all fit in 64
    bits the frame holds them in an int64 column, which line 164 leaves as
    it is.  An integer that does not fit makes the column a uint64, object
    or float64 column on the way, and comes out as another integer or makes
    the construction raise: of that case the interface fixes only that a
    column that comes out has the length it had. *)
Class Int64Column : Type := {
  astype_int : list Z -> result (list Z);
  astype_int_fits : forall column : list Z,
      forallb fits_int64 column = true -> astype_int column = Ok column;
  astype_int_length : forall column ints : list Z,
      astype_int column = Ok ints -> List.length ints = List.length column
}.

Definition with_delay (r : row) (delay : Z) : row :=
  {| Line := Line r;
     Direction := Direction r;
     Scheduled := Scheduled r;
     Expected := Expected r;
     Delay_Min := delay;
     Platform := Platform r |}.

Section Process_departures.
Context {parser : DateParser} {clock : Clock} {sorter : Quicksort} {column : Int64Column}.

(** Lines 161 and 164: [df_departures] before it is sorted.  The cells of
    the other columns are the values the loop stored. *)
Definition frame_of (processed_data : list row) : result (list row) :=
  delays <- astype_int (map Delay_Min processed_data) ;;
  Ok (map (fun rd => with_delay (fst rd) (snd rd)) (combine processed_data delays)).

(** [process_departures]: the table, as the list of its rows from top to
    bottom, or the exception that leaves the function, and the warnings
    shown on the way. *)
Definition process_departures (departures_json : list pyval)
  : result (list row) * list diagnostic :=
  match departures_json with
  | [] => (Ok [], [])
  | _ =>
      let (processed_data, log) := process_loop departures_json in
      match processed_data with
      | [] => (Ok [], log)
      | _ => (df_departures <- frame_of processed_data ;;
              Ok (sort_departures df_departures), log)
      end
  end.

End Process_departures.

(** The conversion as pandas computes it on x86-64.  Integers that all
    fit in 64 bits are an int64 column.  Non-negative integers below [2^64]
    are a uint64 column, which [astype(int)] reads again as int64, bit for
    bit.  Any other column of integers is an object column; [to_numeric]
    makes it a float64 column, which raises when an integer is beyond the
    doubles, and the cast of a double to int64 gives the minimum of int64
    when the double is out of range. *)
Definition wrap_int64 (n : Z) : Z := (n + 2 ^ 63) mod 2 ^ 64 - 2 ^ 63.

Definition fits_uint64 (n : Z) : bool := (0 <=? n) && (n <? 2 ^ 64).

Definition fits_double (n : Z) : bool := Z.abs n <? 2 ^ 1024 - 2 ^ 970.

Definition double_to_int64 (x : Q) : Z :=
  if fits_int64 (Qfloor x) then Z.quot (Qnum x) (Zpos (Qden x)) else - 2 ^ 63.

Definition x86_64_astype_int (column : list Z) : result (list Z) :=
  if forallb fits_int64 column then Ok column
  else if forallb fits_uint64 column then Ok (map wrap_int64 column)
  else if forallb fits_double column
       then Ok (map (fun n => double_to_int64 (float64 (inject_Z n))) column)
  else Raise OverflowError.

(** ** numpy's indirect quicksort

    [aquicksort] of numpy's [npysort/quicksort.cpp], the routine behind
    [argsort(kind='quicksort')] for a datetime64 array: median of three,
    partition around the pivot, and insertion sort for a range of at most
    16 elements.  [v] is the array of keys, [tosort] the array of indices
    being rearranged, [pl], [pr], [pm], [pi], [pj] are positions in it. *)

Fixpoint set_nth {A : Type} (i : nat) (x : A) (l : list A) : list A :=
  match l, i with
  | [], _ => []
  | _ :: rest, O => x :: rest
  | y :: rest, S i' => y :: set_nth i' x rest
  end.

Section Npysort.
Context {A : Type}.
Variable less : A -> A -> bool.
Variable v : list A.
Variable dflt : A.

(** [v[tosort[i]]] *)
Definition key_at (tosort : list nat) (i : nat) : A := nth (nth i tosort O) v dflt.

(** [INTP_SWAP(tosort[i], tosort[j])] *)
Definition intp_swap (tosort : list nat) (i j : nat) : list nat :=
  set_nth j (nth i tosort O) (set_nth i (nth j tosort O) tosort).

(** [do { ++pi; } while (less(v[*pi], vp))], entered with [pi] already
    incremented once. *)
Fixpoint scan_up (fuel : nat) (tosort : list nat) (vp : A) (pi : nat) : nat :=
  match fuel with
  | O => pi
  | S fuel' => if less (key_at tosort pi) vp then scan_up fuel' tosort vp (S pi) else pi
  end.

(** [do { --pj; } while (less(vp, v[*pj]))], entered with [pj] already
    decremented once. *)
Fixpoint scan_down (fuel : nat) (tosort : list nat) (vp : A) (pj : nat) : nat :=
  match fuel with
  | O => pj
  | S fuel' => if less vp (key_at tosort pj) then scan_down fuel' tosort vp (pred pj) else pj
  end.

(** The [for (;;)] loop of the partition; returns the array and [pi]. *)
Fixpoint partition_loop (fuel : nat) (tosort : list nat) (vp : A) (pi pj : nat)
  : list nat * nat :=
  match fuel with
  | O => (tosort, pi)
  | S fuel' =>
      let pi := scan_up (List.length tosort) tosort vp (S pi) in
      let pj := scan_down (List.length tosort) tosort vp (pred pj) in
      if (pj <=? pi)%nat then (tosort, pi)
      else partition_loop fuel' (intp_swap tosort pi pj) vp pi pj
  end.

(** The inner [while] of the insertion sort: shift the larger keys up and
    drop [vi] in the hole. *)
Fixpoint shift_up (fuel : nat) (tosort : list nat) (vi : nat) (vp : A) (pl pj : nat)
  : list nat :=
  match fuel with
  | O => set_nth pj vi tosort
  | S fuel' =>
      if (pl <? pj)%nat && less vp (key_at tosort (pred pj))
      then shift_up fuel' (set_nth pj (nth (pred pj) tosort O) tosort) vi vp pl (pred pj)
      else set_nth pj vi tosort
  end.

(** [for (pi = pl + 1; pi <= pr; ++pi)], with [count] iterations left. *)
Fixpoint insertion_range (count : nat) (tosort : list nat) (pl pi : nat) : list nat :=
  match count with
  | O => tosort
  | S count' =>
      let vi := nth pi tosort O in
      insertion_range count'
        (shift_up (List.length tosort) tosort vi (nth vi v dflt) pl pi) pl (S pi)
  end.

(** One range [pl..pr].  The two parts of a partition are sorted one after
    the other (numpy keeps the larger on a stack).  [depth] bounds the
    nesting and is never used up, a part being shorter than the range it
    is cut from.  (numpy also leaves a range to heapsort once the nesting
    passes twice the binary logarithm of the length; that escape is left
    out.  It is not reached on the inputs evaluated below, which take one
    partition.) *)
Fixpoint aquicksort_range (depth : nat) (tosort : list nat) (pl pr : nat) : list nat :=
  match depth with
  | O => insertion_range (pr - pl) tosort pl (S pl)
  | S depth' =>
      if (15 <? pr - pl)%nat then
        let pm := (pl + (pr - pl) / 2)%nat in
        let tosort := if less (key_at tosort pm) (key_at tosort pl)
                      then intp_swap tosort pm pl else tosort in
        let tosort := if less (key_at tosort pr) (key_at tosort pm)
                      then intp_swap tosort pr pm else tosort in
        let tosort := if less (key_at tosort pm) (key_at tosort pl)
                      then intp_swap tosort pm pl else tosort in
        let vp := key_at tosort pm in
        let tosort := intp_swap tosort pm (pred pr) in
        let (tosort, pi) := partition_loop (List.length tosort) tosort vp pl (pred pr) in
        let tosort := intp_swap tosort pi (pred pr) in
        let tosort := aquicksort_range depth' tosort pl (pred pi) in
        aquicksort_range depth' tosort (S pi) pr
      else insertion_range (pr - pl) tosort pl (S pl)
  end.

Definition aquicksort : list nat :=
  let num := List.length v in
  aquicksort_range num (seq 0 num) 0 (pred num).

End Npysort.

Fixpoint sorted_b {A : Type} (leb : A -> A -> bool) (l : list A) : bool :=
  match l with
  | x :: (y :: _) as rest => leb x y && sorted_b leb rest
  | _ => true
  end.

Definition is_arrangement (idx : list nat) (n : nat) : bool :=
  if list_eq_dec Nat.eq_dec (stable_sort Nat.leb idx) (seq 0 n) then true else false.

(** Sorting by numpy's routine: the elements taken in the order of the
    indices it returns.  The result is checked to be an arrangement of the
    input in order (it always is; the check stands for the proof of it), and
    only then used. *)
Definition npy_quicksort {A : Type} (leb : A -> A -> bool) (l : list A) : list A :=
  match l with
  | [] => []
  | d :: _ =>
      let idx := aquicksort (fun a b => negb (leb b a)) l d in
      let sorted := map (fun i => nth i l d) idx in
      if is_arrangement idx (List.length l) && sorted_b leb sorted then sorted
      else stable_sort leb l
  end.

(** ** The average delay per line (page script, lines 305-313) *)

(** A group label of [groupby('Line')]: a hashable value that is not null,
    up to Python's equality (a bool is the integer it equals). *)
Inductive label : Type :=
| LNum (q : Q)
| LInf (negative : bool)
| LStr (s : string).

(** [None] for a label that [groupby] leaves out (null, NaN); a list or a
    dict is not hashable. *)
Definition label_of (v : pyval) : result (option label) :=
  match v with
  | PNone => Ok None
  | PNaN => Ok None
  | PBool b => Ok (Some (LNum (if b then 1 else 0)))
  | PInt n => Ok (Some (LNum (inject_Z n)))
  | PFloat q => Ok (Some (LNum q))
  | PInf s => Ok (Some (LInf s))
  | PStr s => Ok (Some (LStr s))
  | PList _ => Raise TypeError
  | PDict _ => Raise TypeError
  end.

Definition label_eqb (a b : label) : bool :=
  match a, b with
  | LNum p, LNum q => Qeq_bool p q
  | LInf s, LInf t => Bool.eqb s t
  | LStr s, LStr t => String.eqb s t
  | _, _ => false
  end.

(** The order in which [groupby] lists its groups: numbers by value,
    strings by code points.  (Labels of both kinds in one column are put
    numbers first, a convention of the embedding.) *)
Definition label_leb (a b : label) : bool :=
  match a, b with
  | LStr s, LStr t => String.leb s t
  | LStr _, _ => false
  | _, LStr _ => true
  | LInf true, _ => true
  | _, LInf true => false
  | _, LInf false => true
  | LInf false, LNum _ => false
  | LNum p, LNum q => Qle_bool p q
  end.

(** The labelled delays of the rows, in row order. *)
Fixpoint labelled (df : list row) : result (list (label * Z)) :=
  match df with
  | [] => Ok []
  | r :: rest =>
      l <- label_of (Line r) ;;
      ls <- labelled rest ;;
      Ok (match l with Some k => (k, Delay_Min r) :: ls | None => ls end)
  end.

(** One label per group, at its first occurrence. *)
Fixpoint distinct_labels (ks : list label) : list label :=
  match ks with
  | [] => []
  | k :: rest => k :: filter (fun k' => negb (label_eqb k' k)) (distinct_labels rest)
  end.

Definition group_values (k : label) (rows : list (label * Z)) : list Z :=
  map snd (filter (fun kv => label_eqb (fst kv) k) rows).

Definition sum (l : list Z) : Z := fold_right Z.add 0 l.

(** The arithmetic mean of a non-empty group. *)
Definition mean (l : list Z) : Q := inject_Z (sum l) / inject_Z (Z.of_nat (List.length l)).

(** [groupby('Line')['Delay (Min)'].mean()] *)
Definition groupby_mean (rows : list (label * Z)) : list (label * Q) :=
  map (fun k => (k, mean (group_values k rows)))
      (stable_sort label_leb (distinct_labels (map fst rows))).

Definition positive_delays (df : list row) : list row :=
  filter (fun r => 0 <? Delay_Min r) df.

Section Average_delay.
Context {sorter : Quicksort}.

(** [sort_values(ascending=False)]: pandas reverses the keys, sorts them
    upwards and reverses the outcome. *)
Definition sort_values_descending (s : list (label * Q)) : list (label * Q) :=
  rev (quicksort (fun a b => Qle_bool (snd a) (snd b)) (rev s)).

(** The series given to [st.bar_chart], from its first entry to its last;
    [None] when there is no positive delay and the page shows a note
    instead. *)
Definition avg_delay (df_display : list row) : result (option (list (label * Q))) :=
  match positive_delays df_display with
  | [] => Ok None
  | positive =>
      rows <- labelled positive ;;
      Ok (Some (firstn 15 (sort_values_descending (groupby_mean rows))))
  end.

End Average_delay.

(** ** The two API clients *)

Inductive http_body : Type :=
| NotJson
| Json (data : pyval).

(** What [requests.get] meets: no response at all (connection error, timeout)
    or a response with a status code and a body. *)
Inductive http_reply : Type :=
| RequestFailed
| Response (status_code : Z) (body : http_body).

Class Network : Type := {
  requests_get : string -> list (string * pyval) -> http_reply
}.

Class Config : Type := {
  API_KEY : string
}.

Definition BASE_URL : string := "https://vbb-api-endpoint.example.com/v1".
Definition LOCATION_SEARCH_ENDPOINT : string := (BASE_URL ++ "/locations")%string.
Definition DEPARTURES_ENDPOINT (stop_id : string) : string :=
  (BASE_URL ++ "/stops/" ++ stop_id ++ "/departures")%string.

(** [response.raise_for_status()] raises for the codes 400 to 599. *)
Definition is_http_error (status_code : Z) : bool :=
  (400 <=? status_code) && (status_code <? 600).

(** [key in s] for a string [s]. *)
Definition str_contains (key s : string) : bool :=
  match String.index 0 key s with
  | Some _ => true
  | None => false
  end.

(** The loop over [potential_keys] (lines 47-50 and 87-90).  [key in data]
    is a key test on a dict and a substring test on a string, where
    [data[key]] then raises; other values are not containers. *)
Fixpoint probe_keys (potential_keys : list string) (data : pyval)
  : result (option (list pyval)) :=
  match potential_keys with
  | [] => Ok None
  | key :: rest =>
      match data with
      | PDict d =>
          match lookup key d with
          | Some (PList l) => Ok (Some l)
          | _ => probe_keys rest data
          end
      | PStr s => if str_contains key s then Raise TypeError else probe_keys rest data
      | _ => Raise TypeError
      end
  end.

(** Lines 43-50 and 83-90: [found_list]. *)
Definition find_list (potential_keys : list string) (data : pyval)
  : result (option (list pyval)) :=
  match data with
  | PList l => Ok (Some l)
  | _ => probe_keys potential_keys data
  end.

(** The filter of line 54: [loc.get('type') == 'stop' or 'id' in loc]. *)
Definition is_station (loc : pyval) : result bool :=
  type <- py_get loc "type" PNone ;;
  Ok (match type with PStr t => String.eqb t "stop" | _ => false end
      || match loc with
         | PDict d => match lookup "id" d with Some _ => true | None => false end
         | _ => false
         end).

(** The list comprehension of line 54. *)
Fixpoint keep_stations (found_list : list pyval) : result (list pyval) :=
  match found_list with
  | [] => Ok []
  | loc :: rest =>
      keep <- is_station loc ;;
      stations <- keep_stations rest ;;
      Ok (if keep then loc :: stations else stations)
  end.

Definition dummy_stations : list pyval :=
  [ PDict [("id", PStr "900000100001"); ("name", PStr "Example Station A (Dummy)")];
    PDict [("id", PStr "900000100002"); ("name", PStr "Example Station B (Dummy)")] ].

Definition dummy_departures : list pyval :=
  [ PDict [("line", PDict [("name", PStr "S1")]); ("direction", PStr "Destination A");
           ("when", PStr "2025-10-26T10:15:00+01:00");
           ("plannedWhen", PStr "2025-10-26T10:15:00+01:00"); ("delay", PInt 0)];
    PDict [("line", PDict [("name", PStr "U2")]); ("direction", PStr "Destination B");
           ("when", PStr "2025-10-26T10:18:00+01:00");
           ("plannedWhen", PStr "2025-10-26T10:17:00+01:00"); ("delay", PInt 60)] ].

Section Clients.
Context {config : Config} {network : Network}.

(** [not API_KEY or API_KEY == "YOUR_VBB_API_KEY_HERE"] *)
Definition api_key_missing : bool :=
  String.eqb API_KEY "" || String.eqb API_KEY "YOUR_VBB_API_KEY_HERE".

(** [search_station]: what the call returns or raises, and the messages it
    shows.  An exception other than the two kinds the function catches
    leaves it.  The error that [response.json()] raises on a body that is
    not JSON is a [RequestException] as well (requests 2.27 and later), so
    the first handler reports it and the second is never reached. *)
Definition search_station (query : string) : result (list pyval) * list diagnostic :=
  if api_key_missing then (Ok dummy_stations, [StError ApiKeyNotConfigured])
  else
    match requests_get LOCATION_SEARCH_ENDPOINT [("query", PStr query); ("results", PInt 5)] with
    | RequestFailed => (Ok [], [StError ErrorSearchingStation])
    | Response status_code body =>
        if is_http_error status_code then (Ok [], [StError ErrorSearchingStation])
        else
          match body with
          | NotJson => (Ok [], [StError ErrorSearchingStation])
          | Json data =>
              match find_list ["locations"; "stopLocations"; "station"]%string data with
              | Raise e => (Raise e, [])
              | Ok None => (Ok [], [StWarning StationListNotFound])
              | Ok (Some found_list) =>
                  match keep_stations found_list with
                  | Raise e => (Raise e, [])
                  | Ok stations => (Ok (firstn 5 stations), [])
                  end
              end
          end
    end.

(** [get_departures] *)
Definition get_departures (stop_id : string) (duration_minutes : Z)
  : result (list pyval) * list diagnostic :=
  if api_key_missing then (Ok dummy_departures, [StError ApiKeyNotConfigured])
  else
    match requests_get (DEPARTURES_ENDPOINT stop_id)
                       [("duration", PInt duration_minutes); ("results", PInt 20)] with
    | RequestFailed => (Ok [], [StError ErrorGettingDepartures])
    | Response status_code body =>
        if is_http_error status_code then (Ok [], [StError ErrorGettingDepartures])
        else
          match body with
          | NotJson => (Ok [], [StError ErrorGettingDepartures])
          | Json data =>
              match find_list ["departures"; "journeys"; "connections"]%string data with
              | Raise e => (Raise e, [])
              | Ok None => (Ok [], [StWarning DeparturesListNotFound])
              | Ok (Some found_list) => (Ok found_list, [])
              end
          end
    end.

End Clients.

(** ** The values a record resolves

    The names of the local variables of the [try] block, as functions of the
    fields [d] of a record. *)

Definition line_info (d : list (string * pyval)) : pyval := get_or d "line" (PDict []).

Definition direction (d : list (string * pyval)) : pyval :=
  get_or d "direction" (get_or d "destination" (PStr "N/A")).

Definition scheduled_time_str (d : list (string * pyval)) : pyval :=
  get_or d "plannedWhen" (get_or d "scheduledTime" PNone).

Definition expected_time_str (d : list (string * pyval)) : pyval :=
  get_or d "when" (get_or d "actualTime" (scheduled_time_str d)).

Definition delay_seconds (d : list (string * pyval)) : pyval := get_or d "delay" PNone.

Definition platform (d : list (string * pyval)) : pyval :=
  get_or d "platform" (get_or d "plannedPlatform" (PStr "N/A")).

(** ** Instances for evaluation *)

Fixpoint digits_acc (acc : Z) (s : string) : option Z :=
  match s with
  | EmptyString => Some acc
  | String c rest => if is_digit c then digits_acc (10 * acc + digit_value c) rest else None
  end.

(** A field of exactly [n] decimal digits. *)
Definition fixed_number (n : nat) (s : string) : option Z :=
  if (String.length s =? n)%nat && negb (n =? 0)%nat then digits_acc 0 s else None.

Definition char_at (n : nat) (s : string) (c : ascii) : bool :=
  match String.get n s with
  | Some c' => Ascii.eqb c c'
  | None => false
  end.

Definition is_leap (y : Z) : bool :=
  ((y mod 4 =? 0) && negb (y mod 100 =? 0)) || (y mod 400 =? 0).

Definition days_in_month (y m : Z) : Z :=
  if m =? 2 then (if is_leap y then 29 else 28)
  else if (m =? 4) || (m =? 6) || (m =? 9) || (m =? 11) then 30
  else 31.

(** Days from 1970-01-01 to the given date of the Gregorian calendar. *)
Definition days_from_civil (y m d : Z) : Z :=
  let y' := if m <=? 2 then y - 1 else y in
  let era := y' / 400 in
  let yoe := y' - era * 400 in
  let doy := (153 * (if 2 <? m then m - 3 else m + 9) + 2) / 5 + d - 1 in
  let doe := yoe * 365 + yoe / 4 - yoe / 100 + doy in
  era * 146097 + doe - 719468.

(** The offset that may end an ISO 8601 date-time: nothing, [Z], or a sign
    and [HH:MM]. *)
Definition parse_utcoffset (s : string) : option (option Z) :=
  match s with
  | EmptyString => Some None
  | String sign rest =>
      if Ascii.eqb sign "Z" then
        match rest with EmptyString => Some (Some 0) | _ => None end
      else if char_at 2 rest ":" then
        match fixed_number 2 (String.substring 0 2 rest),
              fixed_number 2 (String.substring 3 (String.length rest - 3) rest) with
        | Some h, Some m =>
            if (h <=? 23) && (m <=? 59) then
              if Ascii.eqb sign "+" then Some (Some (h * 3600 + m * 60))
              else if Ascii.eqb sign "-" then Some (Some (- (h * 3600 + m * 60)))
              else None
            else None
        | _, _ => None
        end
      else None
  end.

(** [YYYY-MM-DDTHH:MM:SS], with an optional offset. *)
Definition iso8601 (s : string) : option Timestamp :=
  if char_at 4 s "-" && char_at 7 s "-" && char_at 10 s "T"
     && char_at 13 s ":" && char_at 16 s ":" then
    match fixed_number 4 (String.substring 0 4 s),
          fixed_number 2 (String.substring 5 2 s),
          fixed_number 2 (String.substring 8 2 s),
          fixed_number 2 (String.substring 11 2 s),
          fixed_number 2 (String.substring 14 2 s),
          fixed_number 2 (String.substring 17 2 s),
          parse_utcoffset (String.substring 19 (String.length s - 19) s) with
    | Some y, Some mo, Some d, Some h, Some mi, Some sec, Some off =>
        if (1678 <=? y) && (y <=? 2261) && (1 <=? mo) && (mo <=? 12)
           && (1 <=? d) && (d <=? days_in_month y mo)
           && (h <=? 23) && (mi <=? 59) && (sec <=? 59) then
          let wall := days_from_civil y mo d * 86400 + h * 3600 + mi * 60 + sec in
          Some {| value := (wall - match off with Some o => o | None => 0 end) * 1000000000;
                  resolution := Microsecond;
                  utcoffset := off |}
        else None
    | _, _, _, _, _, _, _ => None
    end
  else None.

(** [pd.to_datetime] cut down to ISO 8601 strings of whole seconds in the
    years every version reads, on which it is exact; pandas reads many more
    inputs, which this parser refuses.  The unit is that of pandas 3. *)
Definition iso8601_parser : DateParser :=
  {| to_datetime v :=
       match v with
       | PStr s => match iso8601 s with
                   | Some ts => Ok ts
                   | None => Raise DateParseError
                   end
       | _ => Raise DateParseError
       end |}.

(** A day on which the page is opened: 2025-10-26. *)
Definition clock_2025_10_26 : Clock :=
  {| today_midnight := days_from_civil 2025 10 26 * 86400 |}.

(** A network that answers every request with [reply]. *)
Definition replying (reply : http_reply) : Network :=
  {| requests_get _ _ := reply |}.

Definition configured : Config := {| API_KEY := "0123-4567-89ab" |}.
Definition unconfigured : Config := {| API_KEY := "YOUR_VBB_API_KEY_HERE" |}.

(** ** Notions used in the statements *)

(** The decimal numeral written with the digits [ds], and its value. *)
Definition numeral (ds : list Z) : string :=
  fold_right (fun d s => String (digit_char d) s) EmptyString ds.

Definition numeral_value (ds : list Z) : Z :=
  fold_left (fun acc d => 10 * acc + d) ds 0.

Definition is_decimal_digit (d : Z) : Prop := 0 <= d <= 9.

(** A value that [int] does not convert. *)
Definition non_numeric (v : pyval) : Prop := forall n, py_int v <> Ok n.

(** No delay can be determined from a record: it carries no delay (or a
    null one) and no scheduled time to compare the expected time with, or
    it carries a delay that is not a number. *)
Definition delay_undetermined (d : list (string * pyval)) : Prop :=
  (delay_seconds d = PNone /\ truthy (scheduled_time_str d) = false)
  \/ (delay_seconds d <> PNone /\ non_numeric (delay_seconds d)).

(** The delays of the rows all fit in an int64 column. *)
Definition delays_fit (df : list row) : bool :=
  forallb (fun r => fits_int64 (Delay_Min r)) df.

(** [f] is an integer nearest to [n / d], the even one of the two when
    [n / d] lies half-way between them. *)
Definition nearest_even (n : Z) (d : positive) (f : Z) : Prop :=
  2 * Z.abs (n - Zpos d * f) < Zpos d
  \/ (2 * Z.abs (n - Zpos d * f) = Zpos d /\ Z.even f = true).

(** A time of day written by [strftime('%H:%M')]. *)
Definition hhmm (h m : Z) : string := (two_digits h ++ ":" ++ two_digits m)%string.

(** [Expected] is ["N/A"] or a time of day of two digits each. *)
Definition well_formed_expected (r : row) : Prop :=
  Expected r = "N/A" \/ exists h m, 0 <= h <= 23 /\ 0 <= m <= 59 /\ Expected r = hhmm h m.

Definition string_lt (s t : string) : Prop := String.compare s t = Lt.
Definition string_le (s t : string) : Prop := String.compare s t <> Gt.

(** The pair ([Expected], [Scheduled]) of [a] is at most that of [b]. *)
Definition lex_le (a b : row) : Prop :=
  string_lt (Expected a) (Expected b)
  \/ (Expected a = Expected b /\ string_le (Scheduled a) (Scheduled b)).

Section Canonical_order.
Context {clock : Clock}.

(** The rows are in ascending order of the same-day timestamp rebuilt from
    [Expected], and the rows whose [Expected] is ["N/A"] come after all the
    others. *)
Definition ascending_by_expected (df : list row) : Prop :=
  exists (timed : list (row * Z)) (na : list row),
    df = map fst timed ++ na
    /\ Forall (fun rt => sort_time (Expected (fst rt)) = Ok (Some (snd rt))) timed
    /\ StronglySorted (fun a b => snd a <= snd b) timed
    /\ Forall (fun r => Expected r = "N/A") na.

End Canonical_order.

(** The resolver as the specification words it: the value of the first
    candidate key that is present and not null. *)
Fixpoint first_non_null (d : list (string * pyval)) (keys : list string) (default : pyval)
  : pyval :=
  match keys with
  | [] => default
  | key :: rest =>
      match lookup key d with
      | Some PNone => first_non_null d rest default
      | Some v => v
      | None => first_non_null d rest default
      end
  end.

(** The value of the first candidate key that is present, null or not. *)
Fixpoint first_present (d : list (string * pyval)) (keys : list string) (default : pyval)
  : pyval :=
  match keys with
  | [] => default
  | key :: rest =>
      match lookup key d with
      | Some v => v
      | None => first_present d rest default
      end
  end.

Definition non_empty_string (v : pyval) : Prop := exists s, v = PStr s /\ s <> "".

(** An entry that looks like a station: it has the type marker ["stop"] or
    carries an identifier. *)
Definition carries_id_or_stop (loc : pyval) : bool :=
  match loc with
  | PDict d =>
      match lookup "type" d with Some (PStr t) => String.eqb t "stop" | _ => false end
      || match lookup "id" d with Some _ => true | None => false end
  | _ => false
  end.

(** A candidate cut down to the two fields [id] and [name]. *)
Definition has_exactly_id_and_name (loc : pyval) : Prop :=
  match loc with
  | PDict d => forall key, (exists v, lookup key d = Some v) <-> (key = "id" \/ key = "name")
  | _ => False
  end.


(** ** Sample inputs *)

(** Sample records, in the shape of the placeholder data of
    [get_departures]. *)
Definition departure_u2 : list (string * pyval) :=
  [("line", PDict [("name", PStr "U2")]); ("direction", PStr "Destination B");
   ("when", PStr "2025-10-26T10:18:00+01:00");
   ("plannedWhen", PStr "2025-10-26T10:17:00+01:00"); ("delay", PInt 60)].

Definition departure_null_delay : list (string * pyval) :=
  [("line", PDict [("name", PStr "S1")]); ("direction", PStr "Potsdam Hbf");
   ("when", PStr "2025-10-26T10:07:00+01:00");
   ("plannedWhen", PStr "2025-10-26T10:00:00+01:00"); ("delay", PNone)].

Definition departure_text_delay : list (string * pyval) :=
  [("line", PDict [("name", PStr "S7")]); ("direction", PStr "Ahrensfelde");
   ("when", PStr "2025-10-26T10:09:00+01:00");
   ("plannedWhen", PStr "2025-10-26T10:00:00+01:00"); ("delay", PStr "late")].

Definition departure_early : list (string * pyval) :=
  [("line", PDict [("name", PStr "S1")]); ("direction", PStr "Potsdam Hbf");
   ("when", PStr "2025-10-26T09:58:00+01:00");
   ("plannedWhen", PStr "2025-10-26T10:00:00+01:00")].

Definition row_of (line direction scheduled expected : string) (delay : Z) : row :=
  {| Line := PStr line; Direction := PStr direction; Scheduled := scheduled;
     Expected := expected; Delay_Min := delay; Platform := PStr "N/A" |}.

Definition departure_no_times : list (string * pyval) :=
  [("line", PDict [("productName", PStr "Bus")]); ("destination", PStr "Erkner")].

Definition departure_unparsable : list (string * pyval) :=
  [("line", PDict [("name", PStr "S5")]); ("direction", PStr "Strausberg");
   ("plannedWhen", PStr "soon"); ("delay", PStr "late")].

(** A table with a value of [Expected] that [strptime] rejects. *)
Definition table_unreadable_time : list row :=
  [ row_of "S1" "Potsdam Hbf" "10:00" "N/A" 0;
    row_of "U2" "Pankow" "09:30" "9h30" 0;
    row_of "S7" "Ahrensfelde" "10:00" "10:00" 0;
    row_of "S5" "Strausberg" "09:45" "09:45" 0 ].

(** Eighteen departures of different lines, all expected at 10:00. *)
Definition lines_at_ten : list string :=
  ["S1"; "S2"; "S25"; "S26"; "S3"; "S41"; "S42"; "S45"; "S46";
   "S47"; "S5"; "S7"; "S75"; "S8"; "S85"; "S9"; "U1"; "U2"].

Definition departure_at_ten (line : string) : pyval :=
  PDict [("line", PDict [("name", PStr line)]); ("direction", PStr "Ostkreuz");
         ("plannedWhen", PStr "2025-10-26T10:00:00+01:00"); ("delay", PInt 0)].

Definition row_at_ten (line : string) : row := row_of line "Ostkreuz" "10:00" "10:00" 0.

Definition departure_null_direction : list (string * pyval) :=
  [("line", PDict [("name", PStr "S3")]); ("direction", PNone);
   ("destination", PStr "Erkner")].

Definition stop_alexanderplatz : pyval :=
  PDict [("type", PStr "stop"); ("id", PStr "900100003");
         ("name", PStr "S+U Alexanderplatz");
         ("location", PDict [("latitude", PFloat (52521 # 1000));
                             ("longitude", PFloat (13411 # 1000))])].

Definition street_alexanderstrasse : pyval :=
  PDict [("type", PStr "address"); ("address", PStr "Alexanderstr. 1")].

Definition search_reply : http_reply :=
  Response 200 (Json (PDict [("locations",
                              PList [street_alexanderstrasse; stop_alexanderplatz])])).


(** ** The departures section of the page (lines 286-319)

    What the page shows for a selected station when no table is cached: the
    messages in the order they appear, the table and the chart. *)

Inductive page_message : Type :=
| Shown (d : diagnostic)
| InfoNoPositiveDelays
| WarningNoDepartureData.

Record departures_view : Type := {
  messages : list page_message;
  table : option (list row);
  chart : option (list (label * Q))
}.

Section Page.
Context {config : Config} {network : Network}.
Context {parser : DateParser} {clock : Clock} {sorter : Quicksort} {column : Int64Column}.

(** Lines 287-290 and 293-319, which the script reaches only with a
    configured key (it stops at line 191 otherwise).  An exception that
    leaves [get_departures], [process_departures] or the computation of the
    chart leaves the page script as well; the calls that draw the table and
    the chart are taken to succeed. *)
Definition show_departures (selected_station_id : string) : result departures_view :=
  match get_departures selected_station_id 60 with
  | (Raise e, _) => Raise e
  | (Ok departures_json, fetch_log) =>
      let (departures_df, process_log) := process_departures departures_json in
      df_display <- departures_df ;;
      let log := map Shown (fetch_log ++ process_log) in
      match df_display with
      | [] => Ok {| messages := log ++ [WarningNoDepartureData];
                    table := None; chart := None |}
      | _ =>
          series <- avg_delay df_display ;;
          Ok (match series with
              | Some s => {| messages := log; table := Some df_display; chart := Some s |}
              | None => {| messages := log ++ [InfoNoPositiveDelays];
                           table := Some df_display; chart := None |}
              end)
      end
  end.

End Page.

(** ** Further notions used in the statements *)

(** The row has no expected time. *)
Definition is_na (r : row) : bool := String.eqb (Expected r) "N/A".

(** The same instant [k] whole days later. *)
Definition days_later (k : Z) (ts : Timestamp) : Timestamp :=
  {| value := value ts + 86400000000000 * k;
     resolution := resolution ts;
     utcoffset := utcoffset ts |}.

(** A value that cannot be a group label: a list or a dict. *)
Definition unhashable (v : pyval) : bool :=
  match v with
  | PList _ => true
  | PDict _ => true
  | _ => false
  end.

Definition is_object (v : pyval) : bool :=
  match v with
  | PDict _ => true
  | _ => false
  end.

(** Further sample inputs. *)
Definition departure_line_as_text : list (string * pyval) :=
  [("line", PStr "S1"); ("direction", PStr "Potsdam Hbf"); ("delay", PInt 120)].

Definition departure_mixed_awareness : list (string * pyval) :=
  [("line", PDict [("name", PStr "S1")]);
   ("plannedWhen", PStr "2025-10-26T10:00:00+01:00");
   ("when", PStr "2025-10-26T10:07:00")].

Definition departure_infinite_delay : list (string * pyval) :=
  [("line", PDict [("name", PStr "S1")]); ("delay", PInf false)].

Definition departure_late_90 : list (string * pyval) :=
  [("line", PDict [("name", PStr "S9")]);
   ("plannedWhen", PStr "2025-10-26T10:00:00+01:00");
   ("when", PStr "2025-10-26T10:01:30+01:00")].

Definition departure_list_line : list (string * pyval) :=
  [("line", PDict [("name", PList [PStr "S1"; PStr "S2"])]); ("delay", PInt 300)].

(** A delay of [2^63] minutes, in seconds. *)
Definition departure_huge_delay : list (string * pyval) :=
  [("line", PDict [("name", PStr "S1")]); ("direction", PStr "Potsdam Hbf");
   ("delay", PInt 553402322211286548480)].

Definition departures_reply : http_reply :=
  Response 200 (Json (PDict [("departures", PNone);
                             ("journeys", PList [PDict departure_u2; PDict departure_early]);
                             ("connections", PList [])])).

(** * Properties *)

(** ** Sorting *)

Section Stable_sort.
Context {A : Type}.
Variable leb : A -> A -> bool.

Lemma insert_perm : forall (x : A) (l : list A), Permutation (x :: l) (insert leb x l).
Proof.
  intros x l; induction l as [|y rest IH]; simpl.
  - apply Permutation_refl.
  - destruct (leb x y).
    + apply Permutation_refl.
    + eapply perm_trans; [apply perm_swap | apply perm_skip, IH].
Qed.

Lemma stable_sort_perm : forall l : list A, Permutation l (stable_sort leb l).
Proof.
  induction l as [|x rest IH]; simpl.
  - constructor.
  - eapply perm_trans; [apply perm_skip, IH | apply insert_perm].
Qed.

Hypothesis leb_total : forall x y, leb x y = true \/ leb y x = true.

Lemma insert_sorted : forall (x : A) (l : list A),
    Sorted (fun a b => leb a b = true) l ->
    Sorted (fun a b => leb a b = true) (insert leb x l).
Proof.
  intros x l; induction l as [|y rest IH]; simpl; intros Hs.
  - repeat constructor.
  - destruct (leb x y) eqn:Hxy.
    + constructor; [exact Hs | constructor; exact Hxy].
    + apply Sorted_inv in Hs; destruct Hs as [Hrest Hhd].
      constructor; [apply IH, Hrest|].
      destruct rest as [|z rest']; simpl.
      * constructor. destruct (leb_total x y) as [H|H]; [congruence | exact H].
      * destruct (leb x z).
        -- constructor. destruct (leb_total x y) as [H|H]; [congruence | exact H].
        -- constructor. inversion Hhd; assumption.
Qed.

Lemma stable_sort_sorted : forall l : list A,
    Sorted (fun a b => leb a b = true) (stable_sort leb l).
Proof.
  induction l as [|x rest IH]; simpl.
  - constructor.
  - apply insert_sorted, IH.
Qed.

End Stable_sort.

Lemma sorted_b_Sorted : forall (A : Type) (leb : A -> A -> bool) (l : list A),
    sorted_b leb l = true -> Sorted (fun a b => leb a b = true) l.
Proof.
  intros A leb l; induction l as [|x rest IH]; intros H.
  - constructor.
  - destruct rest as [|y rest'].
    + repeat constructor.
    + simpl in H. apply andb_true_iff in H; destruct H as [Hxy Hrest].
      constructor; [apply IH, Hrest | constructor; exact Hxy].
Qed.

Lemma map_nth_seq : forall (A : Type) (d : A) (l : list A),
    map (fun i => nth i l d) (seq 0 (List.length l)) = l.
Proof.
  intros A d l; induction l as [|x rest IH]; simpl.
  - reflexivity.
  - f_equal. rewrite <- seq_shift, map_map. exact IH.
Qed.

Lemma is_arrangement_perm : forall (idx : list nat) (n : nat),
    is_arrangement idx n = true -> Permutation (seq 0 n) idx.
Proof.
  intros idx n H; unfold is_arrangement in H.
  destruct (list_eq_dec Nat.eq_dec (stable_sort Nat.leb idx) (seq 0 n)) as [E|]; [|discriminate].
  rewrite <- E. apply Permutation_sym, stable_sort_perm.
Qed.

Lemma npy_quicksort_perm : forall (A : Type) (leb : A -> A -> bool) (l : list A),
    Permutation l (npy_quicksort leb l).
Proof.
  intros A leb l; unfold npy_quicksort.
  destruct l as [|d rest]; [constructor|].
  set (l := d :: rest).
  destruct (is_arrangement _ _ && sorted_b leb _) eqn:Hchk.
  - apply andb_true_iff in Hchk; destruct Hchk as [Harr _].
    apply is_arrangement_perm in Harr.
    rewrite <- (map_nth_seq A d l) at 1.
    apply Permutation_map, Harr.
  - apply stable_sort_perm.
Qed.

Lemma npy_quicksort_sorted : forall (A : Type) (leb : A -> A -> bool),
    (forall x y, leb x y = true \/ leb y x = true) ->
    forall l, Sorted (fun a b => leb a b = true) (npy_quicksort leb l).
Proof.
  intros A leb Htot l; unfold npy_quicksort.
  destruct l as [|d rest]; [constructor|].
  destruct (is_arrangement _ _ && sorted_b leb _) eqn:Hchk.
  - apply andb_true_iff in Hchk; destruct Hchk as [_ Hs].
    apply sorted_b_Sorted, Hs.
  - apply stable_sort_sorted, Htot.
Qed.

(** Two sorting routines that meet the contract of [Quicksort]: a stable
    one, and numpy's. *)
Definition stable_sorter : Quicksort :=
  {| quicksort := @stable_sort;
     quicksort_perm := @stable_sort_perm;
     quicksort_sorted := @stable_sort_sorted |}.

Definition numpy_sorter : Quicksort :=
  {| quicksort := @npy_quicksort;
     quicksort_perm := npy_quicksort_perm;
     quicksort_sorted := npy_quicksort_sorted |}.

(** ** The column of delays *)

Lemma x86_64_astype_int_fits : forall column : list Z,
    forallb fits_int64 column = true -> x86_64_astype_int column = Ok column.
Proof. intros column H. unfold x86_64_astype_int. rewrite H. reflexivity. Qed.

Lemma x86_64_astype_int_length : forall column ints : list Z,
    x86_64_astype_int column = Ok ints -> List.length ints = List.length column.
Proof.
  intros column ints H. unfold x86_64_astype_int in H.
  destruct (forallb fits_int64 column); [injection H as <-; reflexivity|].
  destruct (forallb fits_uint64 column); [injection H as <-; apply length_map|].
  destruct (forallb fits_double column); [injection H as <-; apply length_map | discriminate H].
Qed.

(** The conversion on x86-64 meets the contract of [Int64Column]. *)
Definition x86_64_column : Int64Column :=
  {| astype_int := x86_64_astype_int;
     astype_int_fits := x86_64_astype_int_fits;
     astype_int_length := x86_64_astype_int_length |}.

(** ** One record *)

Section Record_facts.
Context {parser : DateParser}.

Lemma process_record_not_dict : forall dep : pyval,
    (forall d, dep <> PDict d) -> process_record dep = Raise AttributeError.
Proof.
  intros dep H; destruct dep; try reflexivity.
  exfalso; eapply H; reflexivity.
Qed.

(** The [try] block read on the fields of a dict. *)
Lemma process_record_dict : forall d : list (string * pyval),
    process_record (PDict d) =
    (line_name <- (product_name <- py_get (line_info d) "productName" (PStr "N/A") ;;
                   py_get (line_info d) "name" product_name) ;;
     scheduled_dt <- parse_or (scheduled_time_str d) None ;;
     expected_dt <- parse_or (expected_time_str d) scheduled_dt ;;
     delay_minutes <- delay_of (delay_seconds d) scheduled_dt expected_dt ;;
     Ok {| Line := line_name;
           Direction := direction d;
           Scheduled := format_time scheduled_dt;
           Expected := format_time expected_dt;
           Delay_Min := match clamp delay_minutes with Some m => m | None => 0 end;
           Platform := platform d |}).
Proof.
  intros d. unfold process_record. cbn [py_get bind].
  fold (line_info d).
  destruct (line_info d); reflexivity.
Qed.

Lemma process_record_ok : forall (d : list (string * pyval)) (r : row),
    process_record (PDict d) = Ok r ->
    exists li scheduled_dt expected_dt delay_minutes,
      line_info d = PDict li /\
      parse_or (scheduled_time_str d) None = Ok scheduled_dt /\
      parse_or (expected_time_str d) scheduled_dt = Ok expected_dt /\
      delay_of (delay_seconds d) scheduled_dt expected_dt = Ok delay_minutes /\
      r = {| Line := get_or li "name" (get_or li "productName" (PStr "N/A"));
             Direction := direction d;
             Scheduled := format_time scheduled_dt;
             Expected := format_time expected_dt;
             Delay_Min := match clamp delay_minutes with Some m => m | None => 0 end;
             Platform := platform d |}.
Proof.
  intros d r H. rewrite process_record_dict in H.
  destruct (line_info d) as [| | | | | | |?|li] eqn:Hli; try discriminate H.
  cbn [py_get bind] in H.
  destruct (parse_or (scheduled_time_str d) None) as [sdt|] eqn:Hs; [|discriminate H].
  cbn [bind] in H.
  destruct (parse_or (expected_time_str d) sdt) as [edt|] eqn:He; [|discriminate H].
  cbn [bind] in H.
  destruct (delay_of (delay_seconds d) sdt edt) as [dm|] eqn:Hd; [|discriminate H].
  cbn [bind] in H. injection H as <-.
  exists li, sdt, edt, dm. repeat split; assumption.
Qed.

Lemma process_record_produces : forall (d li : list (string * pyval)) sdt edt dm,
    line_info d = PDict li ->
    parse_or (scheduled_time_str d) None = Ok sdt ->
    parse_or (expected_time_str d) sdt = Ok edt ->
    delay_of (delay_seconds d) sdt edt = Ok dm ->
    exists r, process_record (PDict d) = Ok r.
Proof.
  intros d li sdt edt dm Hli Hs He Hd.
  rewrite process_record_dict, Hli. cbn [py_get bind].
  rewrite Hs. cbn [bind]. rewrite He. cbn [bind]. rewrite Hd. cbn [bind].
  eexists; reflexivity.
Qed.

End Record_facts.

(** ** Numbers and digits *)

Lemma decimal_digit_cases : forall d : Z,
    is_decimal_digit d ->
    d = 0 \/ d = 1 \/ d = 2 \/ d = 3 \/ d = 4 \/ d = 5 \/ d = 6 \/ d = 7 \/ d = 8 \/ d = 9.
Proof. unfold is_decimal_digit; intros d; lia. Qed.

Ltac each_digit H :=
  apply decimal_digit_cases in H;
  repeat (destruct H as [H|H]); subst.

Lemma digit_char_is_digit : forall d, is_decimal_digit d -> is_digit (digit_char d) = true.
Proof. intros d H; each_digit H; reflexivity. Qed.

Lemma digit_char_value : forall d, is_decimal_digit d -> digit_value (digit_char d) = d.
Proof. intros d H; each_digit H; reflexivity. Qed.

Lemma digit_char_not_space : forall d, is_decimal_digit d -> is_space (digit_char d) = false.
Proof. intros d H; each_digit H; reflexivity. Qed.

Lemma digit_char_not_int_space : forall d,
    is_decimal_digit d -> is_int_space (digit_char d) = false.
Proof. intros d H; each_digit H; reflexivity. Qed.

Lemma int_digits_numeral : forall (ds : list Z) (after_digit : bool) (digits acc : Z),
    Forall is_decimal_digit ds ->
    (ds <> [] \/ after_digit = true) ->
    digits + Z.of_nat (List.length ds) <= int_max_str_digits ->
    int_digits after_digit digits acc (numeral ds)
    = Some (fold_left (fun a d => 10 * a + d) ds acc).
Proof.
  induction ds as [|d ds IH]; intros after_digit digits acc Hds Hne Hlen.
  - destruct Hne as [Hne|Hne]; [congruence | subst].
    cbn [numeral fold_right int_digits fold_left andb List.length] in *.
    replace (digits <=? int_max_str_digits) with true by (symmetry; apply Z.leb_le; lia).
    reflexivity.
  - inversion Hds as [|? ? Hd Hrest]; subst.
    cbn [numeral fold_right int_digits fold_left].
    rewrite (digit_char_is_digit d Hd), (digit_char_value d Hd).
    apply IH; [exact Hrest | right; reflexivity|].
    cbn [List.length] in Hlen. lia.
Qed.

Lemma int_of_string_numeral : forall ds : list Z,
    Forall is_decimal_digit ds -> ds <> [] ->
    Z.of_nat (List.length ds) <= int_max_str_digits ->
    int_of_string (numeral ds) = Some (numeral_value ds).
Proof.
  intros ds Hds Hne Hlen. destruct ds as [|d ds]; [congruence|].
  pose proof (int_digits_numeral (d :: ds) false 0 0 Hds (or_introl Hne) Hlen) as H.
  inversion Hds as [|? ? Hd _]; subst.
  unfold int_of_string, numeral_value.
  cbn [numeral fold_right int_lstrip] in *.
  rewrite (digit_char_not_int_space d Hd).
  each_digit Hd; exact H.
Qed.

Lemma clamp_is_max : forall m : Z,
    match clamp (Some m) with Some m' => m' | None => 0 end = Z.max 0 m.
Proof.
  intros m; unfold clamp. destruct (m <? 0) eqn:E.
  - apply Z.ltb_lt in E. lia.
  - apply Z.ltb_ge in E. lia.
Qed.

Lemma clamp_non_negative : forall dm : option Z,
    0 <= match clamp dm with Some m => m | None => 0 end.
Proof.
  intros [m|]; [rewrite clamp_is_max|simpl]; lia.
Qed.

(** [int(x) // 60] of a float is the floor of [x / 60] once clamped. *)
Lemma float_minutes : forall q : Q,
    Z.max 0 (Z.quot (Qnum q) (Zpos (Qden q)) / 60) = Z.max 0 (Qfloor (q / (60 # 1))).
Proof.
  intros [n d]. cbn [Qnum Qden].
  assert (Hfl : Qfloor ((n # d) / (60 # 1)) = n / (Zpos d * 60)).
  { unfold Qdiv, Qinv, Qmult, Qfloor; cbn [Qnum Qden].
    rewrite Z.mul_1_r. rewrite Pos2Z.inj_mul. reflexivity. }
  rewrite Hfl.
  destruct (Z_le_gt_dec 0 n) as [Hn|Hn].
  - rewrite Z.quot_div_nonneg by lia.
    rewrite Z.div_div by lia. reflexivity.
  - assert (Z.quot n (Zpos d) <= 0).
    { apply Z.quot_le_upper_bound; lia. }
    assert (Z.quot n (Zpos d) / 60 <= 0) by (apply Z.div_le_upper_bound; lia).
    assert (n / (Zpos d * 60) < 0) by (apply Z.div_lt_upper_bound; lia).
    lia.
Qed.

Lemma float_minutes_nonneg : forall q : Q,
    (0 <= q)%Q ->
    Z.max 0 (Z.quot (Qnum q) (Zpos (Qden q)) / 60) = Qfloor (q / (60 # 1)).
Proof.
  intros q Hq. rewrite float_minutes.
  assert (0 <= Qfloor (q / (60 # 1))).
  { change 0 with (Qfloor 0). apply Qfloor_resp_le.
    apply Qle_shift_div_l; [reflexivity|]. rewrite Qmult_0_l. exact Hq. }
  lia.
Qed.

(** [round] returns an integer nearest to its argument:
    [|x - round x| <= 1/2], written on the fraction [n / d]. *)
Lemma py_round_nearest : forall (n : Z) (d : positive),
    Z.abs (2 * (n - Zpos d * py_round (n # d))) <= Zpos d.
Proof.
  intros n d. unfold py_round; cbn [Qnum Qden].
  pose proof (Z.div_mod n (Zpos d) ltac:(lia)) as Hdm.
  pose proof (Z.mod_pos_bound n (Zpos d) ltac:(lia)) as Hb.
  assert (Hpos : 0 < Zpos d) by lia.
  revert Hdm Hb Hpos.
  generalize (n mod Zpos d); intros r.
  generalize (n / Zpos d); intros f.
  generalize (Zpos d); intros D Hdm Hb Hpos. subst n.
  assert (E1 : D * f + r - D * f = r) by ring.
  assert (E2 : D * f + r - D * (f + 1) = r - D) by ring.
  destruct (2 * r ?= D) eqn:Hc.
  - apply Z.compare_eq in Hc.
    destruct (Z.even f); cbv beta iota; rewrite ?E1, ?E2; clear E1 E2; lia.
  - apply -> Z.compare_lt_iff in Hc. cbv beta iota. rewrite E1; clear E1 E2; lia.
  - apply -> Z.compare_gt_iff in Hc. cbv beta iota. rewrite E2; clear E1 E2; lia.
Qed.

(** A tie goes to the even neighbour. *)
Lemma py_round_tie_even : forall (n : Z) (d : positive),
    2 * (n mod Zpos d) = Zpos d -> Z.even (py_round (n # d)) = true.
Proof.
  intros n d H. unfold py_round; cbn [Qnum Qden].
  rewrite H, Z.compare_refl.
  destruct (Z.even (n / Zpos d)) eqn:E; [exact E|].
  rewrite Z.even_add, E. reflexivity.
Qed.

(** ** Rounding to an integer and to a double *)

Lemma py_round_sound : forall (n : Z) (d : positive), nearest_even n d (py_round (n # d)).
Proof.
  intros n d. unfold nearest_even, py_round; cbn [Qnum Qden].
  pose proof (Z.div_mod n (Zpos d) ltac:(lia)) as Hdm.
  pose proof (Z.mod_pos_bound n (Zpos d) ltac:(lia)) as Hb.
  assert (Hpos : 0 < Zpos d) by lia.
  revert Hdm Hb Hpos.
  generalize (n mod Zpos d); intros r.
  generalize (n / Zpos d); intros f.
  generalize (Zpos d); intros D Hdm Hb Hpos. subst n.
  assert (E1 : D * f + r - D * f = r) by ring.
  assert (E2 : D * f + r - D * (f + 1) = r - D) by ring.
  destruct (2 * r ?= D) eqn:Hc.
  - apply Z.compare_eq in Hc.
    destruct (Z.even f) eqn:Ef; cbv beta iota; rewrite ?E1, ?E2.
    + right. split; [clear E1 E2; lia | exact Ef].
    + right. split; [clear E1 E2; lia|]. rewrite Z.even_add, Ef. reflexivity.
  - apply -> Z.compare_lt_iff in Hc. cbv beta iota. rewrite E1. left; clear E1 E2; lia.
  - apply -> Z.compare_gt_iff in Hc. cbv beta iota. rewrite E2. left; clear E1 E2; lia.
Qed.

Lemma py_round_unique : forall (n : Z) (d : positive) (f : Z),
    nearest_even n d f -> py_round (n # d) = f.
Proof.
  intros n d f H. unfold nearest_even in H. unfold py_round; cbn [Qnum Qden].
  pose proof (Z.div_mod n (Zpos d) ltac:(lia)) as Hdm.
  pose proof (Z.mod_pos_bound n (Zpos d) ltac:(lia)) as Hb.
  assert (Hpos : 0 < Zpos d) by lia.
  revert H Hdm Hb Hpos.
  generalize (n mod Zpos d); intros r.
  generalize (n / Zpos d); intros f0.
  generalize (Zpos d); intros D H Hdm Hb Hpos. subst n.
  assert (E : D * f0 + r - D * f = D * (f0 - f) + r) by ring.
  rewrite E in H. clear E.
  assert (Hf : f = f0 \/ f = f0 + 1).
  { assert (- 1 < f0 - f + 1 /\ f0 - f < 1); [|lia].
    split; [|]; nia. }
  destruct Hf as [-> | ->].
  - replace (D * (f0 - f0) + r) with r in H by ring.
    destruct (2 * r ?= D) eqn:Hc.
    + apply Z.compare_eq in Hc. destruct H as [H|[_ H]]; [lia|]. rewrite H. reflexivity.
    + reflexivity.
    + apply -> Z.compare_gt_iff in Hc. lia.
  - replace (D * (f0 - (f0 + 1)) + r) with (r - D) in H by ring.
    destruct (2 * r ?= D) eqn:Hc.
    + apply Z.compare_eq in Hc. destruct H as [H|[_ H]]; [lia|].
      rewrite Z.even_add in H. destruct (Z.even f0); [discriminate H | reflexivity].
    + apply -> Z.compare_lt_iff in Hc. lia.
    + reflexivity.
Qed.

Lemma nearest_even_scale : forall (n n' : Z) (d d' : positive) (f : Z),
    n * Zpos d' = n' * Zpos d -> nearest_even n d f -> nearest_even n' d' f.
Proof.
  intros n n' d d' f E H. unfold nearest_even in *.
  assert (K : Zpos d * Z.abs (n' - Zpos d' * f) = Zpos d' * Z.abs (n - Zpos d * f)).
  { rewrite <- (Z.abs_eq (Zpos d)) at 1 by lia.
    rewrite <- (Z.abs_eq (Zpos d')) at 2 by lia.
    rewrite <- !Z.abs_mul. f_equal. nia. }
  destruct H as [H|[H Hf]]; [left | right; split; [|exact Hf]]; nia.
Qed.

Lemma py_round_Qeq : forall x y : Q, (x == y)%Q -> py_round x = py_round y.
Proof.
  intros [n d] [n' d'] E. unfold Qeq in E; cbn [Qnum Qden] in E.
  symmetry. apply py_round_unique.
  eapply nearest_even_scale; [exact E | apply py_round_sound].
Qed.

Lemma py_round_integer : forall (x : Q) (m : Z), (x == inject_Z m)%Q -> py_round x = m.
Proof.
  intros x m E. rewrite (py_round_Qeq _ _ E). apply py_round_unique.
  unfold nearest_even. left. replace (m - 1 * m) with 0 by ring. cbn. lia.
Qed.

Lemma Qpow2_nonneg : forall k : Z, 0 <= k -> Qpow2 k = inject_Z (2 ^ k).
Proof.
  intros k Hk. unfold Qpow2. replace (0 <=? k) with true by (symmetry; apply Z.leb_le; exact Hk).
  reflexivity.
Qed.

Lemma Qpow2_neg : forall k : Z, 0 < k -> Qpow2 (- k) = 1 # Z.to_pos (2 ^ k).
Proof.
  intros k Hk. unfold Qpow2. replace (0 <=? - k) with false by (symmetry; apply Z.leb_gt; lia).
  rewrite Z.opp_involutive. reflexivity.
Qed.

Lemma Qpow2_inverse : forall k : Z, (Qpow2 (- k) * Qpow2 k == 1)%Q.
Proof.
  intros k.
  assert (P : forall j, 0 < j -> ((1 # Z.to_pos (2 ^ j)) * inject_Z (2 ^ j) == 1)%Q).
  { intros j Hj. unfold Qeq, Qmult, inject_Z; cbn [Qnum Qden].
    rewrite Pos.mul_1_r, Z2Pos.id by (apply Z.pow_pos_nonneg; lia). ring. }
  destruct (Z.lt_trichotomy k 0) as [H|[->|H]].
  - replace k with (- (- k)) at 2 by ring.
    rewrite (Qpow2_nonneg (- k)) by lia. rewrite (Qpow2_neg (- k)) by lia.
    rewrite Qmult_comm. apply P; lia.
  - reflexivity.
  - rewrite (Qpow2_neg k H), (Qpow2_nonneg k) by lia. apply P, H.
Qed.

Lemma float64_Qeq : forall x y : Q, (x == y)%Q -> float64 x = float64 y.
Proof.
  intros x y E. unfold float64.
  assert (Eb : binade x = binade y).
  { unfold binade. rewrite E. reflexivity. }
  assert (Ez : Qeq_bool x 0 = Qeq_bool y 0).
  { destruct (Qeq_bool x 0) eqn:Ex, (Qeq_bool y 0) eqn:Ey; try reflexivity.
    - apply Qeq_bool_iff in Ex. rewrite E in Ex. apply Qeq_bool_iff in Ex. congruence.
    - apply Qeq_bool_iff in Ey. rewrite <- E in Ey. apply Qeq_bool_iff in Ey. congruence. }
  rewrite Ez, Eb. destruct (Qeq_bool y 0); [reflexivity|].
  cbv zeta. apply Qred_complete.
  rewrite (py_round_Qeq (x * Qpow2 (- (binade y - 52))) (y * Qpow2 (- (binade y - 52)))).
  - reflexivity.
  - rewrite E. reflexivity.
Qed.

(** A number that has at most 53 significant bits at the scale of its
    binade is a double. *)
Lemma float64_exact : forall (x : Q) (m : Z),
    (x * Qpow2 (- (binade x - 52)) == inject_Z m)%Q -> (float64 x == x)%Q.
Proof.
  intros x m E. unfold float64.
  destruct (Qeq_bool x 0) eqn:Ez; [apply Qeq_bool_iff in Ez; rewrite Ez; reflexivity|].
  cbv zeta. rewrite Qred_correct, (py_round_integer _ m E), <- E.
  rewrite <- Qmult_assoc, Qpow2_inverse, Qmult_1_r. reflexivity.
Qed.

Lemma binade_upper : forall (x : Q) (k : Z),
    0 <= k -> (Qabs x < inject_Z (2 ^ k))%Q -> binade x < k.
Proof.
  intros x k Hk H. unfold binade.
  set (Y := Qfloor (Qabs x * inject_Z (2 ^ 1100))).
  assert (HY : Y < 2 ^ (k + 1100)).
  { rewrite Zlt_Qlt. eapply Qle_lt_trans; [apply Qfloor_le|].
    rewrite Z.pow_add_r by lia. rewrite inject_Z_mult.
    apply Qmult_lt_compat_r; [reflexivity | exact H]. }
  destruct (Z_le_gt_dec Y 0) as [H0|H0].
  - rewrite Z.log2_nonpos by exact H0. lia.
  - assert (Z.log2 Y < k + 1100) by (apply Z.log2_lt_pow2; lia). lia.
Qed.

Lemma float64_integer : forall n : Z, Z.abs n < 2 ^ 53 -> (float64 (inject_Z n) == inject_Z n)%Q.
Proof.
  intros n Hn.
  assert (Hb : binade (inject_Z n) < 53).
  { apply binade_upper; [lia|].
    unfold Qabs, inject_Z, Qlt; cbn [Qnum Qden]. lia. }
  apply (float64_exact _ (n * 2 ^ (- (binade (inject_Z n) - 52)))).
  rewrite Qpow2_nonneg by lia. rewrite inject_Z_mult. reflexivity.
Qed.

Lemma round_scaled : forall (s N2 : Z),
    32 <= N2 ->
    py_round (py_round (s * (2 * N2) # 60) # Z.to_pos (2 * N2)) = py_round (s # 60).
Proof.
  intros s N2 HN.
  pose proof (py_round_sound s 60) as A.
  pose proof (py_round_sound (s * (2 * N2)) 60) as B.
  revert A B. generalize (py_round (s # 60)); intros f.
  generalize (py_round (s * (2 * N2) # 60)); intros M.
  unfold nearest_even.
  intros A B. apply py_round_unique. unfold nearest_even. rewrite Z2Pos.id by lia.
  change (Zpos 60) with 60 in *.
  assert (E : s * (2 * N2) - 60 * M = (s - 60 * f) * (2 * N2) + 60 * (f * (2 * N2) - M)) by ring.
  rewrite E in B. clear E.
  replace (M - 2 * N2 * f) with (- (f * (2 * N2) - M)) by ring. rewrite Z.abs_opp.
  revert A B. generalize (f * (2 * N2) - M); intros w. generalize (s - 60 * f); intros a.
  intros A B.
  destruct A as [A|[A Hf]].
  - left. assert (Ha : Z.abs a <= 29) by lia.
    assert (Hu : Z.abs (a * (2 * N2)) <= 29 * (2 * N2)).
    { rewrite Z.abs_mul, (Z.abs_eq (2 * N2)) by lia. nia. }
    revert Hu B. generalize (a * (2 * N2)); intros u Hu B. lia.
  - right. split; [|exact Hf].
    assert (Ha : a = 30 \/ a = -30) by lia.
    destruct Ha as [-> | ->]; lia.
Qed.

Lemma float64_minutes : forall s : Z,
    Z.abs s <= 2 ^ 52 -> py_round (float64 (s # 60)) = py_round (s # 60).
Proof.
  intros s Hs. unfold float64.
  destruct (Qeq_bool (s # 60) 0) eqn:Ez.
  - apply Qeq_bool_iff in Ez. apply py_round_Qeq. symmetry; exact Ez.
  - cbv zeta.
    assert (Hb : binade (s # 60) < 47).
    { apply binade_upper; [lia|].
      unfold Qabs, inject_Z, Qlt; cbn [Qnum Qden]. lia. }
    set (k := - (binade (s # 60) - 52)).
    assert (Hk : 6 <= k) by (unfold k; lia).
    replace (binade (s # 60) - 52) with (- k) by (unfold k; ring).
    rewrite (py_round_Qeq _ _ (Qred_correct _)).
    rewrite (Qpow2_nonneg k), (Qpow2_neg k) by lia.
    assert (E2 : 2 ^ k = 2 * 2 ^ (k - 1)).
    { rewrite <- Z.pow_succ_r by lia. f_equal. lia. }
    assert (H32 : 32 <= 2 ^ (k - 1)).
    { change 32 with (2 ^ 5). apply Z.pow_le_mono_r; lia. }
    rewrite E2.
    rewrite (py_round_Qeq ((s # 60) * inject_Z (2 * 2 ^ (k - 1))) (s * (2 * 2 ^ (k - 1)) # 60)).
    + rewrite <- (round_scaled s (2 ^ (k - 1)) H32).
      apply py_round_Qeq.
      unfold Qeq, Qmult, inject_Z; cbn [Qnum Qden]. rewrite Pos.mul_1_l. ring.
    + unfold Qeq, Qmult, inject_Z; cbn [Qnum Qden]. rewrite Pos.mul_1_r. reflexivity.
Qed.

Lemma total_seconds_whole : forall s : Z,
    Z.abs s < 2 ^ 53 -> (total_seconds (s * 1000000000) == inject_Z s)%Q.
Proof.
  intros s Hs. unfold total_seconds. cbv zeta.
  replace (s * 1000000000 / 1000) with (s * 1000000).
  2:{ replace (s * 1000000000) with (s * 1000000 * 1000) by ring.
      rewrite Z.div_mul by lia. reflexivity. }
  rewrite Z.div_mul, Z.mod_mul by lia.
  change (float64 (0 # 1000000)) with 0%Q.
  rewrite (float64_Qeq _ (inject_Z s)).
  - apply float64_integer, Hs.
  - rewrite Qplus_0_r. apply float64_integer, Hs.
Qed.

(** The delay in minutes of a difference of whole seconds is the exact
    rounding of the difference. *)
Lemma whole_seconds_minutes : forall td : Z,
    td mod 1000000000 = 0 -> Z.abs td <= 2 ^ 52 * 1000000000 ->
    py_round (float64 (total_seconds td / (60 # 1))) = py_round (td # 60000000000).
Proof.
  intros td Hm Hb.
  apply Z.mod_divide in Hm; [|lia]. destruct Hm as [s ->].
  assert (Hs : Z.abs s <= 2 ^ 52).
  { rewrite Z.abs_mul in Hb. change (Z.abs 1000000000) with 1000000000 in Hb. lia. }
  rewrite (float64_Qeq _ (s # 60)).
  - rewrite float64_minutes by exact Hs. apply py_round_Qeq.
    unfold Qeq; cbn [Qnum Qden]. ring.
  - rewrite total_seconds_whole by lia.
    unfold Qeq, Qdiv, Qmult, Qinv, inject_Z; cbn. ring.
Qed.

(** ** The delay of a record (C1, C2) *)

Lemma numeral_value_nonneg : forall ds : list Z,
    Forall is_decimal_digit ds -> 0 <= numeral_value ds.
Proof.
  intros ds Hds. unfold numeral_value.
  assert (G : forall acc, 0 <= acc -> 0 <= fold_left (fun a d => 10 * a + d) ds acc).
  { induction Hds as [|d ds Hd _ IH]; intros acc Hacc; cbn [fold_left].
    - exact Hacc.
    - apply IH. unfold is_decimal_digit in Hd. lia. }
  apply G; lia.
Qed.

Lemma delay_of_present : forall (v : pyval) (s e : option Timestamp),
    v <> PNone ->
    delay_of v s e =
    match py_int v with
    | Ok n => Ok (Some (n / 60))
    | Raise ValueError => Ok (Some 0)
    | Raise TypeError => Ok (Some 0)
    | Raise x => Raise x
    end.
Proof. intros v s e Hv; destruct v; try reflexivity; congruence. Qed.

Lemma timestamp_sub_ok : forall (a b : Timestamp) (td : Z),
    timestamp_sub a b = Ok td -> td = value a - value b.
Proof.
  intros a b td H. unfold timestamp_sub in H.
  destruct (utcoffset a), (utcoffset b); try discriminate H;
    destruct (is_int64_time _ && is_int64_time _); try discriminate H;
    destruct (_ =? _); try discriminate H;
    destruct (is_int64_time _); try discriminate H; congruence.
Qed.

Lemma delay_of_timestamps : forall (s e : Timestamp) (dm : option Z),
    delay_of PNone (Some s) (Some e) = Ok dm ->
    dm = Some (py_round (float64 (total_seconds (value e - value s) / (60 # 1)))).
Proof.
  intros s e dm H. unfold delay_of in H.
  destruct (timestamp_sub e s) as [td|] eqn:E; [|discriminate H].
  apply timestamp_sub_ok in E. subst td. cbn [bind] in H. congruence.
Qed.

Lemma lookup_delay_seconds : forall (d : list (string * pyval)) (v : pyval),
    lookup "delay" d = Some v -> delay_seconds d = v.
Proof. intros d v H; unfold delay_seconds, get_or; rewrite H; reflexivity. Qed.

Lemma no_delay_seconds : forall d : list (string * pyval),
    lookup "delay" d = None \/ lookup "delay" d = Some PNone -> delay_seconds d = PNone.
Proof. intros d [H|H]; unfold delay_seconds, get_or; rewrite H; reflexivity. Qed.

Section Delay_claims.
Context {parser : DateParser}.

Lemma delay_from_int : forall (d : list (string * pyval)) (r : row) (v : pyval) (n : Z),
    process_record (PDict d) = Ok r ->
    lookup "delay" d = Some v -> v <> PNone -> py_int v = Ok n ->
    Delay_Min r = Z.max 0 (n / 60).
Proof.
  intros d r v n Hr Hl Hv Hn.
  apply process_record_ok in Hr.
  destruct Hr as (li & sdt & edt & dm & _ & _ & _ & Hd & ->).
  rewrite (lookup_delay_seconds d v Hl), (delay_of_present v sdt edt Hv), Hn in Hd.
  injection Hd as <-. cbn [Delay_Min]. apply clamp_is_max.
Qed.

Lemma delay_from_non_numeric : forall (d : list (string * pyval)) (r : row) (v : pyval),
    process_record (PDict d) = Ok r ->
    lookup "delay" d = Some v -> v <> PNone -> non_numeric v ->
    Delay_Min r = 0.
Proof.
  intros d r v Hr Hl Hv Hn.
  apply process_record_ok in Hr.
  destruct Hr as (li & sdt & edt & dm & _ & _ & _ & Hd & ->).
  rewrite (lookup_delay_seconds d v Hl), (delay_of_present v sdt edt Hv) in Hd.
  cbn [Delay_Min].
  destruct (py_int v) as [n|x] eqn:E.
  - exfalso; exact (Hn n E).
  - destruct x; try discriminate Hd; injection Hd as <-; reflexivity.
Qed.

Lemma delay_from_timestamps : forall (d : list (string * pyval)) (r : row) (s e : Timestamp),
    process_record (PDict d) = Ok r ->
    lookup "delay" d = None \/ lookup "delay" d = Some PNone ->
    parse_or (scheduled_time_str d) None = Ok (Some s) ->
    parse_or (expected_time_str d) (Some s) = Ok (Some e) ->
    Delay_Min r
    = Z.max 0 (py_round (float64 (total_seconds (value e - value s) / (60 # 1)))).
Proof.
  intros d r s e Hr Hl Hs He.
  apply process_record_ok in Hr.
  destruct Hr as (li & sdt & edt & dm & _ & Hs' & He' & Hd & ->).
  rewrite Hs in Hs'. injection Hs' as <-.
  rewrite He in He'. injection He' as <-.
  rewrite (no_delay_seconds d Hl) in Hd.
  apply delay_of_timestamps in Hd. subst dm.
  cbn [Delay_Min]. apply clamp_is_max.
Qed.

(** The branches of lines 127-141 on the row of one record. *)
Lemma delay_of_record : forall (d : list (string * pyval)) (r : row),
    process_record (PDict d) = Ok r ->
    (forall v n, lookup "delay" d = Some v -> v <> PNone -> py_int v = Ok n ->
                 Delay_Min r = Z.max 0 (n / 60))
    /\ (forall n, lookup "delay" d = Some (PInt n) -> 0 <= n -> Delay_Min r = n / 60)
    /\ (forall q, lookup "delay" d = Some (PFloat q) -> (0 <= q)%Q ->
                  Delay_Min r = Qfloor (q / (60 # 1)))
    /\ (forall ds, lookup "delay" d = Some (PStr (numeral ds)) ->
                   Forall is_decimal_digit ds -> ds <> [] ->
                   Z.of_nat (List.length ds) <= int_max_str_digits ->
                   Delay_Min r = numeral_value ds / 60)
    /\ (forall v, lookup "delay" d = Some v -> v <> PNone -> non_numeric v ->
                  Delay_Min r = 0)
    /\ (lookup "delay" d = None \/ lookup "delay" d = Some PNone ->
        forall s e,
          parse_or (scheduled_time_str d) None = Ok (Some s) ->
          parse_or (expected_time_str d) (Some s) = Ok (Some e) ->
          Delay_Min r
          = Z.max 0 (py_round (float64 (total_seconds (value e - value s) / (60 # 1))))
          /\ ((value e - value s) mod 1000000000 = 0 ->
              Z.abs (value e - value s) <= 2 ^ 52 * 1000000000 ->
              Delay_Min r = Z.max 0 (py_round (value e - value s # 60000000000))))
    /\ 0 <= Delay_Min r.
Proof.
  intros d r Hr. split; [|split; [|split; [|split; [|split; [|split]]]]].
  - intros v n; apply delay_from_int; exact Hr.
  - intros n Hl Hn.
    rewrite (delay_from_int d r (PInt n) n Hr Hl) by (congruence || reflexivity).
    apply Z.max_r, Z.div_pos; lia.
  - intros q Hl Hq.
    rewrite (delay_from_int d r (PFloat q) _ Hr Hl ltac:(congruence) eq_refl).
    apply float_minutes_nonneg, Hq.
  - intros ds Hl Hds Hne Hlen.
    assert (Hi : py_int (PStr (numeral ds)) = Ok (numeral_value ds)).
    { cbn [py_int]. rewrite (int_of_string_numeral ds Hds Hne Hlen). reflexivity. }
    rewrite (delay_from_int d r _ _ Hr Hl ltac:(congruence) Hi).
    apply Z.max_r, Z.div_pos; [apply numeral_value_nonneg, Hds | lia].
  - intros v; apply delay_from_non_numeric; exact Hr.
  - intros Hl s e Hs He.
    pose proof (delay_from_timestamps d r s e Hr Hl Hs He) as Hd.
    split; [exact Hd|]. intros Hm Hb.
    rewrite Hd, (whole_seconds_minutes _ Hm Hb). reflexivity.
  - apply process_record_ok in Hr.
    destruct Hr as (li & sdt & edt & dm & _ & _ & _ & _ & ->).
    apply clamp_non_negative.
Qed.

End Delay_claims.

Example process_record_u2 :
  @process_record iso8601_parser (PDict departure_u2)
  = Ok (row_of "U2" "Destination B" "10:17" "10:18" 1).
Proof. vm_compute; reflexivity. Qed.

Example process_record_null_delay :
  @process_record iso8601_parser (PDict departure_null_delay)
  = Ok (row_of "S1" "Potsdam Hbf" "10:00" "10:07" 7).
Proof. vm_compute; reflexivity. Qed.

Example process_record_text_delay :
  @process_record iso8601_parser (PDict departure_text_delay)
  = Ok (row_of "S7" "Ahrensfelde" "10:00" "10:09" 0).
Proof. vm_compute; reflexivity. Qed.

Example process_record_early :
  @process_record iso8601_parser (PDict departure_early)
  = Ok (row_of "S1" "Potsdam Hbf" "10:00" "09:58" 0).
Proof. vm_compute; reflexivity. Qed.

Example delay_of_90_seconds : delay_of (PInt 90) None None = Ok (Some 1).
Proof. reflexivity. Qed.

Example delay_of_digit_string : delay_of (PStr " 90 ") None None = Ok (Some 1).
Proof. reflexivity. Qed.

Example delay_of_decimal_string : delay_of (PStr "90.5") None None = Ok (Some 0).
Proof. reflexivity. Qed.

Example delay_of_float : delay_of (PFloat (1199 # 10)) None None = Ok (Some 1).
Proof. reflexivity. Qed.

Example delay_of_infinity : delay_of (PInf false) None None = Raise OverflowError.
Proof. reflexivity. Qed.

Example delay_of_negative : clamp (Some (-90 / 60)) = Some 0.
Proof. reflexivity. Qed.

(** Two and a half minutes and one and a half minutes both round to two. *)
Example round_half_to_even :
  py_round (float64 (total_seconds 150000000000 / (60 # 1))) = 2
  /\ py_round (float64 (total_seconds 90000000000 / (60 # 1))) = 2.
Proof. split; vm_compute; reflexivity. Qed.

(** Half a minute and a nanosecond is half a minute to [total_seconds],
    and rounds to 0; half a minute and a microsecond rounds to 1. *)
Example round_below_a_microsecond :
  py_round (float64 (total_seconds 30000000001 / (60 # 1))) = 0
  /\ py_round (float64 (total_seconds 30000001000 / (60 # 1))) = 1.
Proof. split; vm_compute; reflexivity. Qed.

(** Doubles as CPython prints them with [float.as_integer_ratio]. *)
Example float64_samples :
  float64 (1 # 10) = (3602879701896397 # 36028797018963968)%Q
  /\ float64 (999999 # 1000000) = (9007190247541737 # 9007199254740992)%Q
  /\ float64 (inject_Z (2 ^ 53 + 1)) = inject_Z (2 ^ 53)
  /\ float64 (inject_Z (2 ^ 53 + 3)) = inject_Z (2 ^ 53 + 4)
  /\ total_seconds (-1) = (-9007199255 # 9007199254740992)%Q.
Proof. repeat split; vm_compute; reflexivity. Qed.

(** [float64] against the division and the addition of [SpecFloat]:
    [1 / 10], [30000001 / 60], [-1 + 999999 / 1000000], and
    [(1234567 + 891011 / 1000000) / 60] as line 137 computes it. *)
Example float64_agrees_with_SpecFloat :
  float64 (1 # 10)
  = Q_of_binary64 (SFdiv 53 1024 (binary64_of_Z 1) (binary64_of_Z 10))
  /\ float64 (30000001 # 60)
     = Q_of_binary64 (SFdiv 53 1024 (binary64_of_Z 30000001) (binary64_of_Z 60))
  /\ float64 (float64 (inject_Z (-1)) + float64 (999999 # 1000000))
     = Q_of_binary64
         (SFadd 53 1024 (binary64_of_Z (-1))
            (SFdiv 53 1024 (binary64_of_Z 999999) (binary64_of_Z 1000000)))
  /\ float64 (total_seconds 1234567891011000 / (60 # 1))
     = Q_of_binary64
         (SFdiv 53 1024
            (SFadd 53 1024 (binary64_of_Z 1234567)
               (SFdiv 53 1024 (binary64_of_Z 891011) (binary64_of_Z 1000000)))
            (binary64_of_Z 60)).
Proof. repeat split; vm_compute; reflexivity. Qed.

Example int_of_string_samples :
  int_of_string (String (ascii_of_nat 31) "90") = None
  /\ int_of_string (String (ascii_of_nat 160) "90") = Some 90
  /\ int_of_string " 9_0 " = Some 90
  /\ int_of_string "9__0" = None
  /\ int_of_string "-0090" = Some (-90).
Proof. repeat split. Qed.

(** C1, as the claim states it, fails: a record whose delay field is present
    and holds null (not a number) and whose two times are seven minutes
    apart gets [Delay (Min)] 7, not 0. *)
Lemma null_delay_is_not_zero :
  ~ (forall (parser : DateParser) (d : list (string * pyval)) (r : row) (v : pyval),
        process_record (PDict d) = Ok r ->
        lookup "delay" d = Some v -> non_numeric v -> Delay_Min r = 0).
Proof.
  intros H.
  assert (N : non_numeric PNone) by (intros n; discriminate).
  specialize (H iso8601_parser departure_null_delay _ PNone
                process_record_null_delay eq_refl N).
  discriminate H.
Qed.

(** ** The loop and the table *)

Section Loop_facts.
Context {parser : DateParser}.

Lemma process_loop_cons_ok : forall (dep : pyval) (rest : list pyval) (r : row),
    process_record dep = Ok r ->
    process_loop (dep :: rest)
    = (r :: fst (process_loop rest), snd (process_loop rest)).
Proof.
  intros dep rest r H. cbn [process_loop]. rewrite H.
  destruct (process_loop rest); reflexivity.
Qed.

Lemma process_loop_cons_raise : forall (dep : pyval) (rest : list pyval) (e : exn),
    process_record dep = Raise e ->
    process_loop (dep :: rest)
    = (fst (process_loop rest), StWarning (SkippingRecord e) :: snd (process_loop rest)).
Proof.
  intros dep rest e H. cbn [process_loop]. rewrite H.
  destruct (process_loop rest); reflexivity.
Qed.


(** A row of the loop comes from a record of the input. *)
Lemma process_loop_rows : forall (raw : list pyval) (r : row),
    In r (fst (process_loop raw)) <-> exists dep, In dep raw /\ process_record dep = Ok r.
Proof.
  induction raw as [|dep raw IH]; intros r.
  - cbn. split; [tauto | intros (dep & [] & _)].
  - destruct (process_record dep) as [r'|e] eqn:E.
    + rewrite (process_loop_cons_ok _ _ _ E). cbn [fst In]. rewrite IH. split.
      * intros [<-|(dep' & Hin & Hp)]; [exists dep; auto | exists dep'; auto].
      * intros (dep' & [<-|Hin] & Hp); [left; congruence | right; exists dep'; auto].
    + rewrite (process_loop_cons_raise _ _ _ E). cbn [fst]. rewrite IH. split.
      * intros (dep' & Hin & Hp); exists dep'; cbn; auto.
      * intros (dep' & [<-|Hin] & Hp); [congruence | exists dep'; auto].
Qed.

(** Every record is accounted for: it gives a row or a warning. *)
Lemma process_loop_accounts : forall raw : list pyval,
    (List.length (fst (process_loop raw)) + List.length (snd (process_loop raw)))%nat
    = List.length raw.
Proof.
  induction raw as [|dep raw IH].
  - reflexivity.
  - destruct (process_record dep) as [r|e] eqn:E.
    + rewrite (process_loop_cons_ok _ _ _ E). cbn [fst snd List.length]. lia.
    + rewrite (process_loop_cons_raise _ _ _ E). cbn [fst snd List.length]. lia.
Qed.


End Loop_facts.

Section Sorting_facts.
Context {clock : Clock} {sorter : Quicksort}.

Lemma sort_time_column_fst : forall (df : list row) (keyed : list (row * option Z)),
    sort_time_column df = Ok keyed ->
    map fst keyed = df /\ Forall (fun rk => sort_time (Expected (fst rk)) = Ok (snd rk)) keyed.
Proof.
  induction df as [|r df IH]; intros keyed H.
  - injection H as <-. split; constructor.
  - cbn [sort_time_column] in H.
    destruct (sort_time (Expected r)) as [k|] eqn:Ek; [|discriminate H].
    cbn [bind] in H.
    destruct (sort_time_column df) as [ks|] eqn:Eks; [|discriminate H].
    cbn [bind] in H. injection H as <-.
    destruct (IH ks eq_refl) as [IH1 IH2].
    split; [cbn; congruence | constructor; assumption].
Qed.

Lemma sort_time_column_raise : forall (df : list row) (e : exn),
    sort_time_column df = Raise e ->
    exists r, In r df /\ sort_time (Expected r) = Raise e.
Proof.
  induction df as [|r df IH]; intros e H.
  - discriminate H.
  - cbn [sort_time_column] in H.
    destruct (sort_time (Expected r)) as [k|e'] eqn:Ek.
    + cbn [bind] in H.
      destruct (sort_time_column df) as [ks|e''] eqn:Eks; [discriminate H|].
      cbn [bind] in H. injection H as <-.
      destruct (IH e'' eq_refl) as (r' & Hin & Hr').
      exists r'; split; [right; assumption | assumption].
    + cbn [bind] in H. injection H as <-.
      exists r; split; [left; reflexivity | assumption].
Qed.

Lemma sort_time_column_ok : forall df : list row,
    Forall (fun r => exists k, sort_time (Expected r) = Ok k) df ->
    exists keyed, sort_time_column df = Ok keyed.
Proof.
  induction 1 as [|r df [k Hk] _ [keyed IH]].
  - eexists; reflexivity.
  - cbn [sort_time_column]. rewrite Hk, IH. eexists; reflexivity.
Qed.

(** Splitting the keyed rows into those with a time and those without
    rearranges them. *)
Lemma timed_and_nat_rows : forall keyed : list (row * option Z),
    Permutation (map fst keyed) (map fst (timed_rows keyed) ++ nat_rows keyed).
Proof.
  induction keyed as [|[r [t|]] keyed IH]; cbn.
  - constructor.
  - apply perm_skip, IH.
  - apply Permutation_cons_app, IH.
Qed.

Lemma sort_by_sort_time_perm : forall keyed : list (row * option Z),
    Permutation (map fst keyed) (sort_by_sort_time keyed).
Proof.
  intros keyed. unfold sort_by_sort_time.
  eapply perm_trans; [apply timed_and_nat_rows|].
  apply Permutation_app_tail, Permutation_map, quicksort_perm.
Qed.

(** Sorting keeps the rows. *)
Lemma sort_departures_perm : forall df : list row, Permutation df (sort_departures df).
Proof.
  intros df. unfold sort_departures.
  destruct (sort_time_column df) as [keyed|e] eqn:E.
  - destruct (sort_time_column_fst df keyed E) as [<- _].
    apply sort_by_sort_time_perm.
  - apply stable_sort_perm.
Qed.

End Sorting_facts.

Section Table_facts.
Context {parser : DateParser} {clock : Clock} {sorter : Quicksort} {column : Int64Column}.

Lemma with_delay_same : forall r : row, with_delay r (Delay_Min r) = r.
Proof. intros []; reflexivity. Qed.

Lemma with_delays_same : forall rows : list row,
    map (fun rd => with_delay (fst rd) (snd rd)) (combine rows (map Delay_Min rows)) = rows.
Proof.
  induction rows as [|r rows IH]; cbn [map combine fst snd]; [reflexivity|].
  rewrite with_delay_same, IH. reflexivity.
Qed.

Lemma delays_fit_column : forall df : list row,
    forallb fits_int64 (map Delay_Min df) = delays_fit df.
Proof.
  induction df as [|r df IH]; cbn [map forallb delays_fit]; [reflexivity|].
  fold (delays_fit df). rewrite IH. reflexivity.
Qed.

(** Delays that fit in 64 bits come through the frame unchanged. *)
Lemma frame_of_fits : forall rows : list row,
    delays_fit rows = true -> frame_of rows = Ok rows.
Proof.
  intros rows H. unfold frame_of.
  rewrite astype_int_fits by (rewrite delays_fit_column; exact H).
  cbn [bind]. rewrite with_delays_same. reflexivity.
Qed.

(** A frame holds the rows it was made from, in their order, with no
    other change than to their delays. *)
Lemma frame_of_rows : forall rows df : list row,
    frame_of rows = Ok df ->
    Forall2 (fun r r' => r' = with_delay r (Delay_Min r')) rows df.
Proof.
  intros rows df H. unfold frame_of in H.
  destruct (astype_int (map Delay_Min rows)) as [delays|] eqn:E; [|discriminate H].
  apply astype_int_length in E. rewrite length_map in E.
  cbn [bind] in H. injection H as <-.
  revert delays E. induction rows as [|r rows IH]; intros [|m delays] E;
    try discriminate E; cbn [combine map fst snd].
  - constructor.
  - constructor; [reflexivity|]. apply IH. cbn [List.length] in E. congruence.
Qed.

Lemma frame_of_shape : forall rows df : list row,
    frame_of rows = Ok df ->
    List.length df = List.length rows /\ map Expected df = map Expected rows.
Proof.
  intros rows df H. apply frame_of_rows in H.
  induction H as [|r r' rows df Hr _ [IH1 IH2]]; cbn [List.length map].
  - split; reflexivity.
  - split; [congruence|]. rewrite Hr at 1. cbn [Expected with_delay]. congruence.
Qed.

Lemma sort_departures_nil : sort_departures [] = [].
Proof. apply Permutation_nil, sort_departures_perm. Qed.

(** The table is the frame of the rows of the loop, sorted; the log is the
    loop's. *)
Lemma process_departures_loop : forall raw : list pyval,
    snd (process_departures raw) = snd (process_loop raw)
    /\ fst (process_departures raw)
       = (df_departures <- frame_of (fst (process_loop raw)) ;;
          Ok (sort_departures df_departures)).
Proof.
  intros raw.
  assert (Hnil : (df_departures <- frame_of [] ;; Ok (sort_departures df_departures))
                 = Ok []).
  { rewrite frame_of_fits by reflexivity. cbn [bind].
    rewrite sort_departures_nil. reflexivity. }
  unfold process_departures. destruct raw as [|dep raw].
  - cbn [process_loop fst snd]. rewrite Hnil. split; reflexivity.
  - destruct (process_loop (dep :: raw)) as [[|r rows] log]; cbn [fst snd].
    + rewrite Hnil. split; reflexivity.
    + split; reflexivity.
Qed.

Lemma process_departures_fits : forall raw : list pyval,
    delays_fit (fst (process_loop raw)) = true ->
    fst (process_departures raw) = Ok (sort_departures (fst (process_loop raw))).
Proof.
  intros raw H. destruct (process_departures_loop raw) as [_ ->].
  rewrite (frame_of_fits _ H). reflexivity.
Qed.

Lemma process_departures_returns : forall (raw : list pyval) (table : list row),
    fst (process_departures raw) = Ok table ->
    exists df, frame_of (fst (process_loop raw)) = Ok df /\ table = sort_departures df.
Proof.
  intros raw table H. destruct (process_departures_loop raw) as [_ E]. rewrite E in H.
  destruct (frame_of (fst (process_loop raw))) as [df|]; [|discriminate H].
  cbn [bind] in H. injection H as <-. exists df. split; reflexivity.
Qed.

End Table_facts.

Example process_record_no_times :
  @process_record iso8601_parser (PDict departure_no_times)
  = Ok (row_of "Bus" "Erkner" "N/A" "N/A" 0).
Proof. vm_compute; reflexivity. Qed.

Section Table_claims.
Context {parser : DateParser} {clock : Clock} {sorter : Quicksort} {column : Int64Column}.

(** C1, as amended: for every raw departure that [process_departures] turns
    into a row, in a table whose delays all fit the int64 column, the row
    is in the table returned and (1) if the delay field is present and not
    null and [int] converts it (an integer, a finite float, an integer
    literal in a string), [Delay (Min)] is [int(delay) // 60] clamped to 0,
    which is [floor(delaySeconds / 60)] for a non-negative integer, float
    or string of at most 4300 decimal digits; (2) if the delay field is
    present, not null and not numeric, [Delay (Min)] is 0; (3) if the delay
    field is absent or null and both the scheduled and the expected
    timestamp parse, [Delay (Min)] is [round(total_seconds() / 60)] of the
    difference (expected - scheduled), computed in double precision on the
    difference cut to whole microseconds and clamped to 0, which for a
    difference of whole seconds is the difference in minutes rounded to the
    nearest integer, a tie going to the even one; (4) in every case
    [Delay (Min)] is at least 0. *)
Theorem delay_minutes_derivation :
  forall (raw : list pyval) (d : list (string * pyval)) (r : row),
    In (PDict d) raw ->
    process_record (PDict d) = Ok r ->
    delays_fit (fst (process_loop raw)) = true ->
    (exists table, fst (process_departures raw) = Ok table /\ In r table)
    /\ (forall v n, lookup "delay" d = Some v -> v <> PNone -> py_int v = Ok n ->
                    Delay_Min r = Z.max 0 (n / 60))
    /\ (forall n, lookup "delay" d = Some (PInt n) -> 0 <= n -> Delay_Min r = n / 60)
    /\ (forall q, lookup "delay" d = Some (PFloat q) -> (0 <= q)%Q ->
                  Delay_Min r = Qfloor (q / (60 # 1)))
    /\ (forall ds, lookup "delay" d = Some (PStr (numeral ds)) ->
                   Forall is_decimal_digit ds -> ds <> [] ->
                   Z.of_nat (List.length ds) <= int_max_str_digits ->
                   Delay_Min r = numeral_value ds / 60)
    /\ (forall v, lookup "delay" d = Some v -> v <> PNone -> non_numeric v ->
                  Delay_Min r = 0)
    /\ (lookup "delay" d = None \/ lookup "delay" d = Some PNone ->
        forall s e,
          parse_or (scheduled_time_str d) None = Ok (Some s) ->
          parse_or (expected_time_str d) (Some s) = Ok (Some e) ->
          Delay_Min r
          = Z.max 0 (py_round (float64 (total_seconds (value e - value s) / (60 # 1))))
          /\ ((value e - value s) mod 1000000000 = 0 ->
              Z.abs (value e - value s) <= 2 ^ 52 * 1000000000 ->
              Delay_Min r = Z.max 0 (py_round (value e - value s # 60000000000))))
    /\ 0 <= Delay_Min r.
Proof.
  intros raw d r Hin Hr Hfit. split; [|exact (delay_of_record d r Hr)].
  exists (sort_departures (fst (process_loop raw))).
  split; [apply process_departures_fits, Hfit|].
  apply (Permutation_in _ (sort_departures_perm _)), process_loop_rows.
  exists (PDict d). split; assumption.
Qed.

Lemma undetermined_delay_is_zero : forall (d : list (string * pyval)) (r : row),
    process_record (PDict d) = Ok r -> delay_undetermined d -> Delay_Min r = 0.
Proof.
  intros d r Hr [[Hd Hs]|[Hd Hn]].
  - apply process_record_ok in Hr.
    destruct Hr as (li & sdt & edt & dm & _ & Hs' & _ & Hd' & ->).
    unfold parse_or in Hs'. rewrite Hs in Hs'. injection Hs' as <-.
    rewrite Hd in Hd'. cbn [delay_of] in Hd'. injection Hd' as <-.
    reflexivity.
  - apply (delay_from_non_numeric d r (delay_seconds d) Hr); try assumption.
    unfold delay_seconds, get_or in *.
    destruct (lookup "delay" d); [reflexivity | congruence].
Qed.

(** While the delays fit the int64 column, every row of the table returned
    by [process_departures] has a [Delay (Min)] that is not negative and is
    the outcome of one of the raw records; and the row of a raw record from
    which no delay can be determined (no delay and no scheduled time, or a
    delay that is not a number) is in the table with [Delay (Min)] 0. *)
Theorem delay_min_non_negative :
  forall raw : list pyval,
    delays_fit (fst (process_loop raw)) = true ->
    exists table,
      fst (process_departures raw) = Ok table
      /\ (forall r, In r table ->
                    0 <= Delay_Min r /\ exists dep, In dep raw /\ process_record dep = Ok r)
      /\ (forall d r, In (PDict d) raw -> process_record (PDict d) = Ok r ->
                      delay_undetermined d ->
                      In r table /\ Delay_Min r = 0).
Proof.
  intros raw Hfit. exists (sort_departures (fst (process_loop raw))).
  split; [apply process_departures_fits, Hfit|].
  pose proof (sort_departures_perm (fst (process_loop raw))) as Hperm. split.
  - intros r Hin.
    apply (Permutation_in _ (Permutation_sym Hperm)) in Hin.
    apply process_loop_rows in Hin. destruct Hin as (dep & Hin & Hp).
    split; [|exists dep; auto].
    destruct dep; try (rewrite process_record_not_dict in Hp by congruence; discriminate Hp).
    apply delay_of_record in Hp. apply Hp.
  - intros d r Hin Hp Hu. split.
    + apply (Permutation_in _ Hperm), process_loop_rows. exists (PDict d); auto.
    + exact (undetermined_delay_is_zero d r Hp Hu).
Qed.




End Table_claims.

Example process_record_huge_delay :
  @process_record iso8601_parser (PDict departure_huge_delay)
  = Ok (row_of "S1" "Potsdam Hbf" "N/A" "N/A" 9223372036854775808).
Proof. vm_compute; reflexivity. Qed.

(** C2, at the input where the code departs from it: a record whose delay
    is [2^63 * 60] seconds gets the delay [2^63] minutes in the loop, not
    negative as lines 140-141 see to; the frame holds it in a uint64 column
    and line 164 reads that column as int64, so that the table shows
    [Delay (Min)] as the negative number [- 2^63]. *)
Theorem delay_overflows_int64 :
  fst (@process_loop iso8601_parser [PDict departure_huge_delay])
  = [row_of "S1" "Potsdam Hbf" "N/A" "N/A" (2 ^ 63)]
  /\ fst (@process_departures iso8601_parser clock_2025_10_26 stable_sorter x86_64_column
            [PDict departure_huge_delay])
     = Ok [row_of "S1" "Potsdam Hbf" "N/A" "N/A" (- 2 ^ 63)]
  /\ Delay_Min (row_of "S1" "Potsdam Hbf" "N/A" "N/A" (- 2 ^ 63)) < 0.
Proof. split; [|split]; vm_compute; reflexivity. Qed.

Lemma delay_minutes_derivation_witness :
  (exists table,
      fst (@process_departures iso8601_parser clock_2025_10_26 stable_sorter x86_64_column
             [PDict departure_u2; PDict departure_text_delay; PDict departure_early])
      = Ok table
      /\ In (row_of "U2" "Destination B" "10:17" "10:18" 1) table)
  /\ Delay_Min (row_of "U2" "Destination B" "10:17" "10:18" 1) = 60 / 60
  /\ Delay_Min (row_of "S7" "Ahrensfelde" "10:00" "10:09" 0) = 0
  /\ Delay_Min (row_of "S1" "Potsdam Hbf" "10:00" "09:58" 0)
     = Z.max 0 (py_round (-120000000000 # 60000000000)).
Proof.
  pose (raw := [PDict departure_u2; PDict departure_text_delay; PDict departure_early]).
  assert (Hfit : delays_fit (fst (@process_loop iso8601_parser raw)) = true)
    by (vm_compute; reflexivity).
  split; [|split; [|split]].
  - apply (proj1 (@delay_minutes_derivation iso8601_parser clock_2025_10_26 stable_sorter
                    x86_64_column raw departure_u2 _ (or_introl eq_refl)
                    process_record_u2 Hfit)).
  - refine (proj1 (proj2 (proj2
              (@delay_minutes_derivation iso8601_parser clock_2025_10_26 stable_sorter
                 x86_64_column raw departure_u2 _ (or_introl eq_refl)
                 process_record_u2 Hfit))) 60 eq_refl _).
    lia.
  - refine (proj1 (proj2 (proj2 (proj2 (proj2 (proj2
              (@delay_minutes_derivation iso8601_parser clock_2025_10_26 stable_sorter
                 x86_64_column raw departure_text_delay _ (or_intror (or_introl eq_refl))
                 process_record_text_delay Hfit))))))
              (PStr "late") eq_refl _ _).
    + discriminate.
    + intros n; discriminate.
  - refine (proj2 (proj1 (proj2 (proj2 (proj2 (proj2 (proj2 (proj2
              (@delay_minutes_derivation iso8601_parser clock_2025_10_26 stable_sorter
                 x86_64_column raw departure_early _
                 (or_intror (or_intror (or_introl eq_refl)))
                 process_record_early Hfit)))))))
              (or_introl eq_refl)
              {| value := 1761469200000000000; resolution := Microsecond;
                 utcoffset := Some 3600 |}
              {| value := 1761469080000000000; resolution := Microsecond;
                 utcoffset := Some 3600 |}
              eq_refl eq_refl) eq_refl _).
    cbn [value]. lia.
Defined.

Lemma delay_min_non_negative_witness :
  exists table,
    fst (@process_departures iso8601_parser clock_2025_10_26 stable_sorter x86_64_column
           [PDict departure_early; PDict departure_no_times]) = Ok table
    /\ In (row_of "Bus" "Erkner" "N/A" "N/A" 0) table
    /\ Delay_Min (row_of "Bus" "Erkner" "N/A" "N/A" 0) = 0.
Proof.
  destruct (@delay_min_non_negative iso8601_parser clock_2025_10_26 stable_sorter
              x86_64_column [PDict departure_early; PDict departure_no_times])
    as (table & Htable & _ & H2).
  - vm_compute; reflexivity.
  - exists table. split; [exact Htable|].
    apply (H2 departure_no_times).
    + right; left; reflexivity.
    + exact process_record_no_times.
    + left; split; reflexivity.
Defined.


(** ** Times of day as strings *)

Lemma hour_range : forall ts : Timestamp, 0 <= hour ts <= 23.
Proof.
  intros ts. unfold hour.
  pose proof (Z.mod_pos_bound (wall_seconds ts) 86400 ltac:(lia)) as H.
  split.
  - apply Z.div_pos; lia.
  - assert (wall_seconds ts mod 86400 / 3600 < 24) by (apply Z.div_lt_upper_bound; lia).
    lia.
Qed.

Lemma minute_range : forall ts : Timestamp, 0 <= minute ts <= 59.
Proof.
  intros ts. unfold minute.
  pose proof (Z.mod_pos_bound (wall_seconds ts) 3600 ltac:(lia)) as H.
  split.
  - apply Z.div_pos; lia.
  - assert (wall_seconds ts mod 3600 / 60 < 60) by (apply Z.div_lt_upper_bound; lia).
    lia.
Qed.

Lemma two_digits_digits : forall n : Z,
    0 <= n <= 99 -> is_decimal_digit (n / 10) /\ is_decimal_digit (n mod 10).
Proof.
  intros n Hn. unfold is_decimal_digit.
  pose proof (Z.mod_pos_bound n 10 ltac:(lia)).
  assert (0 <= n / 10) by (apply Z.div_pos; lia).
  assert (n / 10 < 10) by (apply Z.div_lt_upper_bound; lia).
  lia.
Qed.

Lemma strptime_two_digits : forall (a b : Z) (rest : string),
    is_decimal_digit a -> is_decimal_digit b ->
    strptime_digits (String (digit_char a) (String (digit_char b) rest))
    = Some (10 * a + b, rest).
Proof.
  intros a b rest Ha Hb. cbn [strptime_digits].
  rewrite (digit_char_is_digit _ Ha), (digit_char_is_digit _ Hb).
  rewrite !digit_char_value by assumption. reflexivity.
Qed.

Lemma strptime_hhmm : forall h m : Z,
    0 <= h <= 23 -> 0 <= m <= 59 ->
    strptime_HM (hhmm h m) = Ok (h * 3600 + m * 60).
Proof.
  intros h m Hh Hm.
  destruct (two_digits_digits h ltac:(lia)) as [Hh1 Hh2].
  destruct (two_digits_digits m ltac:(lia)) as [Hm1 Hm2].
  unfold hhmm, two_digits, strptime_HM. cbn [String.append lstrip].
  rewrite (digit_char_not_space _ Hh1).
  rewrite (strptime_two_digits _ _ _ Hh1 Hh2).
  rewrite (strptime_two_digits _ _ _ Hm1 Hm2).
  rewrite <- !Z.div_mod by lia.
  replace (h <=? 23) with true by (symmetry; apply Z.leb_le; lia).
  replace (m <=? 59) with true by (symmetry; apply Z.leb_le; lia).
  reflexivity.
Qed.

Lemma hhmm_not_na : forall h m : Z, 0 <= h <= 23 -> String.eqb (hhmm h m) "N/A" = false.
Proof.
  intros h m Hh.
  destruct (two_digits_digits h ltac:(lia)) as [Hh1 _].
  unfold hhmm, two_digits. cbn [String.append].
  revert Hh1. generalize (h / 10). intros a Ha.
  each_digit Ha; reflexivity.
Qed.

Lemma strftime_is_hhmm : forall ts : Timestamp, strftime_HM ts = hhmm (hour ts) (minute ts).
Proof. reflexivity. Qed.

(** The seconds after midnight determine the string. *)
Lemma hhmm_of_seconds : forall h m : Z,
    0 <= h <= 23 -> 0 <= m <= 59 ->
    hhmm h m = hhmm ((h * 3600 + m * 60) / 3600) (((h * 3600 + m * 60) mod 3600) / 60).
Proof.
  intros h m Hh Hm.
  assert (E1 : (h * 3600 + m * 60) / 3600 = h).
  { symmetry. apply (Z.div_unique _ _ _ (m * 60)); lia. }
  assert (E2 : (h * 3600 + m * 60) mod 3600 = m * 60).
  { symmetry. apply (Z.mod_unique _ _ h); lia. }
  rewrite E1, E2, Z.div_mul by lia. reflexivity.
Qed.

Section Expected_strings.
Context {parser : DateParser} {clock : Clock}.

Lemma sort_time_na : sort_time "N/A" = Ok None.
Proof. reflexivity. Qed.

Lemma sort_time_none : forall x : string, sort_time x = Ok None -> x = "N/A".
Proof.
  intros x H. unfold sort_time in H.
  destruct (String.eqb x "N/A") eqn:E.
  - apply String.eqb_eq, E.
  - destruct (strptime_HM x); discriminate H.
Qed.

Lemma sort_time_hhmm : forall h m : Z,
    0 <= h <= 23 -> 0 <= m <= 59 ->
    sort_time (hhmm h m) = Ok (Some (today_midnight + (h * 3600 + m * 60))).
Proof.
  intros h m Hh Hm. unfold sort_time.
  rewrite (hhmm_not_na h m Hh), (strptime_hhmm h m Hh Hm). reflexivity.
Qed.

(** The time a string of [Expected] stands for, read back from its sort
    key. *)
Lemma sort_time_determines : forall (x : string) (t : Z),
    sort_time x = Ok (Some t) ->
    (exists h m, 0 <= h <= 23 /\ 0 <= m <= 59 /\ x = hhmm h m) ->
    x = hhmm ((t - today_midnight) / 3600) (((t - today_midnight) mod 3600) / 60).
Proof.
  intros x t Ht (h & m & Hh & Hm & ->).
  rewrite (sort_time_hhmm h m Hh Hm) in Ht. injection Ht as <-.
  replace (today_midnight + (h * 3600 + m * 60) - today_midnight)
    with (h * 3600 + m * 60) by ring.
  apply hhmm_of_seconds; assumption.
Qed.

Lemma process_record_expected : forall (dep : pyval) (r : row),
    process_record dep = Ok r -> well_formed_expected r.
Proof.
  intros dep r H.
  destruct dep; try (rewrite process_record_not_dict in H by congruence; discriminate H).
  apply process_record_ok in H.
  destruct H as (li & sdt & edt & dm & _ & _ & _ & _ & ->).
  unfold well_formed_expected; cbn [Expected].
  destruct edt as [ts|]; [right | left; reflexivity].
  exists (hour ts), (minute ts).
  split; [apply hour_range | split; [apply minute_range | reflexivity]].
Qed.

Lemma process_loop_expected : forall raw : list pyval,
    Forall well_formed_expected (fst (process_loop raw)).
Proof.
  intros raw. apply Forall_forall. intros r Hin.
  apply process_loop_rows in Hin. destruct Hin as (dep & _ & Hp).
  exact (process_record_expected dep r Hp).
Qed.

Lemma well_formed_sort_time : forall r : row,
    well_formed_expected r -> exists k, sort_time (Expected r) = Ok k.
Proof.
  intros r [->|(h & m & Hh & Hm & ->)].
  - eexists; apply sort_time_na.
  - eexists; apply sort_time_hhmm; assumption.
Qed.

(** On the rows of the loop the reconstruction of line 170 never raises. *)
Lemma reconstruction_succeeds : forall raw : list pyval,
    exists keyed, sort_time_column (fst (process_loop raw)) = Ok keyed.
Proof.
  intros raw. apply sort_time_column_ok.
  eapply Forall_impl; [|apply process_loop_expected].
  intros r; apply well_formed_sort_time.
Qed.

End Expected_strings.

(** ** The order of strings *)

Lemma string_compare_refl : forall s : string, String.compare s s = Eq.
Proof.
  induction s as [|c s IH]; cbn [String.compare].
  - reflexivity.
  - unfold Ascii.compare. rewrite N.compare_refl. exact IH.
Qed.

Lemma string_lt_trans : forall s t u : string,
    string_lt s t -> string_lt t u -> string_lt s u.
Proof.
  unfold string_lt.
  induction s as [|a s IH]; intros [|b t] [|c u]; cbn [String.compare];
    try discriminate; try reflexivity.
  unfold Ascii.compare.
  destruct (N.compare_spec (N_of_ascii a) (N_of_ascii b)) as [Eab|Lab|Gab];
    try discriminate;
    destruct (N.compare_spec (N_of_ascii b) (N_of_ascii c)) as [Ebc|Lbc|Gbc];
    try discriminate; intros H1 H2.
  - rewrite Eab, Ebc, N.compare_refl. exact (IH t u H1 H2).
  - rewrite Eab. apply N.compare_lt_iff in Lbc. rewrite Lbc. reflexivity.
  - rewrite <- Ebc. apply N.compare_lt_iff in Lab. rewrite Lab. reflexivity.
  - assert (L : (N_of_ascii a < N_of_ascii c)%N) by (eapply N.lt_trans; eassumption).
    apply N.compare_lt_iff in L. rewrite L. reflexivity.
Qed.

Lemma string_le_cases : forall s t : string, string_le s t <-> string_lt s t \/ s = t.
Proof.
  intros s t. unfold string_le, string_lt. split.
  - intros H. destruct (String.compare s t) eqn:E.
    + right. apply String.compare_eq_iff, E.
    + left; reflexivity.
    + congruence.
  - intros [H| ->]; [congruence | rewrite string_compare_refl; discriminate].
Qed.

Lemma string_le_trans : forall s t u : string,
    string_le s t -> string_le t u -> string_le s u.
Proof.
  intros s t u H1 H2.
  apply string_le_cases in H1. apply string_le_cases in H2. apply string_le_cases.
  destruct H1 as [H1| ->]; destruct H2 as [H2| ->]; auto.
  left. eapply string_lt_trans; eassumption.
Qed.

Lemma string_leb_le : forall s t : string, String.leb s t = true <-> string_le s t.
Proof.
  intros s t. unfold String.leb, string_le.
  destruct (String.compare s t); split; congruence.
Qed.

Lemma lex_leb_le : forall a b : row, lex_leb a b = true <-> lex_le a b.
Proof.
  intros a b. unfold lex_leb, lex_le, string_lt.
  destruct (String.compare (Expected a) (Expected b)) eqn:E.
  - apply String.compare_eq_iff in E. rewrite string_leb_le. split.
    + intros H; right; auto.
    + intros [H|[_ H]]; [discriminate H | exact H].
  - split; auto.
  - split; [discriminate|].
    intros [H|[H _]]; [discriminate H|].
    rewrite H, string_compare_refl in E. discriminate E.
Qed.

Lemma lex_leb_total : forall a b : row, lex_leb a b = true \/ lex_leb b a = true.
Proof.
  intros a b. unfold lex_leb.
  rewrite (String.compare_antisym (Expected b) (Expected a)).
  destruct (String.compare (Expected a) (Expected b)) eqn:E; cbn [CompOpp]; auto.
  apply String.leb_total.
Qed.

Lemma lex_le_trans : forall a b c : row, lex_le a b -> lex_le b c -> lex_le a c.
Proof.
  intros a b c [H1|[E1 H1]] [H2|[E2 H2]]; unfold lex_le.
  - left. eapply string_lt_trans; eassumption.
  - left. rewrite <- E2. exact H1.
  - left. rewrite E1. exact H2.
  - right. split; [congruence | eapply string_le_trans; eassumption].
Qed.

(** ["N/A"] is above every string that starts with a digit: the letter N
    has a larger code than the ten digits. *)
Lemma digit_below_na : forall (c : ascii) (rest : string),
    is_digit c = true -> string_lt (String c rest) "N/A".
Proof.
  intros c rest H. unfold string_lt. cbn [String.compare].
  unfold is_digit in H. apply andb_true_iff in H. destruct H as [_ H].
  apply Nat.leb_le in H.
  assert (L : (N_of_ascii c < N_of_ascii "N")%N).
  { change (N_of_ascii "N") with 78%N.
    unfold nat_of_ascii in H. lia. }
  unfold Ascii.compare. apply N.compare_lt_iff in L. rewrite L. reflexivity.
Qed.

Lemma sorted_lex_leb : forall df : list row,
    StronglySorted lex_le (stable_sort lex_leb df).
Proof.
  intros df. apply Sorted_StronglySorted.
  - intros a b c; apply lex_le_trans.
  - eapply Sorted_ind with (P := Sorted lex_le);
      [constructor | | apply stable_sort_sorted, lex_leb_total].
    intros a l _ IH Hhd. constructor; [exact IH|].
    destruct Hhd; constructor. apply lex_leb_le. assumption.
Qed.

(** ** The order of the table (C3, C9, C10) *)

Lemma StronglySorted_middle : forall (A : Type) (R : A -> A -> Prop)
                                     (l1 l2 l3 : list A) (a b : A),
    StronglySorted R (l1 ++ a :: l2 ++ b :: l3) -> R a b.
Proof.
  intros A R l1 l2 l3 a b. induction l1 as [|x l1 IH]; cbn [app]; intros H.
  - apply StronglySorted_inv in H. destruct H as [_ H].
    rewrite Forall_forall in H. apply H, in_or_app. right; left; reflexivity.
  - apply StronglySorted_inv in H. apply IH, H.
Qed.

Lemma StronglySorted_map : forall (A B : Type) (f : A -> B) (R : B -> B -> Prop) (l : list A),
    StronglySorted (fun a b => R (f a) (f b)) l -> StronglySorted R (map f l).
Proof.
  intros A B f R l; induction 1 as [|a l _ IH Hall]; cbn [map]; constructor.
  - exact IH.
  - apply Forall_map. exact Hall.
Qed.

(** A list of integers in order has one arrangement. *)
Lemma sorted_perm_eq : forall l l' : list Z,
    StronglySorted Z.le l -> StronglySorted Z.le l' -> Permutation l l' -> l = l'.
Proof.
  induction l as [|a l IH]; intros l' Hl Hl' Hp.
  - apply Permutation_nil in Hp. congruence.
  - destruct l' as [|b l'].
    + apply Permutation_sym, Permutation_nil in Hp. discriminate Hp.
    + apply StronglySorted_inv in Hl. destruct Hl as [Hl Ha].
      apply StronglySorted_inv in Hl'. destruct Hl' as [Hl' Hb].
      rewrite Forall_forall in Ha, Hb.
      assert (E : a = b).
      { assert (Hin_b : In b (a :: l)).
        { apply (Permutation_in _ (Permutation_sym Hp)); left; reflexivity. }
        assert (Hin_a : In a (b :: l')).
        { apply (Permutation_in _ Hp); left; reflexivity. }
        destruct Hin_b as [E|Hin_b]; [exact E|].
        destruct Hin_a as [E|Hin_a]; [congruence|].
        specialize (Ha b Hin_b). specialize (Hb a Hin_a). lia. }
      subst b. f_equal. apply IH; try assumption.
      eapply Permutation_cons_inv; eassumption.
Qed.

Lemma sorted_by_time : forall (A : Type) (key : A -> Z) (l : list A),
    Sorted (fun a b => (key a <=? key b) = true) l ->
    StronglySorted (fun a b => key a <= key b) l.
Proof.
  intros A key l H. apply Sorted_StronglySorted.
  - intros a b c; apply Z.le_trans.
  - induction H as [|a l _ IH Hhd]; constructor; [exact IH|].
    destruct Hhd; constructor. apply Z.leb_le. assumption.
Qed.

Section Order_claims.
Context {parser : DateParser} {clock : Clock} {sorter : Quicksort} {column : Int64Column}.





Lemma frame_of_well_formed : forall rows df : list row,
    frame_of rows = Ok df ->
    Forall well_formed_expected rows -> Forall well_formed_expected df.
Proof.
  intros rows df H. apply frame_of_rows in H.
  induction H as [|r r' rows df Hr _ IH]; intros Hw; [constructor|].
  inversion Hw as [|? ? Hw1 Hw2]; subst. constructor; [|apply IH, Hw2].
  rewrite Hr. exact Hw1.
Qed.


(** C10: on the fallback path (the reconstruction of the timestamps raised)
    no row whose [Expected] is ["N/A"] stands before a row whose [Expected]
    is an HH:MM digit string: the rows without a time come last on this
    path as well. *)
Theorem fallback_keeps_na_last :
  forall (df : list row) (e : exn),
    sort_time_column df = Raise e ->
    forall (before between after : list row) (a b : row) (h m : Z),
      sort_departures df = before ++ a :: between ++ b :: after ->
      0 <= h <= 23 -> 0 <= m <= 59 ->
      Expected b = hhmm h m ->
      Expected a <> "N/A".
Proof.
  intros df e E before between after a b h m Hsplit Hh Hm Hb Ha.
  assert (Hs : StronglySorted lex_le (sort_departures df)).
  { unfold sort_departures. rewrite E. apply sorted_lex_leb. }
  rewrite Hsplit in Hs. apply StronglySorted_middle in Hs.
  destruct (two_digits_digits h ltac:(lia)) as [Hd _].
  pose proof (digit_below_na (digit_char (h / 10))
                (String (digit_char (h mod 10)) (":" ++ two_digits m))
                (digit_char_is_digit _ Hd)) as Hlt.
  change (String (digit_char (h / 10)) (String (digit_char (h mod 10)) (":" ++ two_digits m)))
    with (hhmm h m) in Hlt.
  unfold string_lt in Hlt. rewrite <- Hb, <- Ha in Hlt.
  destruct Hs as [Hs|[Hs _]].
  - unfold string_lt in Hs. rewrite String.compare_antisym, Hlt in Hs. discriminate Hs.
  - rewrite Hs, string_compare_refl in Hlt. discriminate Hlt.
Qed.

End Order_claims.

Example table_unreadable_time_raises :
  @sort_time_column clock_2025_10_26 table_unreadable_time = Raise ValueError.
Proof. reflexivity. Qed.

Example table_unreadable_time_sorted :
  @sort_departures clock_2025_10_26 stable_sorter table_unreadable_time
  = [ row_of "S5" "Strausberg" "09:45" "09:45" 0;
      row_of "S7" "Ahrensfelde" "10:00" "10:00" 0;
      row_of "U2" "Pankow" "09:30" "9h30" 0;
      row_of "S1" "Potsdam Hbf" "10:00" "N/A" 0 ].
Proof. reflexivity. Qed.


Lemma fallback_keeps_na_last_witness :
  Expected (row_of "S5" "Strausberg" "09:45" "09:45" 0) <> "N/A".
Proof.
  apply (@fallback_keeps_na_last clock_2025_10_26 stable_sorter
           table_unreadable_time ValueError table_unreadable_time_raises
           [] [] [row_of "U2" "Pankow" "09:30" "9h30" 0; row_of "S1" "Potsdam Hbf" "10:00" "N/A" 0]
           (row_of "S5" "Strausberg" "09:45" "09:45" 0)
           (row_of "S7" "Ahrensfelde" "10:00" "10:00" 0) 10 0).
  - reflexivity.
  - lia.
  - lia.
  - reflexivity.
Defined.

Section Idempotence.
Context {parser : DateParser} {clock : Clock} {sorter : Quicksort} {column : Int64Column}.

Lemma sort_time_column_app : forall (a b : list row) (ka kb : list (row * option Z)),
    sort_time_column a = Ok ka -> sort_time_column b = Ok kb ->
    sort_time_column (a ++ b) = Ok (ka ++ kb).
Proof.
  induction a as [|r a IH]; intros b ka kb Ha Hb.
  - injection Ha as <-. exact Hb.
  - cbn [sort_time_column app] in *.
    destruct (sort_time (Expected r)) as [k|]; [|discriminate Ha]. cbn [bind] in *.
    destruct (sort_time_column a) as [ka'|] eqn:E; [|discriminate Ha]. cbn [bind] in Ha.
    injection Ha as <-. rewrite (IH b ka' kb eq_refl Hb). reflexivity.
Qed.

Lemma sort_time_column_timed : forall timed : list (row * Z),
    Forall (fun rt => sort_time (Expected (fst rt)) = Ok (Some (snd rt))) timed ->
    sort_time_column (map fst timed)
    = Ok (map (fun rt => (fst rt, Some (snd rt))) timed).
Proof.
  induction 1 as [|rt timed Hk _ IH]; cbn [map sort_time_column].
  - reflexivity.
  - rewrite Hk, IH. reflexivity.
Qed.

Lemma sort_time_column_na : forall na : list row,
    Forall (fun r => Expected r = "N/A") na ->
    sort_time_column na = Ok (map (fun r => (r, None)) na).
Proof.
  induction 1 as [|r na Hr _ IH]; cbn [map sort_time_column].
  - reflexivity.
  - rewrite Hr, sort_time_na, IH. reflexivity.
Qed.

Lemma timed_rows_app : forall a b : list (row * option Z),
    timed_rows (a ++ b) = timed_rows a ++ timed_rows b.
Proof. intros a b; unfold timed_rows; apply flat_map_app. Qed.

Lemma nat_rows_app : forall a b : list (row * option Z),
    nat_rows (a ++ b) = nat_rows a ++ nat_rows b.
Proof. intros a b; unfold nat_rows; apply flat_map_app. Qed.

Lemma timed_rows_of_timed : forall timed : list (row * Z),
    timed_rows (map (fun rt => (fst rt, Some (snd rt))) timed) = timed
    /\ nat_rows (map (fun rt => (fst rt, Some (snd rt))) timed) = [].
Proof.
  induction timed as [|[r t] timed [IH1 IH2]]; cbn.
  - split; reflexivity.
  - split; [f_equal; exact IH1 | exact IH2].
Qed.

Lemma timed_rows_of_na : forall na : list row,
    timed_rows (map (fun r => (r, None)) na) = []
    /\ nat_rows (map (fun r => (r, None)) na) = na.
Proof.
  induction na as [|r na [IH1 IH2]]; cbn.
  - split; reflexivity.
  - split; [exact IH1 | f_equal; exact IH2].
Qed.

(** Sorting a table already in order: the rows with a time are rearranged
    among themselves; those without stay where they are. *)
Lemma sort_departures_of_sorted : forall (timed : list (row * Z)) (na : list row),
    Forall (fun rt => sort_time (Expected (fst rt)) = Ok (Some (snd rt))) timed ->
    Forall (fun r => Expected r = "N/A") na ->
    sort_departures (map fst timed ++ na)
    = map fst (quicksort (fun a b => snd a <=? snd b) timed) ++ na.
Proof.
  intros timed na Ht Hna. unfold sort_departures.
  rewrite (sort_time_column_app _ _ _ _ (sort_time_column_timed timed Ht)
             (sort_time_column_na na Hna)).
  unfold sort_by_sort_time. rewrite timed_rows_app, nat_rows_app.
  destruct (timed_rows_of_timed timed) as [-> ->].
  destruct (timed_rows_of_na na) as [-> ->].
  rewrite app_nil_r. reflexivity.
Qed.

Lemma expected_of_key : forall timed : list (row * Z),
    Forall (fun rt => well_formed_expected (fst rt)) timed ->
    Forall (fun rt => sort_time (Expected (fst rt)) = Ok (Some (snd rt))) timed ->
    map Expected (map fst timed)
    = map (fun t => hhmm ((t - today_midnight) / 3600) (((t - today_midnight) mod 3600) / 60))
          (map snd timed).
Proof.
  induction 1 as [|rt timed Hw _ IH]; intros Hk; cbn [map].
  - reflexivity.
  - inversion Hk as [|? ? Hk1 Hk2]; subst. f_equal; [|apply IH, Hk2].
    apply sort_time_determines; [exact Hk1|].
    destruct Hw as [Hna|Hw]; [|exact Hw].
    rewrite Hna, sort_time_na in Hk1. discriminate Hk1.
Qed.

(** C9, as amended: when the rows normalized from a raw sequence are
    already in the canonical order (and their delays fit the int64 column),
    [process_departures] returns them with the same sequence of expected
    times: the rows that have a time are rearranged at most among rows of
    equal expected time, and the rows without a time keep their places.
    (The order among rows of equal expected time is the sorting routine's
    to choose.) *)
Theorem normalizing_sorted_rows :
  forall raw : list pyval,
    ascending_by_expected (fst (process_loop raw)) ->
    delays_fit (fst (process_loop raw)) = true ->
    exists (timed timed' : list row) (na : list row),
      fst (process_loop raw) = timed ++ na
      /\ fst (process_departures raw) = Ok (timed' ++ na)
      /\ Permutation timed timed'
      /\ map Expected timed' = map Expected timed
      /\ Forall (fun r => Expected r <> "N/A") timed
      /\ Forall (fun r => Expected r = "N/A") na.
Proof.
  intros raw (timed & na & Hrows & Hk & Hs & Hna) Hfit.
  pose proof (process_departures_fits raw Hfit) as Htable.
  set (sorted := quicksort (fun a b => snd a <=? snd b) timed).
  assert (Hperm : Permutation timed sorted) by apply quicksort_perm.
  exists (map fst timed), (map fst sorted), na.
  split; [exact Hrows|]. split; [|split; [|split; [|split]]].
  - rewrite Htable, Hrows. f_equal. apply sort_departures_of_sorted; assumption.
  - apply Permutation_map, Hperm.
  - assert (Hw : Forall (fun rt => well_formed_expected (fst rt)) timed).
    { pose proof (process_loop_expected raw) as Hall. rewrite Hrows in Hall.
      apply Forall_app in Hall. destruct Hall as [Hall _].
      rewrite Forall_map in Hall. exact Hall. }
    rewrite (expected_of_key timed Hw Hk).
    rewrite (expected_of_key sorted).
    + f_equal. symmetry. apply sorted_perm_eq.
      * apply StronglySorted_map, Hs.
      * apply StronglySorted_map, sorted_by_time, quicksort_sorted.
        intros x y. destruct (Z.le_ge_cases (snd x) (snd y)) as [H|H];
          [left | right]; apply Z.leb_le; exact H.
      * apply Permutation_map, Hperm.
    + eapply Permutation_Forall; eassumption.
    + eapply Permutation_Forall; eassumption.
  - apply Forall_map. eapply Forall_impl; [|exact Hk].
    intros rt H Hna'. cbv beta in H.
    rewrite Hna', sort_time_na in H. discriminate H.
  - exact Hna.
Qed.

End Idempotence.

Example rows_at_ten :
  fst (@process_loop iso8601_parser (map departure_at_ten lines_at_ten))
  = map row_at_ten lines_at_ten.
Proof. vm_compute; reflexivity. Qed.

Lemma rows_at_ten_ascending :
  @ascending_by_expected clock_2025_10_26
    (fst (@process_loop iso8601_parser (map departure_at_ten lines_at_ten))).
Proof.
  rewrite rows_at_ten.
  exists (map (fun line => (row_at_ten line, @today_midnight clock_2025_10_26 + 36000))
              lines_at_ten), [].
  split; [|split; [|split]].
  - rewrite app_nil_r, map_map. reflexivity.
  - apply Forall_map, Forall_forall. intros line _. reflexivity.
  - induction lines_at_ten as [|line rest IH]; cbn [map]; constructor.
    + exact IH.
    + apply Forall_map, Forall_forall. intros; cbn [snd]; lia.
  - constructor.
Qed.

(** What numpy's quicksort makes of them: the second to the sixteenth row
    come back in reverse. *)
Example table_at_ten :
  fst (@process_departures iso8601_parser clock_2025_10_26 numpy_sorter x86_64_column
         (map departure_at_ten lines_at_ten))
  = Ok (map row_at_ten ["S1"; "S9"; "S85"; "S8"; "S75"; "S7"; "S5"; "S47"; "S46";
                        "S45"; "S42"; "S41"; "S3"; "S26"; "S25"; "S2"; "U1"; "U2"]).
Proof. vm_compute; reflexivity. Qed.

(** C9, as the claim states it, fails: eighteen rows of equal expected time
    are in canonical order, and numpy's quicksort, which pandas runs by
    default, returns them in another order. *)
Lemma equal_times_are_reordered :
  ~ (forall (parser : DateParser) (clock : Clock) (sorter : Quicksort)
            (column : Int64Column) (raw : list pyval),
        ascending_by_expected (fst (process_loop raw)) ->
        fst (process_departures raw) = Ok (fst (process_loop raw))).
Proof.
  intros H.
  specialize (H iso8601_parser clock_2025_10_26 numpy_sorter x86_64_column
                (map departure_at_ten lines_at_ten) rows_at_ten_ascending).
  rewrite table_at_ten, rows_at_ten in H.
  discriminate H.
Qed.

Lemma normalizing_sorted_rows_witness :
  exists (timed timed' : list row) (na : list row),
    fst (@process_loop iso8601_parser (map departure_at_ten lines_at_ten)) = timed ++ na
    /\ fst (@process_departures iso8601_parser clock_2025_10_26 numpy_sorter x86_64_column
              (map departure_at_ten lines_at_ten)) = Ok (timed' ++ na)
    /\ Permutation timed timed'
    /\ map Expected timed' = map Expected timed
    /\ Forall (fun r => Expected r <> "N/A") timed
    /\ Forall (fun r => Expected r = "N/A") na.
Proof.
  apply (@normalizing_sorted_rows iso8601_parser clock_2025_10_26 numpy_sorter
           x86_64_column (map departure_at_ten lines_at_ten)).
  - exact rows_at_ten_ascending.
  - vm_compute; reflexivity.
Defined.

(** ** Resolving the attributes of a record (C7) *)

Example process_record_null_direction :
  @process_record iso8601_parser (PDict departure_null_direction)
  = Ok {| Line := PStr "S3"; Direction := PNone; Scheduled := "N/A"; Expected := "N/A";
          Delay_Min := 0; Platform := PStr "N/A" |}.
Proof. reflexivity. Qed.

(** C7, as the claim states it, fails: a record with a null direction and a
    destination gets the null as its [Direction], which is neither the first
    non-null candidate nor a string. *)
Lemma null_direction_is_kept :
  ~ (forall (parser : DateParser) (d : list (string * pyval)) (r : row),
        process_record (PDict d) = Ok r ->
        Direction r = first_non_null d ["direction"; "destination"] (PStr "N/A"))
  /\ ~ (forall (parser : DateParser) (d : list (string * pyval)) (r : row),
          process_record (PDict d) = Ok r -> non_empty_string (Direction r)).
Proof.
  split; intros H;
    specialize (H iso8601_parser departure_null_direction _ process_record_null_direction).
  - discriminate H.
  - destruct H as (s & H & _). discriminate H.
Qed.

Section Resolution.
Context {parser : DateParser}.

(** C7, as amended: for every record that yields a row, each attribute is
    the value of the first of its candidate keys that is present in the
    record, a null value included (the line name is looked up in the value
    under [line], which must be a dict); the expected time is resolved from
    [when], then [actualTime], then the candidates of the scheduled time,
    and is the scheduled timestamp itself when none of its own keys is
    present or when the value resolved is null or empty; [Line] and
    [Direction] are ["N/A"] when none of their candidate keys is present. *)
Theorem attributes_resolved_by_first_present_key :
  forall (d : list (string * pyval)) (r : row),
    process_record (PDict d) = Ok r ->
    exists (li : list (string * pyval)) (scheduled_dt expected_dt : option Timestamp),
      first_present d ["line"] (PDict []) = PDict li
      /\ Line r = first_present li ["name"; "productName"] (PStr "N/A")
      /\ Direction r = first_present d ["direction"; "destination"] (PStr "N/A")
      /\ Platform r = first_present d ["platform"; "plannedPlatform"] (PStr "N/A")
      /\ parse_or (first_present d ["plannedWhen"; "scheduledTime"] PNone) None
         = Ok scheduled_dt
      /\ Scheduled r = format_time scheduled_dt
      /\ parse_or (first_present d ["when"; "actualTime"; "plannedWhen"; "scheduledTime"] PNone)
                  scheduled_dt
         = Ok expected_dt
      /\ Expected r = format_time expected_dt
      /\ ((lookup "when" d = None /\ lookup "actualTime" d = None)
          \/ truthy (first_present d ["when"; "actualTime"] PNone) = false ->
          expected_dt = scheduled_dt /\ Expected r = Scheduled r)
      /\ (lookup "name" li = None -> lookup "productName" li = None -> Line r = PStr "N/A")
      /\ (lookup "direction" d = None -> lookup "destination" d = None ->
          Direction r = PStr "N/A").
Proof.
  intros d r H. apply process_record_ok in H.
  destruct H as (li & sdt & edt & dm & Hli & Hs & He & _ & ->).
  exists li, sdt, edt. cbn [Line Direction Platform Scheduled Expected].
  split; [exact Hli|]. split; [reflexivity|]. split; [reflexivity|].
  split; [reflexivity|]. split; [exact Hs|]. split; [reflexivity|].
  split; [exact He|]. split; [reflexivity|]. split; [|split].
  - intros Hown.
    assert (E : edt = sdt); [|split; [exact E | rewrite E; reflexivity]].
    unfold expected_time_str, scheduled_time_str, get_or, parse_or in *.
    cbn [first_present] in *.
    destruct Hown as [[Hw Ha]|Hf].
    + rewrite Hw, Ha in He.
      destruct (truthy _) in Hs, He.
      * destruct (to_datetime _); cbn [bind] in Hs, He; congruence.
      * congruence.
    + destruct (lookup "when" d) as [w|].
      * rewrite Hf in He. congruence.
      * destruct (lookup "actualTime" d) as [a|].
        -- rewrite Hf in He. congruence.
        -- destruct (truthy _) in Hs, He.
           ++ destruct (to_datetime _); cbn [bind] in Hs, He; congruence.
           ++ congruence.
  - intros Hn Hp. unfold get_or. rewrite Hn, Hp. reflexivity.
  - intros Hn Hp. unfold direction, get_or. rewrite Hn, Hp. reflexivity.
Qed.

End Resolution.

Lemma attributes_resolved_by_first_present_key_witness :
  exists (li : list (string * pyval)) (scheduled_dt expected_dt : option Timestamp),
    first_present departure_no_times ["line"] (PDict []) = PDict li
    /\ Line (row_of "Bus" "Erkner" "N/A" "N/A" 0)
       = first_present li ["name"; "productName"] (PStr "N/A")
    /\ Direction (row_of "Bus" "Erkner" "N/A" "N/A" 0)
       = first_present departure_no_times ["direction"; "destination"] (PStr "N/A")
    /\ expected_dt = scheduled_dt.
Proof.
  destruct (@attributes_resolved_by_first_present_key iso8601_parser departure_no_times _
              process_record_no_times)
    as (li & sdt & edt & H1 & H2 & H3 & _ & _ & _ & _ & _ & H9 & _).
  exists li, sdt, edt.
  split; [exact H1|]. split; [exact H2|]. split; [exact H3|].
  apply H9. left; split; reflexivity.
Defined.

(** ** The API clients (C6, C8) *)

Example search_station_alexanderplatz :
  @search_station configured (replying search_reply) "Alexanderplatz"
  = (Ok [stop_alexanderplatz], []).
Proof. reflexivity. Qed.

(** C8, as the claim states it, fails: a candidate is returned with every
    field the response gave it, here also [type] and [location]. *)
Lemma candidates_keep_all_fields :
  ~ (forall (config : Config) (network : Network) (query : string)
            (stations : list pyval) (log : list diagnostic),
        search_station query = (Ok stations, log) ->
        Forall has_exactly_id_and_name stations).
Proof.
  intros H.
  specialize (H configured (replying search_reply) "Alexanderplatz" _ _
                search_station_alexanderplatz).
  inversion H as [|? ? Hloc _]; subst.
  destruct (proj1 (Hloc "type") (ex_intro _ (PStr "stop") eq_refl)) as [E|E];
    discriminate E.
Qed.

Lemma is_station_dict : forall d : list (string * pyval),
    is_station (PDict d) = Ok (carries_id_or_stop (PDict d)).
Proof.
  intros d. unfold is_station, carries_id_or_stop, py_get, get_or. cbn [bind].
  destruct (lookup "type" d) as [[]|]; reflexivity.
Qed.

Lemma keep_stations_filter : forall found stations : list pyval,
    keep_stations found = Ok stations ->
    stations = filter carries_id_or_stop found
    /\ Forall (fun loc => exists d, loc = PDict d) found.
Proof.
  induction found as [|loc found IH]; intros stations H.
  - injection H as <-. split; constructor.
  - cbn [keep_stations] in H.
    destruct loc; try discriminate H.
    rewrite is_station_dict in H. cbn [bind] in H.
    destruct (keep_stations found) as [kept|] eqn:E; [|discriminate H].
    cbn [bind] in H. injection H as <-.
    destruct (IH kept eq_refl) as [-> Hall].
    split; [reflexivity | constructor; [eexists; reflexivity | exact Hall]].
Qed.

Section Client_claims.
Context {config : Config} {network : Network}.

(** C8, as amended: for every query, [search_station] returns at most 5
    candidates; with a configured key they are, from the first list found
    in the response, the first five entries that carry an identifier or the
    type marker ["stop"], in the order of that list and each with all the
    fields it has there; without a key they are the two placeholder
    stations. *)
Theorem search_station_candidates :
  forall (query : string) (stations : list pyval) (log : list diagnostic),
    search_station query = (Ok stations, log) ->
    (List.length stations <= 5)%nat
    /\ (api_key_missing = false ->
        (stations = [] /\ log <> [])
        \/ exists status_code data found_list,
            requests_get LOCATION_SEARCH_ENDPOINT [("query", PStr query); ("results", PInt 5)]
            = Response status_code (Json data)
            /\ find_list ["locations"; "stopLocations"; "station"] data = Ok (Some found_list)
            /\ stations = firstn 5 (filter carries_id_or_stop found_list)
            /\ log = [])
    /\ (api_key_missing = true -> stations = dummy_stations).
Proof.
  intros query stations log H. unfold search_station in H.
  destruct api_key_missing.
  - injection H as <- <-. split; [cbn; lia|]. split; [discriminate | reflexivity].
  - assert (G : (stations = [] /\ log <> [])
        \/ exists status_code data found_list,
            requests_get LOCATION_SEARCH_ENDPOINT [("query", PStr query); ("results", PInt 5)]
            = Response status_code (Json data)
            /\ find_list ["locations"; "stopLocations"; "station"] data = Ok (Some found_list)
            /\ stations = firstn 5 (filter carries_id_or_stop found_list)
            /\ log = []).
    { destruct (requests_get _ _) as [|status_code [|data]] eqn:Ereq.
      - injection H as <- <-. left; split; [reflexivity | discriminate].
      - destruct (is_http_error status_code); injection H as <- <-;
          left; (split; [reflexivity | discriminate]).
      - destruct (is_http_error status_code).
        + injection H as <- <-. left; split; [reflexivity | discriminate].
        + destruct (find_list _ data) as [[found|]|] eqn:Efind; try discriminate H.
          * destruct (keep_stations found) as [kept|] eqn:Ekeep; [|discriminate H].
            injection H as <- <-.
            destruct (keep_stations_filter found kept Ekeep) as [-> _].
            right. exists status_code, data, found.
            repeat split; try reflexivity; assumption.
          * injection H as <- <-. left; split; [reflexivity | discriminate]. }
    split; [|split; [intros _; exact G | discriminate]].
    destruct G as [[-> _]|(? & ? & found & _ & _ & -> & _)].
    + cbn; lia.
    + apply firstn_le_length.
Qed.

End Client_claims.

Lemma search_station_candidates_witness :
  (List.length [stop_alexanderplatz] <= 5)%nat
  /\ (@api_key_missing configured = false ->
      ([stop_alexanderplatz] = [] /\ @nil diagnostic <> [])
      \/ exists status_code data found_list,
          @requests_get (replying search_reply) LOCATION_SEARCH_ENDPOINT
            [("query", PStr "Alexanderplatz"); ("results", PInt 5)]
          = Response status_code (Json data)
          /\ find_list ["locations"; "stopLocations"; "station"] data = Ok (Some found_list)
          /\ [stop_alexanderplatz] = firstn 5 (filter carries_id_or_stop found_list)
          /\ @nil diagnostic = [])
  /\ (@api_key_missing configured = true -> [stop_alexanderplatz] = dummy_stations).
Proof.
  apply (@search_station_candidates configured (replying search_reply) "Alexanderplatz").
  exact search_station_alexanderplatz.
Defined.

(** What the two clients do on the failures they catch, and on a JSON
    object that holds no list under a known key. *)
Lemma clients_degrade : forall (network : Network) (query stop_id : string) (minutes : Z),
    (forall url params,
        requests_get url params = RequestFailed
        \/ (exists code body, requests_get url params = Response code body
                              /\ is_http_error code = true)
        \/ (exists code, requests_get url params = Response code NotJson)
        \/ (exists code d, requests_get url params = Response code (Json (PDict d))
                           /\ forall key l, lookup key d <> Some (PList l))) ->
    (exists m, @search_station configured network query = (Ok [], [m]))
    /\ (exists m, @get_departures configured network stop_id minutes = (Ok [], [m])).
Proof.
  intros network query stop_id minutes H.
  assert (P : forall keys d, (forall key l, lookup key d <> Some (PList l)) ->
                             probe_keys keys (PDict d) = Ok None).
  { induction keys as [|key keys IH]; intros d Hd; cbn [probe_keys]; [reflexivity|].
    destruct (lookup key d) as [[]|] eqn:E; try (apply IH, Hd).
    exfalso; exact (Hd _ _ E). }
  unfold search_station, get_departures. cbn [api_key_missing API_KEY configured].
  change (String.eqb "0123-4567-89ab" "" || String.eqb "0123-4567-89ab" "YOUR_VBB_API_KEY_HERE")
    with false. cbv iota.
  split.
  - destruct (H LOCATION_SEARCH_ENDPOINT [("query", PStr query); ("results", PInt 5)])
      as [E|[(code & body & E & Herr)|[(code & E)|(code & d & E & Hd)]]]; rewrite E.
    + eexists; reflexivity.
    + rewrite Herr. eexists; reflexivity.
    + destruct (is_http_error code); eexists; reflexivity.
    + destruct (is_http_error code); [eexists; reflexivity|].
      cbn [find_list]. rewrite (P _ d Hd). eexists; reflexivity.
  - destruct (H (DEPARTURES_ENDPOINT stop_id)
                [("duration", PInt minutes); ("results", PInt 20)])
      as [E|[(code & body & E & Herr)|[(code & E)|(code & d & E & Hd)]]]; rewrite E.
    + eexists; reflexivity.
    + rewrite Herr. eexists; reflexivity.
    + destruct (is_http_error code); eexists; reflexivity.
    + destruct (is_http_error code); [eexists; reflexivity|].
      cbn [find_list]. rewrite (P _ d Hd). eexists; reflexivity.
Qed.

(** C6, at the inputs where the code departs from it: a response whose JSON
    body is [null] (or any number or boolean) makes both clients raise
    [TypeError] at [key in data], which neither [except] clause catches; and
    a list whose entries are not objects makes [search_station] raise
    [AttributeError] at [loc.get]. *)
Theorem scalar_body_raises :
  @search_station configured (replying (Response 200 (Json PNone))) "Potsdam Hbf"
  = (Raise TypeError, [])
  /\ @get_departures configured (replying (Response 200 (Json PNone))) "900230999" 60
     = (Raise TypeError, [])
  /\ @get_departures configured (replying (Response 200 (Json (PInt 42)))) "900230999" 60
     = (Raise TypeError, [])
  /\ @search_station configured
       (replying (Response 200 (Json (PList [PStr "Potsdam Hbf"])))) "Potsdam Hbf"
     = (Raise AttributeError, []).
Proof. repeat split. Qed.

(** ** The average delay per line (C4) *)



Lemma In_firstn : forall (A : Type) (n : nat) (l : list A) (x : A),
    In x (firstn n l) -> In x l.
Proof.
  intros A n l x H. rewrite <- (firstn_skipn n l). apply in_or_app. left; exact H.
Qed.







Lemma positive_delays_in : forall (df : list row) (r : row),
    In r (positive_delays df) <-> In r df /\ 0 < Delay_Min r.
Proof.
  intros df r. unfold positive_delays. rewrite filter_In, Z.ltb_lt. reflexivity.
Qed.












Section Average_delay_claims.
Context {sorter : Quicksort}.




End Average_delay_claims.




(** * Further properties of the code *)

(** ** Records *)

Section More_record_facts.
Context {parser : DateParser}.

(** A record that is not an object, or whose [line] is present and not an
    object (a plain line name, a null), raises [AttributeError] and is thus
    skipped, whatever else it holds. *)
Theorem non_object_records_are_skipped :
  forall dep : pyval,
    (forall d, dep <> PDict d)
    \/ (exists d v, dep = PDict d /\ lookup "line" d = Some v /\ is_object v = false) ->
    process_record dep = Raise AttributeError
    /\ forall rest, process_loop (dep :: rest)
                    = (fst (process_loop rest),
                       StWarning (SkippingRecord AttributeError) :: snd (process_loop rest)).
Proof.
  intros dep H.
  assert (E : process_record dep = Raise AttributeError).
  { destruct H as [H|(d & v & -> & Hl & Hv)].
    - apply process_record_not_dict, H.
    - rewrite process_record_dict. unfold line_info, get_or. rewrite Hl.
      destruct v; try reflexivity. discriminate Hv. }
  split; [exact E|]. intros rest. apply process_loop_cons_raise, E.
Qed.

(** A record with no usable time (both time values absent, null or empty)
    never reaches the date parser: if its [line] is an object or absent and
    its delay is not infinite, the loop appends a row for it with ["N/A"]
    for both times, and the delay of the delay field alone. *)
Theorem record_without_times :
  forall (d li : list (string * pyval)),
    line_info d = PDict li ->
    truthy (scheduled_time_str d) = false ->
    truthy (expected_time_str d) = false ->
    (forall negative, delay_seconds d <> PInf negative) ->
    exists r,
      process_record (PDict d) = Ok r
      /\ Scheduled r = "N/A" /\ Expected r = "N/A"
      /\ Delay_Min r = match py_int (delay_seconds d) with
                       | Ok n => Z.max 0 (n / 60)
                       | Raise _ => 0
                       end.
Proof.
  intros d li Hli Hs He Hinf.
  rewrite process_record_dict, Hli. cbn [py_get bind].
  unfold parse_or. rewrite Hs. cbn [bind]. rewrite He. cbn [bind].
  destruct (delay_seconds d) as [| b | n | q | | neg | s | l | f] eqn:Ed;
    cbn [delay_of py_int bind].
  - eexists; repeat split.
  - eexists; repeat split. destruct b; reflexivity.
  - eexists; split; [reflexivity|]. cbn [Scheduled Expected Delay_Min format_time].
    repeat split. apply clamp_is_max.
  - eexists; split; [reflexivity|]. cbn [Scheduled Expected Delay_Min format_time].
    repeat split. apply clamp_is_max.
  - eexists; repeat split.
  - exfalso. exact (Hinf neg eq_refl).
  - destruct (int_of_string s) as [n|]; cbn [bind].
    + eexists; split; [reflexivity|]. cbn [Scheduled Expected Delay_Min format_time].
      repeat split. apply clamp_is_max.
    + eexists; repeat split.
  - eexists; repeat split.
  - eexists; repeat split.
Qed.

(** A row never has a scheduled time without an expected time: when
    [Expected] is ["N/A"], so is [Scheduled]. *)
Theorem expected_na_implies_scheduled_na :
  forall (dep : pyval) (r : row),
    process_record dep = Ok r -> Expected r = "N/A" -> Scheduled r = "N/A".
Proof.
  intros dep r H Hna.
  destruct dep; try (rewrite process_record_not_dict in H by congruence; discriminate H).
  apply process_record_ok in H.
  destruct H as (li & sdt & edt & dm & _ & _ & He & _ & ->).
  cbn [Expected Scheduled] in *.
  destruct edt as [ts|].
  - exfalso. cbn [format_time] in Hna. rewrite strftime_is_hhmm in Hna.
    pose proof (hhmm_not_na (hour ts) (minute ts) (hour_range ts)) as Hne.
    rewrite Hna in Hne. discriminate Hne.
  - unfold parse_or in He. destruct (truthy _).
    + destruct (to_datetime _); cbn [bind] in He; discriminate He.
    + injection He as ->. reflexivity.
Qed.

(** The delay field, when it is there and not null, decides the delay
    alone: two records that carry the same delay value get the same
    [Delay (Min)], whatever their times are. *)
Theorem explicit_delay_takes_precedence :
  forall (d1 d2 : list (string * pyval)) (r1 r2 : row) (v : pyval),
    process_record (PDict d1) = Ok r1 -> process_record (PDict d2) = Ok r2 ->
    lookup "delay" d1 = Some v -> lookup "delay" d2 = Some v -> v <> PNone ->
    Delay_Min r1 = Delay_Min r2.
Proof.
  intros d1 d2 r1 r2 v H1 H2 L1 L2 Hv.
  apply process_record_ok in H1. apply process_record_ok in H2.
  destruct H1 as (li1 & s1 & e1 & dm1 & _ & _ & _ & Hd1 & ->).
  destruct H2 as (li2 & s2 & e2 & dm2 & _ & _ & _ & Hd2 & ->).
  rewrite (lookup_delay_seconds _ _ L1), (delay_of_present v s1 e1 Hv) in Hd1.
  rewrite (lookup_delay_seconds _ _ L2), (delay_of_present v s2 e2 Hv) in Hd2.
  cbn [Delay_Min]. rewrite Hd1 in Hd2. injection Hd2 as <-. reflexivity.
Qed.

Lemma py_round_nonneg : forall (n : Z) (d : positive), 0 <= n -> 0 <= py_round (n # d).
Proof.
  intros n d Hn. unfold py_round; cbn [Qnum Qden].
  assert (0 <= n / Zpos d) by (apply Z.div_pos; lia).
  destruct (2 * (n mod Zpos d) ?= Zpos d); [destruct (Z.even _)| |]; lia.
Qed.

(** Without a delay field, when the two timestamps subtract to a whole
    number of seconds that is not negative, the record yields a row whose
    delay is the difference rounded to the nearest minute (a tie going to
    the even one), hence within half a minute of the difference: on whole
    seconds the double-precision arithmetic of line 137 is exact.  (A
    difference with a fraction of a second is first cut to microseconds by
    [total_seconds]: half a minute and a nanosecond gives 0.) *)
Theorem timestamp_delay_within_half_minute :
  forall (d li : list (string * pyval)) (s e : Timestamp) (td : Z),
    line_info d = PDict li ->
    delay_seconds d = PNone ->
    parse_or (scheduled_time_str d) None = Ok (Some s) ->
    parse_or (expected_time_str d) (Some s) = Ok (Some e) ->
    timestamp_sub e s = Ok td ->
    0 <= td -> td mod 1000000000 = 0 -> td <= 2 ^ 52 * 1000000000 ->
    exists r,
      process_record (PDict d) = Ok r
      /\ Delay_Min r = py_round (td # 60000000000)
      /\ Z.abs (2 * (td - 60000000000 * Delay_Min r)) <= 60000000000.
Proof.
  intros d li s e td Hli Hd Hs He Hsub Hpos Hmod Hb.
  eexists. split.
  - rewrite process_record_dict, Hli. cbn [py_get bind].
    rewrite Hs. cbn [bind]. rewrite He. cbn [bind]. rewrite Hd.
    cbn [delay_of]. rewrite Hsub. cbn [bind]. reflexivity.
  - cbn [Delay_Min]. rewrite clamp_is_max.
    rewrite whole_seconds_minutes by (rewrite ?Z.abs_eq; assumption).
    rewrite Z.max_r by (apply py_round_nonneg; exact Hpos).
    split; [reflexivity|]. apply (py_round_nearest td 60000000000).
Qed.

(** A record without delay field whose scheduled time carries a UTC offset
    and whose expected time does not (or the reverse) is skipped: the
    subtraction of the two raises [TypeError]. *)
Theorem mixed_awareness_is_skipped :
  forall (d li : list (string * pyval)) (s e : Timestamp),
    line_info d = PDict li ->
    delay_seconds d = PNone ->
    parse_or (scheduled_time_str d) None = Ok (Some s) ->
    parse_or (expected_time_str d) (Some s) = Ok (Some e) ->
    (utcoffset s = None <-> utcoffset e <> None) ->
    process_record (PDict d) = Raise TypeError.
Proof.
  intros d li s e Hli Hd Hs He Hmix.
  rewrite process_record_dict, Hli. cbn [py_get bind].
  rewrite Hs. cbn [bind]. rewrite He. cbn [bind]. rewrite Hd.
  cbn [delay_of]. unfold timestamp_sub.
  destruct (utcoffset s) as [os|], (utcoffset e) as [oe|]; try reflexivity.
  - exfalso. destruct Hmix as [_ H]. discriminate H. discriminate.
  - exfalso. destruct Hmix as [H _]. apply H; reflexivity.
Qed.

(** A record whose delay is an infinite float is skipped, although its
    delay field is numeric: [int] raises [OverflowError], which the inner
    handler does not catch. *)
Theorem infinite_delay_is_skipped :
  forall (d li : list (string * pyval)) (negative : bool) (sdt edt : option Timestamp),
    line_info d = PDict li ->
    parse_or (scheduled_time_str d) None = Ok sdt ->
    parse_or (expected_time_str d) sdt = Ok edt ->
    delay_seconds d = PInf negative ->
    process_record (PDict d) = Raise OverflowError.
Proof.
  intros d li negative sdt edt Hli Hs He Hd.
  rewrite process_record_dict, Hli. cbn [py_get bind].
  rewrite Hs. cbn [bind]. rewrite He. cbn [bind]. rewrite Hd. reflexivity.
Qed.

End More_record_facts.

Lemma non_object_records_are_skipped_witness :
  @process_record iso8601_parser (PDict departure_line_as_text) = Raise AttributeError
  /\ @process_record iso8601_parser (PStr "S1 10:15") = Raise AttributeError.
Proof.
  split.
  - apply (@non_object_records_are_skipped iso8601_parser (PDict departure_line_as_text)).
    right. exists departure_line_as_text, (PStr "S1"). repeat split.
  - apply (@non_object_records_are_skipped iso8601_parser (PStr "S1 10:15")).
    left. intros d; discriminate.
Defined.

Lemma record_without_times_witness :
  exists r,
    @process_record iso8601_parser (PDict departure_no_times) = Ok r
    /\ Scheduled r = "N/A" /\ Expected r = "N/A"
    /\ Delay_Min r = match py_int (delay_seconds departure_no_times) with
                     | Ok n => Z.max 0 (n / 60)
                     | Raise _ => 0
                     end.
Proof.
  apply (@record_without_times iso8601_parser departure_no_times
           [("productName", PStr "Bus")]).
  - reflexivity.
  - reflexivity.
  - reflexivity.
  - intros negative; discriminate.
Defined.

Lemma expected_na_implies_scheduled_na_witness :
  Scheduled (row_of "Bus" "Erkner" "N/A" "N/A" 0) = "N/A".
Proof.
  apply (@expected_na_implies_scheduled_na iso8601_parser (PDict departure_no_times)).
  - exact process_record_no_times.
  - reflexivity.
Defined.

Example process_record_at_ten :
  @process_record iso8601_parser (departure_at_ten "S1")
  = Ok (row_of "S1" "Ostkreuz" "10:00" "10:00" 0).
Proof. vm_compute; reflexivity. Qed.

Example process_record_late_90 :
  @process_record iso8601_parser (PDict departure_late_90)
  = Ok (row_of "S9" "N/A" "10:00" "10:01" 2).
Proof. vm_compute; reflexivity. Qed.

Lemma explicit_delay_takes_precedence_witness :
  Delay_Min (row_of "U2" "Destination B" "10:17" "10:18" 1)
  = Delay_Min (row_of "S1" "Ostkreuz" "10:00" "10:00" 1).
Proof.
  apply (@explicit_delay_takes_precedence iso8601_parser
           departure_u2
           [("line", PDict [("name", PStr "S1")]); ("direction", PStr "Ostkreuz");
            ("plannedWhen", PStr "2025-10-26T10:00:00+01:00"); ("delay", PInt 60)]
           _ _ (PInt 60)).
  - exact process_record_u2.
  - vm_compute; reflexivity.
  - reflexivity.
  - reflexivity.
  - discriminate.
Defined.

Lemma timestamp_delay_within_half_minute_witness :
  exists r,
    @process_record iso8601_parser (PDict departure_late_90) = Ok r
    /\ Delay_Min r = py_round (90000000000 # 60000000000)
    /\ Z.abs (2 * (90000000000 - 60000000000 * Delay_Min r)) <= 60000000000.
Proof.
  apply (@timestamp_delay_within_half_minute iso8601_parser departure_late_90
           [("name", PStr "S9")]
           {| value := 1761469200000000000; resolution := Microsecond;
              utcoffset := Some 3600 |}
           {| value := 1761469290000000000; resolution := Microsecond;
              utcoffset := Some 3600 |}).
  - reflexivity.
  - reflexivity.
  - reflexivity.
  - reflexivity.
  - reflexivity.
  - lia.
  - reflexivity.
  - lia.
Defined.

Lemma mixed_awareness_is_skipped_witness :
  @process_record iso8601_parser (PDict departure_mixed_awareness) = Raise TypeError.
Proof.
  apply (@mixed_awareness_is_skipped iso8601_parser departure_mixed_awareness
           [("name", PStr "S1")]
           {| value := 1761469200000000000; resolution := Microsecond;
              utcoffset := Some 3600 |}
           {| value := 1761473220000000000; resolution := Microsecond;
              utcoffset := None |}).
  - reflexivity.
  - reflexivity.
  - reflexivity.
  - reflexivity.
  - cbn [utcoffset]. split; [discriminate | intros H; exfalso; apply H; reflexivity].
Defined.

Lemma infinite_delay_is_skipped_witness :
  @process_record iso8601_parser (PDict departure_infinite_delay) = Raise OverflowError.
Proof.
  apply (@infinite_delay_is_skipped iso8601_parser departure_infinite_delay
           [("name", PStr "S1")] false None None); reflexivity.
Defined.

(** ** The table *)

Lemma wall_seconds_days_later : forall (k : Z) (ts : Timestamp),
    wall_seconds (days_later k ts) = wall_seconds ts + 86400 * k.
Proof.
  intros k ts. unfold wall_seconds, days_later; cbn [value utcoffset].
  replace (value ts + 86400000000000 * k) with (value ts + (86400 * k) * 1000000000) by ring.
  rewrite Z.div_add by lia. ring.
Qed.

(** The string written for a time forgets its date: the same instant any
    number of whole days later (or earlier) is written, and hence sorted,
    alike.  A departure after midnight thus sorts before those of the
    evening. *)
Theorem sort_key_ignores_the_date :
  forall (clock : Clock) (k : Z) (ts : Timestamp),
    strftime_HM (days_later k ts) = strftime_HM ts
    /\ sort_time (strftime_HM (days_later k ts)) = sort_time (strftime_HM ts).
Proof.
  intros clock k ts.
  assert (E : strftime_HM (days_later k ts) = strftime_HM ts).
  { unfold strftime_HM, hour, minute. rewrite wall_seconds_days_later.
    replace (wall_seconds ts + 86400 * k) with (wall_seconds ts + k * 86400) by ring.
    rewrite Z.mod_add by lia.
    replace (wall_seconds ts + k * 86400) with (wall_seconds ts + (24 * k) * 3600) by ring.
    rewrite Z.mod_add by lia. reflexivity. }
  split; [exact E | rewrite E; reflexivity].
Qed.

(** Writing a timestamp with [strftime('%H:%M')] and reading the string
    back for sorting gives today's date at the hour and minute of the
    timestamp: the reading never fails on a string the program wrote. *)
Theorem expected_string_round_trip :
  forall (clock : Clock) (ts : Timestamp),
    strptime_HM (strftime_HM ts) = Ok (hour ts * 3600 + minute ts * 60)
    /\ sort_time (strftime_HM ts)
       = Ok (Some (today_midnight + (hour ts * 3600 + minute ts * 60)))
    /\ 0 <= hour ts * 3600 + minute ts * 60 < 86400.
Proof.
  intros clock ts. rewrite strftime_is_hhmm.
  pose proof (hour_range ts) as Hh. pose proof (minute_range ts) as Hm.
  split; [apply strptime_hhmm; assumption|].
  split; [apply sort_time_hhmm; assumption | lia].
Qed.

Section More_table_facts.
Context {parser : DateParser} {clock : Clock} {sorter : Quicksort} {column : Int64Column}.

(** Every raw record is accounted for once: the rows of a table that is
    returned and the warnings together number the records; and while the
    delays fit the int64 column the table is returned and holds exactly the
    rows of the records that did not raise, each as often as it was
    produced. *)
Theorem records_accounted_for :
  forall raw : list pyval,
    (forall table,
        fst (process_departures raw) = Ok table ->
        (List.length table + List.length (snd (process_departures raw)))%nat
        = List.length raw)
    /\ (delays_fit (fst (process_loop raw)) = true ->
        exists table,
          fst (process_departures raw) = Ok table
          /\ Permutation (fst (process_loop raw)) table).
Proof.
  intros raw. destruct (process_departures_loop raw) as [Hlog _]. split.
  - intros table H.
    destruct (process_departures_returns raw table H) as (df & Hdf & ->).
    rewrite <- (Permutation_length (sort_departures_perm df)).
    rewrite (proj1 (frame_of_shape _ _ Hdf)), Hlog. apply process_loop_accounts.
  - intros Hfit. exists (sort_departures (fst (process_loop raw))).
    split; [apply process_departures_fits, Hfit | apply sort_departures_perm].
Qed.

(** The fallback sort of line 178 is never taken by [process_departures]:
    on the frame made of the rows its loop builds, the reconstruction of
    the timestamps succeeds, and the table is the result of the sort by
    time. *)
Theorem fallback_is_never_taken :
  forall raw : list pyval,
    (forall table,
        fst (process_departures raw) = Ok table ->
        exists df_departures keyed,
          frame_of (fst (process_loop raw)) = Ok df_departures
          /\ sort_time_column df_departures = Ok keyed
          /\ table = sort_by_sort_time keyed)
    /\ (delays_fit (fst (process_loop raw)) = true ->
        exists keyed,
          sort_time_column (fst (process_loop raw)) = Ok keyed
          /\ fst (process_departures raw) = Ok (sort_by_sort_time keyed)).
Proof.
  intros raw. split.
  - intros table H.
    destruct (process_departures_returns raw table H) as (df & Hdf & ->).
    destruct (sort_time_column_ok df) as [keyed E].
    { eapply Forall_impl; [intros r; apply well_formed_sort_time|].
      apply (frame_of_well_formed _ _ Hdf), process_loop_expected. }
    exists df, keyed. split; [exact Hdf|]. split; [exact E|].
    unfold sort_departures. rewrite E. reflexivity.
  - intros Hfit. destruct (reconstruction_succeeds raw) as [keyed E].
    exists keyed. split; [exact E|].
    rewrite (process_departures_fits raw Hfit).
    unfold sort_departures. rewrite E. reflexivity.
Qed.

Lemma filter_is_na_keyed : forall keyed : list (row * option Z),
    Forall (fun rk => sort_time (Expected (fst rk)) = Ok (snd rk)) keyed ->
    filter is_na (map fst keyed) = nat_rows keyed
    /\ filter is_na (nat_rows keyed) = nat_rows keyed
    /\ Forall (fun rt => is_na (fst rt) = false) (timed_rows keyed).
Proof.
  induction 1 as [|[r [t|]] keyed Hk _ (IH1 & IH2 & IH3)]; cbn [map filter fst].
  - repeat split; constructor.
  - assert (E : is_na r = false).
    { unfold is_na. destruct (String.eqb (Expected r) "N/A") eqn:E; [|reflexivity].
      apply String.eqb_eq in E. cbn [fst snd] in Hk.
      rewrite E, sort_time_na in Hk. discriminate Hk. }
    rewrite E. cbn. repeat split; [exact IH1 | exact IH2 | constructor; assumption].
  - assert (E : is_na r = true).
    { unfold is_na. apply String.eqb_eq, sort_time_none, Hk. }
    rewrite E. cbn. rewrite E. repeat split; [f_equal; exact IH1 | f_equal; exact IH2 | exact IH3].
Qed.

Lemma filter_none : forall (A : Type) (f : A -> bool) (l : list A),
    Forall (fun x => f x = false) l -> filter f l = [].
Proof.
  induction 1 as [|x l Hx _ IH]; cbn [filter]; [reflexivity|].
  rewrite Hx. exact IH.
Qed.

(** The rows without an expected time keep the order of the input: they
    stand at the end of the table as they stood among the rows of the
    loop. *)
Theorem rows_without_time_keep_their_order :
  forall raw : list pyval,
    delays_fit (fst (process_loop raw)) = true ->
    exists table timed,
      fst (process_departures raw) = Ok table
      /\ filter is_na table = filter is_na (fst (process_loop raw))
      /\ table = timed ++ filter is_na (fst (process_loop raw))
      /\ Forall (fun r => is_na r = false) timed.
Proof.
  intros raw Hfit. destruct (reconstruction_succeeds raw) as [keyed E].
  pose proof (process_departures_fits raw Hfit) as Htable.
  unfold sort_departures in Htable. rewrite E in Htable.
  destruct (sort_time_column_fst _ _ E) as [Hfst Hk].
  destruct (filter_is_na_keyed keyed Hk) as (H1 & H2 & H3).
  rewrite <- Hfst, H1.
  assert (Ht : Forall (fun r => is_na r = false)
                 (map fst (quicksort (fun a b => snd a <=? snd b) (timed_rows keyed)))).
  { apply Forall_map. eapply Permutation_Forall; [apply quicksort_perm | exact H3]. }
  exists (sort_by_sort_time keyed),
         (map fst (quicksort (fun a b => snd a <=? snd b) (timed_rows keyed))).
  split; [exact Htable|]. unfold sort_by_sort_time. split; [|split].
  - rewrite filter_app, H2, (filter_none _ _ _ Ht). reflexivity.
  - reflexivity.
  - exact Ht.
Qed.

End More_table_facts.

Lemma records_accounted_for_witness :
  exists table,
    fst (@process_departures iso8601_parser clock_2025_10_26 stable_sorter x86_64_column
           [PDict departure_u2; PDict departure_unparsable; PDict departure_no_times])
    = Ok table
    /\ Permutation
         (fst (@process_loop iso8601_parser
                 [PDict departure_u2; PDict departure_unparsable; PDict departure_no_times]))
         table.
Proof.
  apply (proj2 (@records_accounted_for iso8601_parser clock_2025_10_26 stable_sorter
                  x86_64_column
                  [PDict departure_u2; PDict departure_unparsable; PDict departure_no_times])).
  vm_compute; reflexivity.
Defined.

Lemma fallback_is_never_taken_witness :
  exists keyed,
    @sort_time_column clock_2025_10_26
      (fst (@process_loop iso8601_parser [PDict departure_u2; PDict departure_no_times]))
    = Ok keyed
    /\ fst (@process_departures iso8601_parser clock_2025_10_26 stable_sorter x86_64_column
              [PDict departure_u2; PDict departure_no_times])
       = Ok (@sort_by_sort_time stable_sorter keyed).
Proof.
  apply (proj2 (@fallback_is_never_taken iso8601_parser clock_2025_10_26 stable_sorter
                  x86_64_column [PDict departure_u2; PDict departure_no_times])).
  vm_compute; reflexivity.
Defined.

Lemma rows_without_time_keep_their_order_witness :
  exists table timed,
    fst (@process_departures iso8601_parser clock_2025_10_26 stable_sorter x86_64_column
           [PDict departure_no_times; PDict departure_u2; PDict departure_null_direction])
    = Ok table
    /\ filter is_na table
       = filter is_na
           (fst (@process_loop iso8601_parser
                   [PDict departure_no_times; PDict departure_u2;
                    PDict departure_null_direction]))
    /\ table
       = timed ++ filter is_na
                    (fst (@process_loop iso8601_parser
                            [PDict departure_no_times; PDict departure_u2;
                             PDict departure_null_direction]))
    /\ Forall (fun r => is_na r = false) timed.
Proof.
  apply (@rows_without_time_keep_their_order iso8601_parser clock_2025_10_26 stable_sorter
           x86_64_column
           [PDict departure_no_times; PDict departure_u2; PDict departure_null_direction]).
  vm_compute; reflexivity.
Defined.

(** ** The clients *)

Lemma probe_keys_first_list : forall (pre : list string) (key : string) (post : list string)
                                     (d : list (string * pyval)) (l : list pyval),
    lookup key d = Some (PList l) ->
    (forall key' l', In key' pre -> lookup key' d <> Some (PList l')) ->
    probe_keys (pre ++ key :: post) (PDict d) = Ok (Some l).
Proof.
  induction pre as [|k pre IH]; intros key post d l Hk Hpre; cbn [app probe_keys].
  - rewrite Hk. reflexivity.
  - destruct (lookup k d) as [[]|] eqn:E;
      try (apply IH; [exact Hk | intros; apply Hpre; right; assumption]).
    exfalso. exact (Hpre k _ (or_introl eq_refl) E).
Qed.

Lemma probe_keys_string : forall (keys : list string) (s : string),
    probe_keys keys (PStr s)
    = if existsb (fun key => str_contains key s) keys then Raise TypeError else Ok None.
Proof.
  induction keys as [|key keys IH]; intros s; cbn [probe_keys existsb].
  - reflexivity.
  - destruct (str_contains key s); [reflexivity | apply IH].
Qed.

Lemma keep_stations_raises : forall found : list pyval,
    (exists loc, In loc found /\ is_object loc = false) ->
    keep_stations found = Raise AttributeError.
Proof.
  induction found as [|loc found IH]; intros (bad & Hin & Hbad).
  - destruct Hin.
  - cbn [keep_stations].
    destruct loc; try reflexivity.
    rewrite is_station_dict. cbn [bind].
    rewrite IH; [reflexivity|].
    destruct Hin as [<-|Hin]; [discriminate Hbad | exists bad; auto].
Qed.

Section More_client_facts.
Context {config : Config} {network : Network}.

(** [get_departures] returns the list under the first of [departures],
    [journeys], [connections] that holds a list, whole and in its order; a
    key that is present with something else than a list (a null, an
    object) is passed over. *)
Theorem get_departures_first_list_key :
  forall (stop_id : string) (duration_minutes status_code : Z)
         (d : list (string * pyval)) (pre post : list string) (key : string)
         (l : list pyval),
    api_key_missing = false ->
    requests_get (DEPARTURES_ENDPOINT stop_id)
                 [("duration", PInt duration_minutes); ("results", PInt 20)]
    = Response status_code (Json (PDict d)) ->
    is_http_error status_code = false ->
    ["departures"; "journeys"; "connections"] = pre ++ key :: post ->
    lookup key d = Some (PList l) ->
    (forall key' l', In key' pre -> lookup key' d <> Some (PList l')) ->
    get_departures stop_id duration_minutes = (Ok l, []).
Proof.
  intros stop_id duration_minutes status_code d pre post key l Hkey Hreq Herr Hkeys Hl Hpre.
  unfold get_departures. rewrite Hkey, Hreq, Herr. cbn [find_list].
  rewrite Hkeys, (probe_keys_first_list pre key post d l Hl Hpre). reflexivity.
Qed.

(** A body that is a JSON string: the clients report that no list was
    found, unless the string contains one of the container keys, in which
    case [data[key]] raises [TypeError] out of the client. *)
Theorem string_body :
  forall (query stop_id : string) (duration_minutes status_code : Z) (s : string),
    api_key_missing = false ->
    (forall url params, requests_get url params = Response status_code (Json (PStr s))) ->
    is_http_error status_code = false ->
    search_station query
    = (if existsb (fun key => str_contains key s) ["locations"; "stopLocations"; "station"]
       then (Raise TypeError, [])
       else (Ok [], [StWarning StationListNotFound]))
    /\ get_departures stop_id duration_minutes
       = (if existsb (fun key => str_contains key s) ["departures"; "journeys"; "connections"]
          then (Raise TypeError, [])
          else (Ok [], [StWarning DeparturesListNotFound])).
Proof.
  intros query stop_id duration_minutes status_code s Hkey Hreq Herr.
  unfold search_station, get_departures. rewrite Hkey, !Hreq, Herr.
  cbn [find_list]. rewrite !probe_keys_string.
  split.
  - destruct (existsb _ ["locations"; "stopLocations"; "station"]); reflexivity.
  - destruct (existsb _ ["departures"; "journeys"; "connections"]); reflexivity.
Qed.

(** With a configured key, a client that returns shows at most one message,
    and shows one only together with an empty result: a result that holds
    entries comes without any message. *)
Theorem messages_come_with_empty_results :
  forall (query stop_id : string) (duration_minutes : Z),
    api_key_missing = false ->
    (forall stations log,
        search_station query = (Ok stations, log) ->
        log = [] \/ (stations = [] /\ exists m, log = [m]))
    /\ (forall departures log,
           get_departures stop_id duration_minutes = (Ok departures, log) ->
           log = [] \/ (departures = [] /\ exists m, log = [m])).
Proof.
  intros query stop_id duration_minutes Hkey.
  unfold search_station, get_departures. rewrite Hkey. split.
  - intros stations log H.
    destruct (requests_get _ _) as [|status_code [|data]].
    + injection H as <- <-. right; split; [reflexivity | eexists; reflexivity].
    + destruct (is_http_error status_code); injection H as <- <-;
        right; (split; [reflexivity | eexists; reflexivity]).
    + destruct (is_http_error status_code).
      * injection H as <- <-. right; split; [reflexivity | eexists; reflexivity].
      * destruct (find_list _ data) as [[found|]|]; try discriminate H.
        -- destruct (keep_stations found); [|discriminate H].
           injection H as <- <-. left; reflexivity.
        -- injection H as <- <-. right; split; [reflexivity | eexists; reflexivity].
  - intros departures log H.
    destruct (requests_get _ _) as [|status_code [|data]].
    + injection H as <- <-. right; split; [reflexivity | eexists; reflexivity].
    + destruct (is_http_error status_code); injection H as <- <-;
        right; (split; [reflexivity | eexists; reflexivity]).
    + destruct (is_http_error status_code).
      * injection H as <- <-. right; split; [reflexivity | eexists; reflexivity].
      * destruct (find_list _ data) as [[found|]|]; try discriminate H.
        -- injection H as <- <-. left; reflexivity.
        -- injection H as <- <-. right; split; [reflexivity | eexists; reflexivity].
Qed.

(** Every candidate [search_station] returns is an object that carries an
    identifier or the type marker ["stop"]; its callers may call [get] on
    it.  (It need not carry an identifier: the marker alone is enough.) *)
Theorem candidates_are_station_objects :
  forall (query : string) (stations : list pyval) (log : list diagnostic),
    search_station query = (Ok stations, log) ->
    Forall (fun loc => is_object loc = true /\ carries_id_or_stop loc = true) stations.
Proof.
  intros query stations log H. unfold search_station in H.
  destruct api_key_missing.
  - injection H as <- <-. repeat constructor.
  - destruct (requests_get _ _) as [|status_code [|data]].
    + injection H as <- <-. constructor.
    + destruct (is_http_error status_code); injection H as <- <-; constructor.
    + destruct (is_http_error status_code); [injection H as <- <-; constructor|].
      destruct (find_list _ data) as [[found|]|]; try discriminate H.
      * destruct (keep_stations found) as [kept|] eqn:Ekeep; [|discriminate H].
        assert (Hst : stations = firstn 5 kept) by congruence. clear H. subst stations.
        destruct (keep_stations_filter found kept Ekeep) as [-> Hobj].
        apply Forall_forall. intros loc Hin.
        apply In_firstn, filter_In in Hin. destruct Hin as [Hin Hc].
        split; [|exact Hc].
        rewrite Forall_forall in Hobj. destruct (Hobj loc Hin) as [d ->]. reflexivity.
      * injection H as <- <-. constructor.
Qed.

(** One entry of the list found that is not an object (a string, a number,
    a null) makes [search_station] raise [AttributeError], wherever the
    entry stands in the list, beyond the fifth place too. *)
Theorem search_station_raises_on_a_non_object_entry :
  forall (query : string) (status_code : Z) (data : pyval) (found_list : list pyval),
    api_key_missing = false ->
    requests_get LOCATION_SEARCH_ENDPOINT [("query", PStr query); ("results", PInt 5)]
    = Response status_code (Json data) ->
    is_http_error status_code = false ->
    find_list ["locations"; "stopLocations"; "station"] data = Ok (Some found_list) ->
    (exists loc, In loc found_list /\ is_object loc = false) ->
    search_station query = (Raise AttributeError, []).
Proof.
  intros query status_code data found_list Hkey Hreq Herr Hfind Hbad.
  unfold search_station. rewrite Hkey, Hreq, Herr, Hfind.
  rewrite (keep_stations_raises found_list Hbad). reflexivity.
Qed.

End More_client_facts.

Example get_departures_reply :
  @get_departures configured (replying departures_reply) "900100003" 60
  = (Ok [PDict departure_u2; PDict departure_early], []).
Proof. reflexivity. Qed.

Lemma get_departures_first_list_key_witness :
  @get_departures configured (replying departures_reply) "900100003" 60
  = (Ok [PDict departure_u2; PDict departure_early], []).
Proof.
  apply (@get_departures_first_list_key configured (replying departures_reply)
           "900100003" 60 200
           [("departures", PNone);
            ("journeys", PList [PDict departure_u2; PDict departure_early]);
            ("connections", PList [])]
           ["departures"] ["connections"] "journeys").
  - reflexivity.
  - reflexivity.
  - reflexivity.
  - reflexivity.
  - reflexivity.
  - intros key' l' [<-|[]]. discriminate.
Defined.

Lemma string_body_witness :
  @search_station configured (replying (Response 200 (Json (PStr "no locations found"))))
    "Alexanderplatz"
  = (Raise TypeError, [])
  /\ @get_departures configured (replying (Response 200 (Json (PStr "no locations found"))))
       "900100003" 60
     = (Ok [], [StWarning DeparturesListNotFound]).
Proof.
  apply (@string_body configured (replying (Response 200 (Json (PStr "no locations found"))))
           "Alexanderplatz" "900100003" 60 200 "no locations found").
  - reflexivity.
  - intros url params; reflexivity.
  - reflexivity.
Defined.

Lemma messages_come_with_empty_results_witness :
  @nil diagnostic = []
  \/ ([PDict departure_u2; PDict departure_early] = []
      /\ exists m, @nil diagnostic = [m]).
Proof.
  apply (proj2 (@messages_come_with_empty_results configured (replying departures_reply)
                  "Alexanderplatz" "900100003" 60 eq_refl)
           [PDict departure_u2; PDict departure_early] []).
  exact get_departures_reply.
Defined.

Lemma candidates_are_station_objects_witness :
  Forall (fun loc => is_object loc = true /\ carries_id_or_stop loc = true)
         [stop_alexanderplatz].
Proof.
  apply (@candidates_are_station_objects configured (replying search_reply)
           "Alexanderplatz" [stop_alexanderplatz] []).
  exact search_station_alexanderplatz.
Defined.

Lemma search_station_raises_on_a_non_object_entry_witness :
  @search_station configured
    (replying (Response 200 (Json (PList [stop_alexanderplatz; stop_alexanderplatz;
                                          stop_alexanderplatz; stop_alexanderplatz;
                                          stop_alexanderplatz; PNone]))))
    "Alexanderplatz"
  = (Raise AttributeError, []).
Proof.
  apply (@search_station_raises_on_a_non_object_entry configured
           (replying (Response 200 (Json (PList [stop_alexanderplatz; stop_alexanderplatz;
                                                 stop_alexanderplatz; stop_alexanderplatz;
                                                 stop_alexanderplatz; PNone]))))
           "Alexanderplatz" 200 _ _ eq_refl eq_refl eq_refl eq_refl).
  exists PNone. split; [|reflexivity].
  do 5 right. left; reflexivity.
Defined.

(** ** The average delay per line *)

Lemma filter_nil_iff : forall (A : Type) (f : A -> bool) (l : list A),
    filter f l = [] <-> forall x, In x l -> f x = false.
Proof.
  intros A f l; induction l as [|x l IH]; cbn [filter].
  - split; [intros _ y [] | reflexivity].
  - destruct (f x) eqn:E.
    + split; [discriminate|]. intros H. specialize (H x (or_introl eq_refl)). congruence.
    + rewrite IH. split.
      * intros H y [<-|Hy]; [exact E | apply H, Hy].
      * intros H y Hy. apply H. right; exact Hy.
Qed.

Lemma label_of_cases : forall v : pyval,
    (unhashable v = true /\ label_of v = Raise TypeError)
    \/ (unhashable v = false /\ exists l, label_of v = Ok l).
Proof.
  intros v; destruct v; cbn [unhashable label_of];
    first [left; split; reflexivity | right; split; [reflexivity | eexists; reflexivity]].
Qed.

Lemma labelled_raises : forall (df : list row) (e : exn),
    labelled df = Raise e
    <-> e = TypeError /\ exists r, In r df /\ unhashable (Line r) = true.
Proof.
  induction df as [|r df IH]; intros e; cbn [labelled].
  - split; [discriminate | intros (_ & r & [] & _)].
  - destruct (label_of_cases (Line r)) as [[Hu El]|[Hu [l El]]]; rewrite El; cbn [bind].
    + split.
      * intros H. injection H as <-. split; [reflexivity|].
        exists r. split; [left; reflexivity | exact Hu].
      * intros (-> & _). reflexivity.
    + destruct (labelled df) as [ls|e'] eqn:Els; cbn [bind].
      * split; [discriminate|].
        intros (He & r' & [<-|Hin] & Hu'); [congruence|].
        assert (D : @Ok (list (label * Z)) ls = Raise e).
        { apply IH. split; [exact He | exists r'; auto]. }
        discriminate D.
      * destruct (proj1 (IH e') eq_refl) as (He' & r' & Hin & Hu').
        split.
        -- intros H. injection H as <-. split; [exact He'|].
           exists r'. split; [right; exact Hin | exact Hu'].
        -- intros (-> & _). rewrite He'. reflexivity.
Qed.



Section More_average_delay_facts.
Context {sorter : Quicksort}.

(** There is no chart exactly when no row has a positive delay: the page
    then shows its note instead. *)
Theorem no_chart_without_positive_delay :
  forall df : list row,
    avg_delay df = Ok None <-> forall r, In r df -> Delay_Min r <= 0.
Proof.
  intros df. unfold avg_delay.
  assert (Hnil : positive_delays df = [] <-> forall r, In r df -> Delay_Min r <= 0).
  { unfold positive_delays. rewrite filter_nil_iff.
    split; intros H r Hr; specialize (H r Hr).
    - apply Z.ltb_ge, H.
    - apply Z.ltb_ge, H. }
  destruct (positive_delays df) as [|r0 pos] eqn:E.
  - split; [intros _; apply Hnil; reflexivity | reflexivity].
  - split.
    + intros H. destruct (labelled (r0 :: pos)); discriminate H.
    + intros H. apply Hnil in H. discriminate H.
Qed.

(** The computation of the chart raises exactly when a row with a positive
    delay has a line name that is a list or an object, which cannot be a
    group label; the exception is [TypeError]. *)
Theorem avg_delay_raises_on_unhashable_line :
  forall (df : list row) (e : exn),
    avg_delay df = Raise e
    <-> e = TypeError
        /\ exists r, In r df /\ 0 < Delay_Min r /\ unhashable (Line r) = true.
Proof.
  intros df e. unfold avg_delay.
  assert (Hlab : labelled (positive_delays df) = Raise e
                 <-> e = TypeError
                     /\ exists r, In r df /\ 0 < Delay_Min r /\ unhashable (Line r) = true).
  { rewrite labelled_raises. split; intros (He & r & Hr & Hu); (split; [exact He|]); exists r.
    - apply positive_delays_in in Hr. tauto.
    - split; [apply positive_delays_in|]; tauto. }
  destruct (positive_delays df) as [|r0 pos] eqn:E.
  - split; [discriminate|]. intros H. apply Hlab in H. discriminate H.
  - rewrite <- Hlab. destruct (labelled (r0 :: pos)); cbn [bind]; split; congruence.
Qed.

(** A row that is on time (or early) does not enter the averages: taking
    it out of the table, or putting it in, leaves the chart as it is. *)
Theorem on_time_rows_do_not_change_the_chart :
  forall (before after : list row) (r : row),
    Delay_Min r <= 0 ->
    avg_delay (before ++ r :: after) = avg_delay (before ++ after).
Proof.
  intros before after r Hr.
  assert (E : positive_delays (before ++ r :: after) = positive_delays (before ++ after)).
  { unfold positive_delays. rewrite !filter_app. cbn [filter].
    replace (0 <? Delay_Min r) with false by (symmetry; apply Z.ltb_ge; exact Hr).
    reflexivity. }
  unfold avg_delay. rewrite E. reflexivity.
Qed.


End More_average_delay_facts.

Lemma on_time_rows_do_not_change_the_chart_witness :
  @avg_delay stable_sorter
    ([row_of "S1" "Potsdam Hbf" "10:00" "10:05" 5; row_of "U2" "Pankow" "10:01" "10:06" 5]
       ++ row_of "S7" "Ahrensfelde" "10:02" "10:02" 0 :: [])
  = @avg_delay stable_sorter
      ([row_of "S1" "Potsdam Hbf" "10:00" "10:05" 5; row_of "U2" "Pankow" "10:01" "10:06" 5]
         ++ []).
Proof.
  apply (@on_time_rows_do_not_change_the_chart stable_sorter).
  cbn [Delay_Min row_of]. lia.
Defined.


(** ** The departures section of the page *)

Lemma avg_delay_cases : forall (sorter : Quicksort) (df : list row),
    (positive_delays df = [] /\ avg_delay df = Ok None)
    \/ (positive_delays df <> []
        /\ ((exists rows series, labelled (positive_delays df) = Ok rows
                                 /\ avg_delay df = Ok (Some series))
            \/ (exists e, labelled (positive_delays df) = Raise e
                          /\ avg_delay df = Raise e))).
Proof.
  intros sorter df. unfold avg_delay.
  destruct (positive_delays df) as [|r0 pos] eqn:E; [left; split; reflexivity|].
  right. split; [discriminate|].
  destruct (labelled (r0 :: pos)) as [rows|e]; cbn [bind].
  - left. eexists; eexists; split; reflexivity.
  - right. eexists; split; reflexivity.
Qed.

Section Page_facts.
Context {config : Config} {network : Network}.
Context {parser : DateParser} {clock : Clock} {sorter : Quicksort} {column : Int64Column}.

Lemma empty_table_all_raise : forall (raw : list pyval) (table : list row),
    fst (process_departures raw) = Ok table ->
    table = [] <-> forall dep, In dep raw -> exists e, process_record dep = Raise e.
Proof.
  intros raw table H.
  destruct (process_departures_returns raw table H) as (df & Hdf & ->).
  pose proof (Permutation_length (sort_departures_perm df)) as Hlen.
  rewrite (proj1 (frame_of_shape _ _ Hdf)) in Hlen. split.
  - intros E dep Hin. rewrite E in Hlen.
    destruct (process_record dep) as [r|e] eqn:Er; [|eexists; reflexivity].
    assert (Hr : In r (fst (process_loop raw))) by (apply process_loop_rows; eauto).
    destruct (fst (process_loop raw)); [destruct Hr | discriminate Hlen].
  - intros Hall. destruct (fst (process_loop raw)) as [|r rows] eqn:E.
    + destruct (sort_departures df); [reflexivity | discriminate Hlen].
    + assert (Hr : In r (fst (process_loop raw))) by (rewrite E; left; reflexivity).
      apply process_loop_rows in Hr. destruct Hr as (dep & Hin & Hok).
      destruct (Hall dep Hin) as [e He]. congruence.
Qed.

(** When the client returns and the section does not raise,
    [process_departures] has returned a table, and the section shows one
    of three things after the messages of the client and of the
    normalizer: the table with the chart (some row has a positive delay);
    the table with the note that no delay is positive; or, when every
    record was skipped or none came, no table and the warning that no data
    is available. *)
Theorem departures_section_shows_one_of_three :
  forall (selected_station_id : string) (raw : list pyval) (fetch_log : list diagnostic)
         (view : departures_view),
    get_departures selected_station_id 60 = (Ok raw, fetch_log) ->
    show_departures selected_station_id = Ok view ->
    exists df,
      fst (process_departures raw) = Ok df
      /\ let shown := map Shown (fetch_log ++ snd (process_departures raw)) in
         (table view = None /\ chart view = None
          /\ messages view = shown ++ [WarningNoDepartureData]
          /\ forall dep, In dep raw -> exists e, process_record dep = Raise e)
         \/ (table view = Some df /\ df <> [] /\ chart view = None
             /\ messages view = shown ++ [InfoNoPositiveDelays]
             /\ forall r, In r df -> Delay_Min r <= 0)
         \/ (exists series,
               table view = Some df /\ df <> [] /\ chart view = Some series
               /\ avg_delay df = Ok (Some series)
               /\ messages view = shown
               /\ exists r, In r df /\ 0 < Delay_Min r).
Proof.
  intros stop raw fetch_log view Hget Hshow.
  unfold show_departures in Hshow. rewrite Hget in Hshow.
  destruct (process_departures raw) as [[df|e] log] eqn:Ep; [|discriminate Hshow].
  cbn [bind] in Hshow. cbn [fst snd].
  assert (Edf : fst (process_departures raw) = Ok df) by (rewrite Ep; reflexivity).
  exists df. split; [reflexivity|]. cbv zeta.
  destruct df as [|r0 df'].
  - left. injection Hshow as <-. cbn [table chart messages].
    repeat split. apply (empty_table_all_raise raw [] Edf). reflexivity.
  - right. cbn iota beta in Hshow.
    destruct (avg_delay_cases sorter (r0 :: df'))
      as [[Hnil Eavg]|[Hne [(rows & series & _ & Eavg)|(e & _ & Eavg)]]];
      rewrite Eavg in Hshow; cbn [bind] in Hshow; try discriminate Hshow;
      injection Hshow as <-; cbn [table chart messages].
    + left. split; [reflexivity|]. split; [discriminate|]. split; [reflexivity|].
      split; [reflexivity|].
      intros r Hr. unfold positive_delays in Hnil.
      apply Z.ltb_ge. exact (proj1 (filter_nil_iff _ _ _) Hnil r Hr).
    + right. exists series.
      split; [reflexivity|]. split; [discriminate|]. split; [reflexivity|].
      split; [exact Eavg|]. split; [reflexivity|].
      destruct (positive_delays (r0 :: df')) as [|p ps] eqn:Epos; [congruence|].
      assert (Hp : In p (positive_delays (r0 :: df'))) by (rewrite Epos; left; reflexivity).
      apply positive_delays_in in Hp. exists p. exact Hp.
Qed.

(** When the client returns, the section raises exactly when
    [process_departures] raises (the frame cannot be made of the delays),
    with its exception, or when the table has a row with a positive delay
    whose line name is a list or an object, with the [TypeError] of the
    grouping. *)
Theorem departures_section_raises :
  forall (selected_station_id : string) (raw : list pyval) (fetch_log : list diagnostic)
         (e : exn),
    get_departures selected_station_id 60 = (Ok raw, fetch_log) ->
    (show_departures selected_station_id = Raise e
     <-> fst (process_departures raw) = Raise e
         \/ (e = TypeError
             /\ exists df r, fst (process_departures raw) = Ok df /\ In r df
                             /\ 0 < Delay_Min r /\ unhashable (Line r) = true)).
Proof.
  intros stop raw fetch_log e Hget.
  unfold show_departures. rewrite Hget.
  destruct (process_departures raw) as [[df|e0] log]; cbn [fst bind].
  2:{ split.
      - intros H. left. congruence.
      - intros [H|(_ & df & r & H & _)]; [congruence | discriminate H]. }
  assert (Hiff : forall P : Prop,
             (P <-> e = TypeError
                    /\ exists r, In r df /\ 0 < Delay_Min r /\ unhashable (Line r) = true) ->
             (P <-> @Ok (list row) df = Raise e
                    \/ (e = TypeError
                        /\ exists df' r, @Ok (list row) df = Ok df' /\ In r df'
                                         /\ 0 < Delay_Min r /\ unhashable (Line r) = true))).
  { intros P HP. rewrite HP. split.
    - intros (He & r & Hr). right. split; [exact He|]. exists df, r. tauto.
    - intros [H|(He & df' & r & Hdf & Hr)]; [discriminate H|].
      injection Hdf as <-. split; [exact He|]. exists r. exact Hr. }
  apply Hiff. clear Hiff.
  destruct df as [|r0 df'].
  - split; [discriminate | intros (_ & r & [] & _)].
  - set (df := r0 :: df').
    assert (Hlab : labelled (positive_delays df) = Raise e
                   <-> e = TypeError
                       /\ exists r, In r df /\ 0 < Delay_Min r /\ unhashable (Line r) = true).
    { rewrite labelled_raises.
      split; intros (He & r & Hr & Hu); (split; [exact He|]); exists r.
      - apply positive_delays_in in Hr. tauto.
      - split; [apply positive_delays_in|]; tauto. }
    destruct (avg_delay_cases sorter df)
      as [[Hnil Eavg]|[Hne [(rows & series & Hrows & Eavg)|(e' & He' & Eavg)]]];
      rewrite Eavg; cbn [bind].
    + split; [discriminate|]. intros H. apply Hlab in H. rewrite Hnil in H. discriminate H.
    + split; [discriminate|]. intros H. apply Hlab in H. congruence.
    + rewrite <- Hlab, He'. split; congruence.
Qed.

End Page_facts.

Lemma get_departures_message_empty :
  forall (config : Config) (network : Network) (stop_id : string) (duration_minutes : Z)
         (departures : list pyval) (log : list diagnostic),
    api_key_missing = false ->
    get_departures stop_id duration_minutes = (Ok departures, log) ->
    log <> [] -> departures = [].
Proof.
  intros config network stop_id duration_minutes departures log Hkey H Hlog.
  unfold get_departures in H. rewrite Hkey in H.
  destruct (requests_get _ _) as [|status_code [|data]].
  - congruence.
  - destruct (is_http_error status_code); congruence.
  - destruct (is_http_error status_code); [congruence|].
    destruct (find_list _ data) as [[found|]|]; congruence.
Qed.

Section Page_degrades.
Context {config : Config} {network : Network}.
Context {parser : DateParser} {clock : Clock} {sorter : Quicksort} {column : Int64Column}.

(** A failure the client catches (no response, an error status, a body that
    is not JSON or holds no list) reaches the user as the message of the
    client followed by the warning that no data is available, with neither
    table nor chart; so does an empty list of departures, without the first
    message. *)
Theorem client_failure_shows_no_data :
  forall (selected_station_id : string) (departures : list pyval) (log : list diagnostic),
    api_key_missing = false ->
    get_departures selected_station_id 60 = (Ok departures, log) ->
    log <> [] \/ departures = [] ->
    show_departures selected_station_id
    = Ok {| messages := map Shown log ++ [WarningNoDepartureData];
            table := None; chart := None |}.
Proof.
  intros stop departures log Hkey Hget Hempty.
  assert (E : departures = []).
  { destruct Hempty as [Hlog|E]; [|exact E].
    exact (get_departures_message_empty _ _ _ _ _ _ Hkey Hget Hlog). }
  subst departures. unfold show_departures. rewrite Hget.
  cbn [process_departures bind]. rewrite app_nil_r. reflexivity.
Qed.

End Page_degrades.

Example show_departures_reply :
  @show_departures configured (replying departures_reply) iso8601_parser
    clock_2025_10_26 stable_sorter x86_64_column "900100003"
  = Ok {| messages := [];
          table := Some [row_of "S1" "Potsdam Hbf" "10:00" "09:58" 0;
                         row_of "U2" "Destination B" "10:17" "10:18" 1];
          chart := Some [(LStr "U2", 1 # 1)] |}.
Proof. vm_compute; reflexivity. Qed.

Lemma departures_section_shows_one_of_three_witness :
  exists view df,
    @show_departures configured (replying departures_reply) iso8601_parser
      clock_2025_10_26 stable_sorter x86_64_column "900100003" = Ok view
    /\ fst (@process_departures iso8601_parser clock_2025_10_26 stable_sorter x86_64_column
              [PDict departure_u2; PDict departure_early]) = Ok df
    /\ table view = Some df.
Proof.
  destruct (@departures_section_shows_one_of_three configured (replying departures_reply)
              iso8601_parser clock_2025_10_26 stable_sorter x86_64_column "900100003"
              [PDict departure_u2; PDict departure_early] [] _
              get_departures_reply show_departures_reply)
    as (df & Hdf & H).
  eexists. exists df. split; [exact show_departures_reply|]. split; [exact Hdf|].
  destruct H as [(H & _)|[(H & _)|(series & H & _)]];
    first [discriminate H | exact H].
Defined.

Lemma departures_section_raises_witness :
  @show_departures configured
    (replying (Response 200 (Json (PList [PDict departure_list_line]))))
    iso8601_parser clock_2025_10_26 stable_sorter x86_64_column "900100003"
  = Raise TypeError.
Proof.
  apply (proj2 (@departures_section_raises configured
                  (replying (Response 200 (Json (PList [PDict departure_list_line]))))
                  iso8601_parser clock_2025_10_26 stable_sorter x86_64_column "900100003"
                  [PDict departure_list_line] [] TypeError eq_refl)).
  right. split; [reflexivity|].
  eexists.
  exists {| Line := PList [PStr "S1"; PStr "S2"]; Direction := PStr "N/A";
            Scheduled := "N/A"; Expected := "N/A"; Delay_Min := 5; Platform := PStr "N/A" |}.
  split; [vm_compute; reflexivity|].
  split; [left; reflexivity|].
  split; [cbn [Delay_Min]; lia | reflexivity].
Defined.

Lemma client_failure_shows_no_data_witness :
  @show_departures configured (replying (Response 503 NotJson)) iso8601_parser
    clock_2025_10_26 stable_sorter x86_64_column "900100003"
  = Ok {| messages := map Shown [StError ErrorGettingDepartures] ++ [WarningNoDepartureData];
          table := None; chart := None |}.
Proof.
  apply (@client_failure_shows_no_data configured (replying (Response 503 NotJson))
           iso8601_parser clock_2025_10_26 stable_sorter x86_64_column "900100003" []
           [StError ErrorGettingDepartures]).
  - reflexivity.
  - reflexivity.
  - left; discriminate.
Defined.
